(** * math_toolbox_mvp: the plan executor, the discovery loop and the
      virtual-tool cache of [multi_agent_toolbox.py]

    The development embeds the Python module shallowly:
    - Python [str] values are Rocq strings of code points U+0000..U+00FF;
    - Python [float] values are IEEE 754 binary64 numbers, taken from the
      standard library's [SpecFloat] (round to nearest, ties to even);
    - values decoded by [json.loads] are the inductive type [json];
    - exceptions are values of type [exn], and code that may raise returns
      a [result]: a value or the exception raised;
    - the module-level dictionaries [virtual_tools] and [success_count]
      are finite maps, threaded through [ask_system] in a record [world].

    What the module imports rather than defines is taken as it is documented:
    [json.loads], the parsing of a string by [float], the C library's [pow]
    and the chat-completion service are parameters of the definitions that
    use them; [random] is a stream of raw draws. *)

From Stdlib Require Import ZArith Bool Ascii String List Lia.
From Stdlib Require Import Floats.SpecFloat.
From stdpp Require Import base option list gmap strings.

Local Open Scope Z_scope.

#[local] Set Warnings "-register-all".

(** ** Python strings *)

Module PyStr.

(** [str.isspace] on one code point below U+0100. *)
Definition isspace (c : ascii) : bool :=
  let n := N_of_ascii c in
  ((9 <=? n) && (n <=? 13) || (28 <=? n) && (n <=? 32)
   || (n =? 133) || (n =? 160))%N.

(** [str.lower] on one code point: A-Z, and the Latin-1 capitals
    U+00C0..U+00DE except the multiplication sign U+00D7. *)
Definition lower_char (c : ascii) : ascii :=
  let n := N_of_ascii c in
  if ((65 <=? n) && (n <=? 90)
      || (192 <=? n) && (n <=? 222) && negb (n =? 215))%N
  then ascii_of_N (n + 32) else c.

(** [str.upper] on one code point.  The sharp s becomes two letters; the
    micro sign U+00B5 and y with diaeresis U+00FF, whose capitals lie
    above U+00FF, are kept as they are. *)
Definition upper_char (c : ascii) : string :=
  let n := N_of_ascii c in
  if ((97 <=? n) && (n <=? 122)
      || (224 <=? n) && (n <=? 254) && negb (n =? 247))%N
  then String (ascii_of_N (n - 32)) EmptyString
  else if (n =? 223)%N then "SS"%string
  else String c EmptyString.

(** [s.lower()] and [s.upper()] for a text of code points up to U+00FF, one
    per character: there [str.lower] works on each character by itself.
    Texts with code points above U+00FF, on which it also looks at the
    neighbours of a character, are outside this model. *)
Fixpoint lower (s : string) : string :=
  match s with
  | EmptyString => EmptyString
  | String c r => String (lower_char c) (lower r)
  end.

Fixpoint upper (s : string) : string :=
  match s with
  | EmptyString => EmptyString
  | String c r => (upper_char c ++ upper r)%string
  end.

Fixpoint lstrip (s : string) : string :=
  match s with
  | EmptyString => EmptyString
  | String c r => if isspace c then lstrip r else s
  end.

Fixpoint rstrip (s : string) : string :=
  match s with
  | EmptyString => EmptyString
  | String c r =>
      match rstrip r with
      | EmptyString => if isspace c then EmptyString else String c EmptyString
      | r' => String c r'
      end
  end.

(** [s.strip()] *)
Definition strip (s : string) : string := rstrip (lstrip s).

(** [needle in hay] *)
Fixpoint contains (needle hay : string) : bool :=
  String.prefix needle hay
  || match hay with
     | EmptyString => false
     | String _ r => contains needle r
     end.

(** The characters of a string, as Python iterates over it. *)
Fixpoint chars (s : string) : list string :=
  match s with
  | EmptyString => []
  | String c r => String c EmptyString :: chars r
  end.

(** The double quote and the line feed, which a literal cannot hold. *)
Definition dquote : string := String (ascii_of_nat 34) EmptyString.
Definition newline : string := String (ascii_of_nat 10) EmptyString.

(** [str(n)] for an integer. *)
Definition digit (n : Z) : string :=
  String (ascii_of_N (48 + Z.to_N n)) EmptyString.

Fixpoint str_of_pos_fuel (fuel : nat) (n : Z) (acc : string) : string :=
  match fuel with
  | O => acc
  | S fuel' =>
      let acc' := (digit (n mod 10) ++ acc)%string in
      if n / 10 =? 0 then acc' else str_of_pos_fuel fuel' (n / 10) acc'
  end.

Definition str_of_int (n : Z) : string :=
  if n <? 0
  then ("-" ++ str_of_pos_fuel (Z.to_nat (Z.log2 (- n)) + 1) (- n) "")%string
  else str_of_pos_fuel (Z.to_nat (Z.log2 n) + 1) n "".

End PyStr.

(** ** Python floats *)

Module PyFloat.

Definition float := spec_float.

Definition prec : Z := 53.
Definition emax : Z := 1024.

Definition of_Z (n : Z) : float := binary_normalize prec emax n 0 false.

Definition zero : float := S754_zero false.
Definition one : float := of_Z 1.
Definition two : float := of_Z 2.

Definition add : float -> float -> float := SFadd prec emax.
Definition sub : float -> float -> float := SFsub prec emax.
Definition mul : float -> float -> float := SFmul prec emax.
Definition div : float -> float -> float := SFdiv prec emax.
Definition eqb : float -> float -> bool := SFeqb.
Definition ltb : float -> float -> bool := SFltb.
Definition abs : float -> float := SFabs.
Definition opp : float -> float := SFopp.

Definition is_nan (x : float) : bool :=
  match x with S754_nan => true | _ => false end.
Definition is_inf (x : float) : bool :=
  match x with S754_infinity _ => true | _ => false end.
Definition sign (x : float) : bool :=
  match x with
  | S754_zero s | S754_infinity s | S754_finite s _ _ => s
  | S754_nan => false
  end.

(** C's [copysign(0.0, y)]. *)
Definition zero_like (y : float) : float := S754_zero (sign y).

(** C's [fmod]: the remainder of the truncated division, which is exact. *)
Definition fmod (x y : float) : float :=
  match x, y with
  | S754_nan, _ | _, S754_nan => S754_nan
  | S754_infinity _, _ => S754_nan
  | _, S754_zero _ => S754_nan
  | _, S754_infinity _ => x
  | S754_zero _, _ => x
  | S754_finite sx mx ex, S754_finite _ my ey =>
      let e := Z.min ex ey in
      let X := Zpos mx * 2 ^ (ex - e) in
      let Y := Zpos my * 2 ^ (ey - e) in
      binary_normalize prec emax (cond_Zopp sx (X mod Y)) e sx
  end.

(** [x] is a whole number ([x == floor(x)] for a finite [x]). *)
Definition is_integer (x : float) : bool :=
  match x with
  | S754_zero _ => true
  | S754_finite _ m e =>
      if 0 <=? e then true else (Zpos m mod 2 ^ (- e) =? 0)
  | _ => false
  end.

(** CPython's [DOUBLE_IS_ODD_INTEGER]: [fmod(fabs(x), 2.0) == 1.0]. *)
Definition is_odd_integer (x : float) : bool :=
  eqb (fmod (abs x) two) one.

(** The exact order between a float and an integer; [None] for a NaN. *)
Definition compare_exact (x : float) (n : Z) : option comparison :=
  match x with
  | S754_nan => None
  | S754_infinity s => Some (if s then Lt else Gt)
  | S754_zero _ => Some (0 ?= n)
  | S754_finite s m e =>
      let v := cond_Zopp s (Zpos m) in
      if 0 <=? e then Some (v * 2 ^ e ?= n)
      else Some (v ?= n * 2 ^ (- e))
  end.

(** A float against an [int], as [float_richcompare] does it: an integer
    of at most 48 bits is converted and the two doubles are compared;
    a longer one is compared exactly. *)
Definition compare_int (x : float) (n : Z) : option comparison :=
  if Z.log2 (Z.abs n) <? 48 then SFcompare x (of_Z n)
  else compare_exact x n.

(** [x == n] and [x >= n] for a float [x] and an integer [n]. *)
Definition eqb_int (x : float) (n : Z) : bool :=
  match compare_int x n with Some Eq => true | _ => false end.
Definition geb_int (x : float) (n : Z) : bool :=
  match compare_int x n with Some (Eq | Gt) => true | _ => false end.

(** The literal [0.4], the nearest double to four tenths. *)
Definition four_tenths : float := S754_finite false 7205759403792794 (-54).

End PyFloat.

Abbreviation float := PyFloat.float.

(** ** Exceptions and results *)

(** The exception classes the module can raise.  [ServiceError] stands for
    whatever the chat-completion client raises, by its class name. *)
Inductive exc_type :=
| ValueError | ZeroDivisionError | IndexError | KeyError | TypeError
| AttributeError | OverflowError | JSONDecodeError
| ServiceError (name : string).

(** An exception: its class and [str(e)]. *)
Record exn := Exn { exc_class : exc_type; exc_str : string }.

Inductive result (A : Type) :=
| Ok (a : A)
| Raised (e : exn).
Arguments Ok {A} a.
Arguments Raised {A} e.

Definition raise {A} (c : exc_type) (msg : string) : result A :=
  Raised (Exn c msg).

Definition rbind {A B} (r : result A) (k : A -> result B) : result B :=
  match r with
  | Ok a => k a
  | Raised e => Raised e
  end.

Notation "'try' x <- c ; k" := (rbind c (fun x => k))
  (at level 10, x name, c at level 100, k at level 200).

(** ** Values *)

(** What [json.loads] returns. A dictionary keeps its items in order, each
    key once. *)
Inductive json :=
| JNull
| JBool (b : bool)
| JInt (n : Z)
| JFloat (f : float)
| JStr (s : string)
| JList (l : list json)
| JDict (d : list (string * json)).

(** The numbers a step can produce: [random.randint] gives an [int], the
    arithmetic a [float], and [**] on a negative base a [complex]. *)
Inductive pyval :=
| VInt (n : Z)
| VFloat (f : float)
| VComplex (re im : float).

(** The parts of the Python runtime the module calls and does not define. *)
Class Runtime := {
  (** [json.loads] *)
  json_loads : string -> result json;
  (** [float(s)] for a string [s]: [None] when [s] is not a number *)
  float_of_str : string -> option float;
  (** C's [pow] on a positive finite base other than 1 and a finite non-zero
      exponent: [None] when the result overflows *)
  libm_pow : float -> float -> option float;
  (** [complex.__pow__] on two floats *)
  complex_pow : float -> float -> float * float;
}.

Definition type_name (j : json) : string :=
  match j with
  | JNull => "NoneType"
  | JBool _ => "bool"
  | JInt _ => "int"
  | JFloat _ => "float"
  | JStr _ => "str"
  | JList _ => "list"
  | JDict _ => "dict"
  end.

Definition quoted (s : string) : string := ("'" ++ s ++ "'")%string.

Fixpoint assoc (k : string) (d : list (string * json)) : option json :=
  match d with
  | [] => None
  | (k', v) :: d' => if String.eqb k k' then Some v else assoc k d'
  end.

(** [obj.get(key, default)] *)
Definition get (obj : json) (key : string) (default : json) : result json :=
  match obj with
  | JDict d => Ok (match assoc key d with Some v => v | None => default end)
  | _ => raise AttributeError
           (quoted (type_name obj) ++ " object has no attribute 'get'")
  end.

(** [len(obj)] *)
Definition len (obj : json) : result Z :=
  match obj with
  | JList l => Ok (Z.of_nat (length l))
  | JStr s => Ok (Z.of_nat (String.length s))
  | JDict d => Ok (Z.of_nat (length d))
  | _ => raise TypeError
           ("object of type " ++ quoted (type_name obj) ++ " has no len()")
  end.

(** [obj.upper()] *)
Definition upper (obj : json) : result string :=
  match obj with
  | JStr s => Ok (PyStr.upper s)
  | _ => raise AttributeError
           (quoted (type_name obj) ++ " object has no attribute 'upper'")
  end.

(** [l[i]] on a sequence, an index below zero counting from the end. *)
Definition index {A} (l : list A) (i : Z) : option A :=
  let n := Z.of_nat (length l) in
  if 0 <=? i then l !! Z.to_nat i
  else if - n <=? i then l !! Z.to_nat (n + i)
  else None.

(** [obj[i]] for an integer [i] *)
Definition getitem (obj : json) (i : Z) : result json :=
  match obj with
  | JList l =>
      match index l i with
      | Some v => Ok v
      | None => raise IndexError "list index out of range"
      end
  | JStr s =>
      match index (PyStr.chars s) i with
      | Some c => Ok (JStr c)
      | None => raise IndexError "string index out of range"
      end
  | JDict _ => raise KeyError (PyStr.str_of_int i)
  | _ => raise TypeError
           (quoted (type_name obj) ++ " object is not subscriptable")
  end.

(** The items [for ... in obj] visits, for an object [len] accepts. *)
Definition items (obj : json) : list json :=
  match obj with
  | JList l => l
  | JStr s => JStr <$> PyStr.chars s
  | JDict d => (fun kv => JStr (fst kv)) <$> d
  | _ => []
  end.

(** [float(n)] for an [int] *)
Definition float_of_int (n : Z) : result float :=
  let f := PyFloat.of_Z n in
  if PyFloat.is_inf f then raise OverflowError "int too large to convert to float"
  else Ok f.

(** [float(obj)] *)
Definition float_of_json `{Runtime} (obj : json) : result float :=
  match obj with
  | JInt n => float_of_int n
  | JFloat f => Ok f
  | JBool b => Ok (if b then PyFloat.one else PyFloat.zero)
  | JStr s =>
      match float_of_str s with
      | Some f => Ok f
      | None => raise ValueError ("could not convert string to float: " ++ quoted s)
      end
  | _ => raise TypeError
           ("float() argument must be a string or a real number, not "
            ++ quoted (type_name obj))
  end.

(** [float(v)] for a step result *)
Definition float_of_val (v : pyval) : result float :=
  match v with
  | VInt n => float_of_int n
  | VFloat f => Ok f
  | VComplex _ _ =>
      raise TypeError
        "float() argument must be a string or a real number, not 'complex'"
  end.

(** [obj >= n] for an integer [n] *)
Definition ge_int (obj : json) (n : Z) : result bool :=
  match obj with
  | JInt i => Ok (n <=? i)
  | JBool b => Ok (n <=? (if b then 1 else 0))
  | JFloat f => Ok (PyFloat.geb_int f n)
  | _ => raise TypeError
           ("'>=' not supported between instances of "
            ++ quoted (type_name obj) ++ " and 'int'")
  end.

(** [results[idx]] *)
Definition results_getitem (results : list pyval) (idx : json) : result pyval :=
  let at_ i := match index results i with
               | Some v => Ok v
               | None => raise IndexError "list index out of range"
               end in
  match idx with
  | JInt i => at_ i
  | JBool b => at_ (if b then 1 else 0)
  | _ => raise TypeError
           ("list indices must be integers or slices, not " ++ type_name idx)
  end.

(** [v == f] for a step result [v] and a float [f] *)
Definition val_eqb (v : pyval) (f : float) : bool :=
  match v with
  | VInt n => PyFloat.eqb_int f n
  | VFloat g => PyFloat.eqb g f
  | VComplex re im => PyFloat.eqb re f && PyFloat.eqb im PyFloat.zero
  end.

(** ** Float operators that can raise *)

(** [a / b] *)
Definition truediv (a b : float) : result float :=
  if PyFloat.eqb b PyFloat.zero then raise ZeroDivisionError "float division by zero"
  else Ok (PyFloat.div a b).

(** [a % b]: C's [fmod], moved to the sign of the divisor. *)
Definition rem (a b : float) : result float :=
  if PyFloat.eqb b PyFloat.zero then raise ZeroDivisionError "float modulo"
  else
    let m := PyFloat.fmod a b in
    if PyFloat.eqb m PyFloat.zero then Ok (PyFloat.zero_like b)
    else if negb (Bool.eqb (PyFloat.ltb b PyFloat.zero) (PyFloat.ltb m PyFloat.zero))
         then Ok (PyFloat.add m b)
         else Ok m.

(** [a ** b], after CPython's [float_pow]: the special cases are decided
    before the C library is asked. *)
Definition pow `{Runtime} (a b : float) : result pyval :=
  if PyFloat.eqb b PyFloat.zero then Ok (VFloat PyFloat.one)
  else if PyFloat.is_nan a then Ok (VFloat a)
  else if PyFloat.is_nan b
       then Ok (VFloat (if PyFloat.eqb a PyFloat.one then PyFloat.one else b))
  else if PyFloat.is_inf b then
    let a' := PyFloat.abs a in
    if PyFloat.eqb a' PyFloat.one then Ok (VFloat PyFloat.one)
    else if Bool.eqb (PyFloat.ltb PyFloat.zero b) (PyFloat.ltb PyFloat.one a')
         then Ok (VFloat (PyFloat.abs b))
         else Ok (VFloat PyFloat.zero)
  else if PyFloat.is_inf a then
    let odd := PyFloat.is_odd_integer b in
    if PyFloat.ltb PyFloat.zero b
    then Ok (VFloat (if odd then a else PyFloat.abs a))
    else Ok (VFloat (if odd then PyFloat.zero_like a else PyFloat.zero))
  else if PyFloat.eqb a PyFloat.zero then
    if PyFloat.ltb b PyFloat.zero
    then raise ZeroDivisionError "0.0 cannot be raised to a negative power"
    else Ok (VFloat (if PyFloat.is_odd_integer b then a else PyFloat.zero))
  else if PyFloat.ltb a PyFloat.zero && negb (PyFloat.is_integer b)
       then let '(re, im) := complex_pow a b in Ok (VComplex re im)
  else
    let negate := PyFloat.ltb a PyFloat.zero && PyFloat.is_odd_integer b in
    let a' := PyFloat.abs a in
    if PyFloat.eqb a' PyFloat.one
    then Ok (VFloat (if negate then PyFloat.opp PyFloat.one else PyFloat.one))
    else
      match libm_pow a' b with
      | Some x => Ok (VFloat (if negate then PyFloat.opp x else x))
      | None => raise OverflowError "(34, 'Numerical result out of range')"
      end.

(** ** The random source and the executor's state *)

(** [random] is a stream of raw draws and the number already consumed.
    [calls] is instrumentation: the invocations of the two unreliable
    primitives, oldest first, with the arguments they were given. *)
Record machine := Machine {
  draws : nat -> Z;
  drawn : nat;
  calls : list (string * float * float);
}.

(** Code that reads the random source and may raise. *)
Definition M (A : Type) : Type := machine -> result A * machine.

Definition ret {A} (a : A) : M A := fun m => (Ok a, m).

Definition throw {A} (c : exc_type) (msg : string) : M A :=
  fun m => (raise c msg, m).

Definition lift {A} (r : result A) : M A := fun m => (r, m).

Definition bind {A B} (c : M A) (k : A -> M B) : M B :=
  fun m =>
    match c m with
    | (Ok a, m') => k a m'
    | (Raised e, m') => (Raised e, m')
    end.

Notation "'do' x <- c ; k" := (bind c (fun x => k))
  (at level 10, x name, c at level 100, k at level 200).

Definition next_draw : M Z :=
  fun m => (Ok (draws m (drawn m)),
            Machine (draws m) (S (drawn m)) (calls m)).

(** [random.random()]: a multiple of 2^-53 in [0, 1). *)
Definition random_random : M float :=
  do k <- next_draw;
  ret (binary_normalize PyFloat.prec PyFloat.emax (k mod 2 ^ 53) (-53) false).

(** [random.randint(lo, hi)]: an integer from [lo] to [hi], both included. *)
Definition random_randint (lo hi : Z) : M Z :=
  do k <- next_draw;
  ret (lo + k mod (hi - lo + 1)).

Definition record_call (tool : string) (a b : float) : M unit :=
  fun m => (Ok tt, Machine (draws m) (drawn m) (calls m ++ [(tool, a, b)])).

(** ** The tool functions *)

Definition fail_rate : float := PyFloat.four_tenths.

Definition unreliable_sum (a b : float) : M pyval :=
  do _ <- record_call "SUM" a b;
  do u <- random_random;
  if PyFloat.ltb u fail_rate
  then do n <- random_randint (-100) 100; ret (VInt n)
  else ret (VFloat (PyFloat.add a b)).

Definition unreliable_product (a b : float) : M pyval :=
  do _ <- record_call "PRODUCT" a b;
  do u <- random_random;
  if PyFloat.ltb u fail_rate
  then do n <- random_randint (-100) 100; ret (VInt n)
  else ret (VFloat (PyFloat.mul a b)).

Definition delta (a b : float) : float := PyFloat.sub b a.

Definition quotient (a b : float) : result float :=
  if PyFloat.eqb_int b 0 then raise ZeroDivisionError "Division by zero."
  else truediv a b.

Definition modulo (a b : float) : result float :=
  if PyFloat.eqb_int b 0 then raise ZeroDivisionError "Modulo by zero."
  else rem a b.

Definition power `{Runtime} (a b : float) : result pyval := pow a b.

Definition absolute (a : float) : float := PyFloat.abs a.

Definition verify_unreliable (tool_name : string) (a b : float)
    (candidate : pyval) : bool :=
  let t := PyStr.upper tool_name in
  if String.eqb t "SUM" then val_eqb candidate (PyFloat.add a b)
  else if String.eqb t "PRODUCT" then val_eqb candidate (PyFloat.mul a b)
  else true.

(** ** Executing a plan *)

Section Execute.
Context `{Runtime}.

(** [float(args[i])] *)
Definition float_arg (args : json) (i : Z) : result float :=
  try x <- getitem args i; float_of_json x.

(** [a, b = float(args[0]), float(args[1])] *)
Definition two_floats (args : json) : result (float * float) :=
  try a <- float_arg args 0;
  try b <- float_arg args 1;
  Ok (a, b).

(** The [if]/[elif] chain of the loop of [execute_plan], for step [i]
    naming [tool] with arguments [args]: the value of [out]. *)
Definition run_tool (i : nat) (tool : string) (args : json) : M pyval :=
  if String.eqb tool "SUM" then
    do n <- lift (len args);
    if n <? 2 then throw ValueError "SUM needs 2 args"
    else
      do ab <- lift (two_floats args);
      let '(a, b) := ab in
      do out <- unreliable_sum a b;
      if negb (verify_unreliable "SUM" a b out)
      then ret (VFloat (PyFloat.add a b))
      else ret out
  else if String.eqb tool "PRODUCT" then
    do n <- lift (len args);
    if n <? 2 then throw ValueError "PRODUCT needs 2 args"
    else
      do ab <- lift (two_floats args);
      let '(a, b) := ab in
      do out <- unreliable_product a b;
      if negb (verify_unreliable "PRODUCT" a b out)
      then ret (VFloat (PyFloat.mul a b))
      else ret out
  else if String.eqb tool "DELTA" then
    do ab <- lift (two_floats args);
    let '(a, b) := ab in
    ret (VFloat (delta a b))
  else if String.eqb tool "QUOTIENT" then
    do ab <- lift (two_floats args);
    let '(a, b) := ab in
    do out <- lift (quotient a b);
    ret (VFloat out)
  else if String.eqb tool "MODULO" then
    do ab <- lift (two_floats args);
    let '(a, b) := ab in
    do out <- lift (modulo a b);
    ret (VFloat out)
  else if String.eqb tool "POWER" then
    do ab <- lift (two_floats args);
    let '(a, b) := ab in
    lift (power a b)
  else if String.eqb tool "ABS" then
    do a <- lift (float_arg args 0);
    ret (VFloat (absolute a))
  else
    throw ValueError
      ("Unknown tool " ++ quoted tool ++ " at step "
       ++ PyStr.str_of_int (Z.of_nat i)).

(** The first two statements of the loop body: [tool] and [args]. *)
Definition step_head (stp : json) : result (string * json) :=
  try tool_obj <- get stp "tool" (JStr "");
  try tool <- upper tool_obj;
  try args <- get stp "args" (JList []);
  Ok (tool, args).

(** The body of the loop of [execute_plan] for step [i]: the value that
    is appended to [results]. *)
Definition run_step (i : nat) (stp : json) : M pyval :=
  do head <- lift (step_head stp);
  run_tool i (fst head) (snd head).

(** [for i, stp in enumerate(steps)], from step [i] on, [results] holding
    the values of the steps before. *)
Fixpoint run_steps (i : nat) (steps : list json) (results : list pyval)
    : M (list pyval) :=
  match steps with
  | [] => ret results
  | stp :: rest =>
      do out <- run_step i stp;
      run_steps (S i) rest (results ++ [out])
  end.

(** [execute_plan] after [json.loads]. *)
Definition execute_loaded (plan : json) : M float :=
  do steps <- lift (get plan "steps" (JList []));
  do n <- lift (len steps);
  do final_idx <- lift (get plan "final_step_index" (JInt (n - 1)));
  do too_large <- lift (ge_int final_idx n);
  if too_large : bool then throw ValueError "invalid final_step_index"
  else
    do results <- run_steps 0 (items steps) [];
    lift (try v <- results_getitem results final_idx; float_of_val v).

Definition execute_plan (plan_text : string) : M float :=
  do plan <- lift (json_loads plan_text);
  execute_loaded plan.

End Execute.

(** ** The conversation with the planner *)

Definition DOC_SUM : string :=
  "SUM: unreliable add. Takes [a,b]. Fails ~40%. Else returns a+b.".
Definition DOC_PRODUCT : string :=
  "PRODUCT: unreliable multiply. Takes [a,b]. Fails ~40%. Else a*b.".
Definition DOC_DELTA : string := "DELTA: reliable difference b-a. Takes [a,b].".
Definition DOC_QUOTIENT : string := "QUOTIENT: reliable a/b. (error if b=0).".
Definition DOC_MODULO : string := "MODULO: reliable a%b. (error if b=0).".
Definition DOC_POWER : string := "POWER: reliable a**b.".
Definition DOC_ABS : string := "ABS: reliable absolute(a). Takes [a], ignoring b.".

Definition in_quotes (s : string) : string :=
  (PyStr.dquote ++ s ++ PyStr.dquote)%string.

Definition SYSTEM_PROMPT : string :=
  String.concat PyStr.newline
    [ "You are a Planner LLM. You do NOT know which tools exist.";
      "You may ask: " ++ in_quotes "Which tools exist?" ++ " ";
      "OR " ++ in_quotes "Tell me about the tool named 'XYZ'"
        ++ " to discover them one by one.";
      "Once you have enough info, produce a final JSON plan:";
      "{";
      "  " ++ in_quotes "steps" ++ ": [";
      "    {" ++ in_quotes "tool" ++ ":" ++ in_quotes "..." ++ ", "
        ++ in_quotes "args" ++ ":[...]}, ";
      "    ...";
      "  ],";
      "  " ++ in_quotes "final_step_index" ++ ": <index>";
      "}";
      "No extra text, just the final JSON when done.";
      "" ]%string.

Record message := Message { role : string; content : string }.

Fixpoint first_contained (names : list string) (text : string) : string :=
  match names with
  | [] => ""
  | t :: rest => if PyStr.contains t text then t else first_contained rest text
  end.

Definition parse_tool_request (text : string) : string :=
  first_contained
    ["sum"; "product"; "delta"; "quotient"; "modulo"; "power"; "abs"] text.

Definition get_tool_doc (tool_name : string) : string :=
  if String.eqb tool_name "sum" then DOC_SUM
  else if String.eqb tool_name "product" then DOC_PRODUCT
  else if String.eqb tool_name "delta" then DOC_DELTA
  else if String.eqb tool_name "quotient" then DOC_QUOTIENT
  else if String.eqb tool_name "modulo" then DOC_MODULO
  else if String.eqb tool_name "power" then DOC_POWER
  else if String.eqb tool_name "abs" then DOC_ABS
  else "No such tool.".

(** The chat-completion service: given how many calls were made before and
    the transcript, the first choice's message, or the exception the call
    (or reading the message out of the response) raises. *)
Definition oracle : Type := nat -> list message -> result message.

(** The markers of a final plan. *)
Definition steps_marker : string := (in_quotes "steps" ++ ":")%string.
Definition final_marker : string := (in_quotes "final_step_index" ++ ":")%string.

Definition names_msg : string :=
  "We have 7 tools: SUM, PRODUCT, DELTA, QUOTIENT, MODULO, POWER, ABS. Ask for doc by name if needed.".
Definition nudge_msg : string :=
  "If you need more tool docs, ask specifically. Otherwise, produce the final JSON plan.".

(** The [while True] loop of [conversation_with_planner], for at most [fuel]
    rounds: [None] when the rounds are used up before the loop is left.
    The second component counts the calls made to the service. *)
Fixpoint planner_loop (chat : oracle) (fuel : nat) (made : nat)
    (messages : list message) : option (result string) * nat :=
  match fuel with
  | O => (None, made)
  | S fuel' =>
      match chat made messages with
      | Raised e => (Some (Raised e), S made)
      | Ok resp =>
          let content := PyStr.strip (content resp) in
          let role := role resp in
          if PyStr.contains steps_marker content
             && PyStr.contains final_marker content
          then (Some (Ok content), S made)
          else
            let messages := messages ++ [Message role content] in
            let lower_content := PyStr.lower content in
            if PyStr.contains "which tools exist" lower_content then
              planner_loop chat fuel' (S made)
                (messages ++ [Message "assistant" names_msg])
            else if PyStr.contains "tell me about the tool named" lower_content
            then
              let t := parse_tool_request lower_content in
              let snippet := get_tool_doc t in
              planner_loop chat fuel' (S made)
                (messages ++ [Message "assistant" snippet])
            else
              planner_loop chat fuel' (S made)
                (messages ++ [Message "assistant" nudge_msg])
      end
  end.

Definition conversation_with_planner (chat : oracle) (fuel : nat) (made : nat)
    (user_question : string) : option (result string) * nat :=
  planner_loop chat fuel made
    [Message "system" SYSTEM_PROMPT; Message "user" user_question].

(** ** The virtual-tool cache and [ask_system] *)

(** The value stored under a signature: [{"plan_text": plan_text}]. *)
Record virtual_tool_entry := VirtualTool { plan_text : string }.

(** The state [ask_system] works on: the two module-level dictionaries, the
    random source, and the number of calls made to the service so far. *)
Record world := World {
  virtual_tools : gmap string virtual_tool_entry;
  success_count : gmap string Z;
  mach : machine;
  oracle_calls : nat;
}.

Definition get_question_signature (question : string) : string :=
  PyStr.lower (PyStr.strip question).

Definition store_virtual_tool (signature plan_text : string) (w : world) : world :=
  World (<[signature := VirtualTool plan_text]> (virtual_tools w))
        (success_count w) (mach w) (oracle_calls w).

Inductive status_tag := success | fail.
Inductive via_tag := virtual_tool | fresh_llm.

(** The dictionary [ask_system] returns: ["answer"] is present on success,
    ["error"] on failure. *)
Record outcome := Outcome {
  question : string;
  plan : string;
  answer : option float;
  error : option string;
  status : status_tag;
  via : via_tag;
}.

(** What a call of [ask_system] does: it returns a dictionary, lets an
    exception escape, or is still in the planner's loop when the rounds
    are used up. *)
Inductive ask_result :=
| Returns (o : outcome)
| Raises (e : exn)
| StillPlanning.

Section Ask.
Context `{Runtime}.
Variable chat : oracle.

Definition with_mach (w : world) (m : machine) : world :=
  World (virtual_tools w) (success_count w) m (oracle_calls w).

Definition ask_system (fuel : nat) (wordy_question : string) (w : world)
    : ask_result * world :=
  let sig := get_question_signature wordy_question in
  match virtual_tools w !! sig with
  | Some entry =>
      let plan_text := plan_text entry in
      match execute_plan plan_text (mach w) with
      | (Ok val, m) =>
          (Returns (Outcome wordy_question plan_text (Some val) None
                      success virtual_tool),
           with_mach w m)
      | (Raised e, m) =>
          (Returns (Outcome wordy_question plan_text None (Some (exc_str e))
                      fail virtual_tool),
           with_mach w m)
      end
  | None =>
      let '(conv, made) :=
        conversation_with_planner chat fuel (oracle_calls w) wordy_question in
      let w := World (virtual_tools w) (success_count w) (mach w) made in
      match conv with
      | None => (StillPlanning, w)
      | Some (Raised e) => (Raises e, w)
      | Some (Ok plan_text) =>
          match execute_plan plan_text (mach w) with
          | (Ok val, m) =>
              let w := with_mach w m in
              let old_count := default 0 (success_count w !! sig) in
              let new_count := old_count + 1 in
              let w := World (virtual_tools w)
                             (<[sig := new_count]> (success_count w))
                             (mach w) (oracle_calls w) in
              let w := if new_count =? 2
                       then store_virtual_tool sig plan_text w else w in
              (Returns (Outcome wordy_question plan_text (Some val) None
                          success fresh_llm),
               w)
          | (Raised e, m) =>
              (Returns (Outcome wordy_question plan_text None
                          (Some (exc_str e)) fail fresh_llm),
               with_mach w m)
          end
      end
  end.

End Ask.

(** ** A runtime to evaluate with

    An instance of [Runtime] for the evaluations below.  It reads the JSON
    texts and the decimal numerals that Python reads, short of [\u] escapes
    in strings and of underscores in numerals, rounds every numeral
    correctly, and computes [pow] for whole exponents. *)

Module Reader.

Definition is_digit (c : ascii) : bool :=
  let n := N_of_ascii c in ((48 <=? n) && (n <=? 57))%N.

Definition digit_value (c : ascii) : Z := Z.of_N (N_of_ascii c) - 48.

(** The quotient [n / d] of two positive integers, correctly rounded. *)
Definition ratio (s : bool) (n d : Z) : float :=
  match n with
  | 0 => S754_zero s
  | _ =>
      let '(mz, ez, lz) :=
        SFdiv_core_binary PyFloat.prec PyFloat.emax n 0 d 0 in
      binary_round_aux PyFloat.prec PyFloat.emax s mz ez lz
  end.

(** The double nearest to [(-1)^s * m * 10^e]. *)
Definition decimal (s : bool) (m e : Z) : float :=
  if 0 <=? e
  then binary_normalize PyFloat.prec PyFloat.emax (cond_Zopp s (m * 10 ^ e)) 0 s
  else ratio s m (10 ^ (- e)).

(** The leading digits of [s]: their value after [v], how many there
    are, and what follows them. *)
Fixpoint digits (s : string) (v : Z) (n : Z) : Z * Z * string :=
  match s with
  | String c r =>
      if is_digit c then digits r (10 * v + digit_value c) (n + 1)
      else (v, n, s)
  | EmptyString => (v, n, s)
  end.

(** A fraction [.ddd], if one starts [s]. *)
Definition fraction (s : string) : Z * Z * string :=
  match s with
  | String "." r =>
      let '(v, n, r') := digits r 0 0 in
      if n =? 0 then (0, 0, s) else (v, n, r')
  | _ => (0, 0, s)
  end.

(** An exponent [e+dd], if one starts [s]. *)
Definition exponent (s : string) : option Z * string :=
  match s with
  | String c r =>
      if Ascii.eqb c "e" || Ascii.eqb c "E" then
        let '(neg, r1) :=
          match r with
          | String "-" r1 => (true, r1)
          | String "+" r1 => (false, r1)
          | _ => (false, r)
          end in
        let '(v, n, r2) := digits r1 0 0 in
        if n =? 0 then (None, s) else (Some (cond_Zopp neg v), r2)
      else (None, s)
  | EmptyString => (None, s)
  end.

(** A JSON number: an [int] when it has neither fraction nor exponent. *)
Definition number (s : string) : option (json * string) :=
  let '(neg, s1) :=
    match s with String "-" r => (true, r) | _ => (false, s) end in
  let '(ip, ni, s2) :=
    match s1 with
    | String "0" r => (0, 1, r)
    | _ => digits s1 0 0
    end in
  if ni =? 0 then
    if String.prefix "NaN" s then Some (JFloat S754_nan, String.substring 3 (String.length s) s)
    else if String.prefix "Infinity" s1
    then Some (JFloat (S754_infinity neg), String.substring 8 (String.length s1) s1)
    else None
  else
    let '(fp, nf, s3) := fraction s2 in
    let '(ex, s4) := exponent s3 in
    match nf, ex with
    | 0, None => Some (JInt (cond_Zopp neg ip), s4)
    | _, _ =>
        Some (JFloat (decimal neg (ip * 10 ^ nf + fp)
                        (match ex with Some e => e | None => 0 end - nf)),
              s4)
    end.

Definition is_ws (c : ascii) : bool :=
  Ascii.eqb c " " || Ascii.eqb c "009" || Ascii.eqb c "010" || Ascii.eqb c "013".

Fixpoint skip_ws (s : string) : string :=
  match s with
  | String c r => if is_ws c then skip_ws r else s
  | EmptyString => s
  end.

(** The rest of a string literal, after its opening quote. *)
Fixpoint string_body (s : string) (acc : string) : option (string * string) :=
  match s with
  | EmptyString => None
  | String c r =>
      if Ascii.eqb c "034" then Some (acc, r)
      else if Ascii.eqb c "\" then
        match r with
        | String e r' =>
            let put x := string_body r' (acc ++ String x EmptyString) in
            if Ascii.eqb e "034" then put "034"%char
            else if Ascii.eqb e "\" then put "\"%char
            else if Ascii.eqb e "/" then put "/"%char
            else if Ascii.eqb e "b" then put "008"%char
            else if Ascii.eqb e "f" then put "012"%char
            else if Ascii.eqb e "n" then put "010"%char
            else if Ascii.eqb e "r" then put "013"%char
            else if Ascii.eqb e "t" then put "009"%char
            else None
        | EmptyString => None
        end
      else if (N_of_ascii c <? 32)%N then None
      else string_body r (acc ++ String c EmptyString)
  end.

(** [d[k] = v] on a dictionary in construction. *)
Fixpoint put (k : string) (v : json) (d : list (string * json))
    : list (string * json) :=
  match d with
  | [] => [(k, v)]
  | (k', v') :: d' =>
      if String.eqb k k' then (k, v) :: d' else (k', v') :: put k v d'
  end.

Fixpoint value (fuel : nat) (s : string) : option (json * string) :=
  match fuel with
  | O => None
  | S fuel' =>
      match s with
      | String "{" r =>
          match skip_ws r with
          | String "}" r' => Some (JDict [], r')
          | r' => members fuel' r' []
          end
      | String "[" r =>
          match skip_ws r with
          | String "]" r' => Some (JList [], r')
          | r' => elements fuel' r' []
          end
      | String "034" r =>
          match string_body r EmptyString with
          | Some (str, r') => Some (JStr str, r')
          | None => None
          end
      | _ =>
          if String.prefix "null" s
          then Some (JNull, String.substring 4 (String.length s) s)
          else if String.prefix "true" s
          then Some (JBool true, String.substring 4 (String.length s) s)
          else if String.prefix "false" s
          then Some (JBool false, String.substring 5 (String.length s) s)
          else number s
      end
  end
with elements (fuel : nat) (s : string) (acc : list json)
    : option (json * string) :=
  match fuel with
  | O => None
  | S fuel' =>
      match value fuel' s with
      | Some (v, r) =>
          match skip_ws r with
          | String "]" r' => Some (JList (acc ++ [v]), r')
          | String "," r' => elements fuel' (skip_ws r') (acc ++ [v])
          | _ => None
          end
      | None => None
      end
  end
with members (fuel : nat) (s : string) (acc : list (string * json))
    : option (json * string) :=
  match fuel with
  | O => None
  | S fuel' =>
      match s with
      | String "034" r =>
          match string_body r EmptyString with
          | Some (k, r1) =>
              match skip_ws r1 with
              | String ":" r2 =>
                  match value fuel' (skip_ws r2) with
                  | Some (v, r3) =>
                      match skip_ws r3 with
                      | String "}" r4 => Some (JDict (put k v acc), r4)
                      | String "," r4 => members fuel' (skip_ws r4) (put k v acc)
                      | _ => None
                      end
                  | None => None
                  end
              | _ => None
              end
          | None => None
          end
      | _ => None
      end
  end.

Definition loads (s : string) : result json :=
  match value (S (String.length s)) (skip_ws s) with
  | Some (v, r) =>
      match skip_ws r with
      | EmptyString => Ok v
      | _ => raise JSONDecodeError "Extra data"
      end
  | None => raise JSONDecodeError "Expecting value"
  end.

(** [float(s)] on a decimal numeral, [inf] or [nan]. *)
Definition read_float (s : string) : option float :=
  let s := PyStr.lower (PyStr.strip s) in
  let '(neg, s1) :=
    match s with
    | String "-" r => (true, r)
    | String "+" r => (false, r)
    | _ => (false, s)
    end in
  if String.eqb s1 "inf" || String.eqb s1 "infinity"
  then Some (S754_infinity neg)
  else if String.eqb s1 "nan" then Some S754_nan
  else
    let '(ip, ni, s2) := digits s1 0 0 in
    let '(fp, nf, s3) :=
      match s2 with
      | String "." r => let '(v, n, r') := digits r 0 0 in (v, n, r')
      | _ => (0, 0, s2)
      end in
    let '(ex, s4) := exponent s3 in
    if (ni + nf =? 0) || negb (String.eqb s4 EmptyString) then None
    else Some (decimal neg (ip * 10 ^ nf + fp)
                 (match ex with Some e => e | None => 0 end - nf)).

(** [x ** k] for a positive [x] and a whole [k], correctly rounded. *)
Definition pow_whole (x : float) (k : Z) : option float :=
  match x with
  | S754_finite _ m e =>
      let n := Z.abs k in
      let r :=
        if 0 <=? k then
          if 0 <=? e
          then PyFloat.of_Z (Zpos m ^ n * 2 ^ (e * n))
          else ratio false (Zpos m ^ n) (2 ^ (- e * n))
        else
          if 0 <=? e
          then ratio false 1 (Zpos m ^ n * 2 ^ (e * n))
          else ratio false (2 ^ (- e * n)) (Zpos m ^ n) in
      if PyFloat.is_inf r then None else Some r
  | _ => Some x
  end.

(** The whole number a float holds. *)
Definition whole (x : float) : option Z :=
  match x with
  | S754_zero _ => Some 0
  | S754_finite s m e =>
      if 0 <=? e then Some (cond_Zopp s (Zpos m * 2 ^ e))
      else if Zpos m mod 2 ^ (- e) =? 0
           then Some (cond_Zopp s (Zpos m / 2 ^ (- e)))
           else None
  | _ => None
  end.

(** C's [pow], for the exponents the evaluations use: whole ones. *)
Definition pow_on_whole (x y : float) : option float :=
  match whole y with
  | Some k => pow_whole x k
  | None => Some S754_nan
  end.

#[export] Instance runtime : Runtime := {|
  json_loads := loads;
  float_of_str := read_float;
  libm_pow := pow_on_whole;
  complex_pow := fun _ _ => (S754_nan, S754_nan);
|}.

End Reader.

(** ** What the claims are stated with *)

(** The failures the specification names, as [execute_plan] raises them. *)
Definition MalformedPlan : exn := Exn ValueError "invalid final_step_index".

Definition ArityMismatch (tool : string) : exn :=
  Exn ValueError (tool ++ " needs 2 args").

Definition is_DivisionByZero (e : exn) : bool :=
  match exc_class e with ZeroDivisionError => true | _ => false end.

(** [r] is the number [expected]: the same float, or one that Python's
    [==] equates with it (an [int] drawn by [randint] becomes a float when
    it is returned, and the two zeros are equal). *)
Definition equal_to (expected r : float) : Prop :=
  r = expected \/ PyFloat.eqb expected r = true.

(** Two runs agree: the same exception, or answers that are the same number. *)
Definition agrees (actual expected : result float) : Prop :=
  match actual, expected with
  | Ok r, Ok x => equal_to x r
  | Raised e, Raised e' => e = e'
  | _, _ => False
  end.

(** *** The exact arithmetic

    The executor with SUM and PRODUCT computed as [a+b] and [a*b]: no random
    source, no candidate, no comparison. *)
Section Exact.
Context `{Runtime}.

Definition exact_tool (i : nat) (tool : string) (args : json) : result pyval :=
  if String.eqb tool "SUM" then
    try n <- len args;
    if n <? 2 then raise ValueError "SUM needs 2 args"
    else try ab <- two_floats args; Ok (VFloat (PyFloat.add (fst ab) (snd ab)))
  else if String.eqb tool "PRODUCT" then
    try n <- len args;
    if n <? 2 then raise ValueError "PRODUCT needs 2 args"
    else try ab <- two_floats args; Ok (VFloat (PyFloat.mul (fst ab) (snd ab)))
  else if String.eqb tool "DELTA" then
    try ab <- two_floats args; Ok (VFloat (delta (fst ab) (snd ab)))
  else if String.eqb tool "QUOTIENT" then
    try ab <- two_floats args;
    try out <- quotient (fst ab) (snd ab); Ok (VFloat out)
  else if String.eqb tool "MODULO" then
    try ab <- two_floats args;
    try out <- modulo (fst ab) (snd ab); Ok (VFloat out)
  else if String.eqb tool "POWER" then
    try ab <- two_floats args; power (fst ab) (snd ab)
  else if String.eqb tool "ABS" then
    try a <- float_arg args 0; Ok (VFloat (absolute a))
  else
    raise ValueError
      ("Unknown tool " ++ quoted tool ++ " at step "
       ++ PyStr.str_of_int (Z.of_nat i)).

Definition exact_step (i : nat) (stp : json) : result pyval :=
  try head <- step_head stp;
  exact_tool i (fst head) (snd head).

Fixpoint exact_steps (i : nat) (steps : list json) (results : list pyval)
    : result (list pyval) :=
  match steps with
  | [] => Ok results
  | stp :: rest =>
      try out <- exact_step i stp;
      exact_steps (S i) rest (results ++ [out])
  end.

Definition exact_loaded (plan : json) : result float :=
  try steps <- get plan "steps" (JList []);
  try n <- len steps;
  try final_idx <- get plan "final_step_index" (JInt (n - 1));
  try too_large <- ge_int final_idx n;
  if too_large : bool then raise ValueError "invalid final_step_index"
  else
    try results <- exact_steps 0 (items steps) [];
    try v <- results_getitem results final_idx;
    float_of_val v.

Definition exact_plan (plan_text : string) : result float :=
  try plan <- json_loads plan_text;
  exact_loaded plan.

(** The invocation of an unreliable primitive that a step naming [tool]
    with arguments [args] makes: the primitive and the two floats it is
    given.  A step of another tool, or one that fails before the call,
    makes none. *)
Definition tool_call (tool : string) (args : json)
    : option (string * float * float) :=
  if String.eqb tool "SUM" || String.eqb tool "PRODUCT" then
    match len args, two_floats args with
    | Ok n, Ok (a, b) => if n <? 2 then None else Some (tool, a, b)
    | _, _ => None
    end
  else None.

Definition unreliable_call (stp : json) : option (string * float * float) :=
  match step_head stp with
  | Ok (tool, args) => tool_call tool args
  | Raised _ => None
  end.

(** The step names SUM or PRODUCT. *)
Definition is_unreliable_step (stp : json) : bool :=
  match step_head stp with
  | Ok (tool, _) => String.eqb tool "SUM" || String.eqb tool "PRODUCT"
  | Raised _ => false
  end.

(** The steps of a plan that [json.loads] accepts. *)
Definition steps_of (plan_text : string) : list json :=
  match json_loads plan_text with
  | Ok plan =>
      match get plan "steps" (JList []) with
      | Ok steps => items steps
      | Raised _ => []
      end
  | Raised _ => []
  end.

End Exact.

(** A recorded step result against the exact one: the same value, or the
    integer that [randint] drew and that compared equal to the exact float. *)
Definition val_agrees (v x : pyval) : Prop :=
  v = x \/
  exists n f, v = VInt n /\ x = VFloat f /\ -100 <= n <= 100
              /\ PyFloat.eqb_int f n = true.

Definition step_agrees (actual expected : result pyval) : Prop :=
  match actual, expected with
  | Ok v, Ok x => val_agrees v x
  | Raised e, Raised e' => e = e'
  | _, _ => False
  end.

(** Two request texts that differ only in letter case or in white space at
    their ends: the least equivalence that drops a white-space character at
    either end and exchanges two characters with the same lower-case form. *)
Inductive same_request : string -> string -> Prop :=
| same_refl s : same_request s s
| same_sym s t : same_request s t -> same_request t s
| same_trans s t u : same_request s t -> same_request t u -> same_request s u
| same_leading c s :
    PyStr.isspace c = true -> same_request (String c s) s
| same_trailing c s :
    PyStr.isspace c = true -> same_request (s ++ String c EmptyString) s
| same_case c c' s t :
    PyStr.lower_char c = PyStr.lower_char c' ->
    same_request (s ++ String c t) (s ++ String c' t).

(** A string that does not begin with white space. *)
Definition trimmed_left (s : string) : Prop :=
  match s with
  | EmptyString => True
  | String c _ => PyStr.isspace c = false
  end.

(** *** Reaching a step *)

Section Reaching.
Context `{Runtime}.

(** The execution of [plan] from [m] gets to its [i]-th step [stp] with
    the machine in [m1]: the final-step index has passed the range check
    and every earlier step has run without an exception. *)
Definition reaches (plan : json) (m : machine) (i : nat) (stp : json)
    (m1 : machine) : Prop :=
  exists steps n final_idx pre post rs,
    get plan "steps" (JList []) = Ok steps
    /\ len steps = Ok n
    /\ get plan "final_step_index" (JInt (n - 1)) = Ok final_idx
    /\ ge_int final_idx n = Ok false
    /\ items steps = pre ++ stp :: post
    /\ length pre = i
    /\ run_steps 0 pre [] m = (Ok rs, m1).

(** [stp] is one of the steps of [plan]. *)
Definition has_step (plan : json) (stp : json) : Prop :=
  exists steps, get plan "steps" (JList []) = Ok steps /\ stp ∈ items steps.

(** A QUOTIENT or MODULO step with two numbers, the second of them zero. *)
Definition divides_by_zero (stp : json) : Prop :=
  exists tool args a b,
    step_head stp = Ok (tool, args)
    /\ (tool = "QUOTIENT" \/ tool = "MODULO")%string
    /\ two_floats args = Ok (a, b)
    /\ PyFloat.eqb_int b 0 = true.

End Reaching.

(** *** The cache *)

(** The plan text cached under a signature, and [success_count.get(sig, 0)]. *)
Definition cached (w : world) (sig : string) : option string :=
  plan_text <$> virtual_tools w !! sig.

Definition count_of (w : world) (sig : string) : Z :=
  default 0 (success_count w !! sig).

(** The plan text a call of [ask_system] works with: the cached one, or what
    the conversation with the planner comes to. *)
Definition plan_in_use (chat : oracle) (fuel : nat) (q : string) (w : world)
    : option (result string) :=
  match virtual_tools w !! get_question_signature q with
  | Some entry => Some (Ok (plan_text entry))
  | None => fst (conversation_with_planner chat fuel (oracle_calls w) q)
  end.

(** The dictionary has the keys of its status. *)
Definition well_formed (o : outcome) : Prop :=
  match status o with
  | success => is_Some (answer o) /\ error o = None
  | fail => answer o = None /\ is_Some (error o)
  end.

(** The status of the dictionary a call returned, if it returned one. *)
Definition status_of (r : ask_result) : option status_tag :=
  match r with
  | Returns o => Some (status o)
  | _ => None
  end.

(** ** Further notions *)

(** The names the executor dispatches on, as [run_tool] compares them. *)
Definition tool_names : list string :=
  ["SUM"; "PRODUCT"; "DELTA"; "QUOTIENT"; "MODULO"; "POWER"; "ABS"]%string.

Definition known_tool (tool : string) : bool :=
  existsb (String.eqb tool) tool_names.

(** The message of the exception for a step that names no primitive. *)
Definition UnknownTool (tool : string) (i : nat) : exn :=
  Exn ValueError
    ("Unknown tool " ++ quoted tool ++ " at step " ++ PyStr.str_of_int (Z.of_nat i)).

(** The names [parse_tool_request] looks for, in its order. *)
Definition request_names : list string :=
  ["sum"; "product"; "delta"; "quotient"; "modulo"; "power"; "abs"]%string.

(** The number the next call of [random.random()] returns. *)
Definition next_random (m : machine) : float :=
  binary_normalize PyFloat.prec PyFloat.emax (draws m (drawn m) mod 2 ^ 53) (-53) false.

(** [needle in text] of Python, as a statement: the text is some text, then
    the needle, then some text. *)
Definition occurs_in (needle text : string) : Prop :=
  exists before after, text = (before ++ needle ++ after)%string.

(** Everything [conversation_with_planner] itself ever says to the planner
    after the system prompt: the list of names, the nudge, one documentation
    snippet, or that there is no such tool. *)
Definition system_says : list string :=
  [names_msg; nudge_msg; DOC_SUM; DOC_PRODUCT; DOC_DELTA; DOC_QUOTIENT;
   DOC_MODULO; DOC_POWER; DOC_ABS; "No such tool."%string].

Definition message_eqb (a b : message) : bool :=
  String.eqb (role a) (role b) && String.eqb (content a) (content b).

(** What [conversation_with_planner] says after a reply with the content
    [reply]: one of [system_says]; the list of names exactly when the reply,
    in lower case, asks which tools exist; the nudge exactly when the reply
    holds neither of the two request phrases. *)
Definition may_say (reply said : string) : bool :=
  let asked_which :=
    PyStr.contains "which tools exist" (PyStr.lower reply) in
  let asked_about :=
    PyStr.contains "tell me about the tool named" (PyStr.lower reply) in
  existsb (String.eqb said) system_says
  && Bool.eqb (String.eqb said names_msg) asked_which
  && Bool.eqb (String.eqb said nudge_msg) (negb asked_which && negb asked_about).

(** The rounds of a transcript: [sent] is what went with call [n] of the
    service and [rest] what has been appended since.  Each round is the
    reply the service gave to what had been sent, with the role of the
    reply and its content stripped, followed by an assistant message whose
    text [may_say] allows after that reply. *)
Fixpoint rounds (chat : oracle) (n : nat) (sent rest : list message) : bool :=
  match rest with
  | [] => true
  | reply :: a :: rest' =>
      match chat n sent with
      | Ok resp =>
          message_eqb reply (Message (role resp) (PyStr.strip (content resp)))
      | Raised _ => false
      end
      && String.eqb (role a) "assistant"
      && may_say (content reply) (content a)
      && rounds chat (S n) (sent ++ [reply; a]) rest'
  | _ => false
  end.

(** The transcript of the [k]-th call of a conversation about
    [user_question] that began when [made] calls had been made: the system
    prompt, the question, and [k] rounds with the service [chat]. *)
Definition well_kept (chat : oracle) (made : nat) (user_question : string)
    (k : nat) (msgs : list message) : bool :=
  match msgs with
  | sys :: usr :: rest =>
      message_eqb sys (Message "system" SYSTEM_PROMPT)
      && message_eqb usr (Message "user" user_question)
      && rounds chat made [sys; usr] rest
      && Nat.eqb (length rest) (2 * k)
  | _ => false
  end.

(** A service that refuses every transcript that is not [well_kept]; [made]
    is the number of calls made before the conversation started. *)
Definition strict (user_question : string) (made : nat) (chat : oracle) : oracle :=
  fun n msgs =>
    if well_kept chat made user_question (n - made) msgs then chat n msgs
    else raise (ServiceError "InvalidRequestError") "unexpected transcript".

(** Every character of the string is white space. *)
Fixpoint blank (s : string) : bool :=
  match s with
  | EmptyString => true
  | String c r => PyStr.isspace c && blank r
  end.

(** *** Runs of requests *)

(** How a loop of calls of [ask_system] ends. *)
Inductive ending :=
| Finished
| Escaped (e : exn)
| Stuck.

Section Runs.
Context `{Runtime}.

(** [for q in queries: result = ask_system(q)], the loop of [main]: the
    results obtained, in order, until a call lets an exception escape. *)
Fixpoint ask_all (chat : oracle) (fuel : nat) (qs : list string)
    (w : world) : list outcome * ending * world :=
  match qs with
  | [] => ([], Finished, w)
  | q :: rest =>
      match ask_system chat fuel q w with
      | (Returns o, w') =>
          let '(os, e, w'') := ask_all chat fuel rest w' in
          (o :: os, e, w'')
      | (Raises e, w') => ([], Escaped e, w')
      | (StillPlanning, w') => ([], Stuck, w')
      end
  end.

(** The worlds [ask_system] can be in: the module as loaded, and what any
    call makes of such a world. *)
Inductive reachable : world -> Prop :=
| reachable_initial m n : reachable (World ∅ ∅ m n)
| reachable_ask chat fuel q w :
    reachable w -> reachable (snd (ask_system chat fuel q w)).

End Runs.

(** The questions of [main]. *)
Definition queries : list string :=
  [ "John has 3 apples, Mary has 5. Combine them, then multiply the total by 2.";
    "Compute the difference of 10 and 3, then do product with 4.";
    "Compute the difference of 10 and 3, then do product with 4.";
    "John has 3 apples, Mary has 5. Combine them, then multiply the total by 2.";
    "Compute the difference of 10 and 3, then do product with 4.";
    "Absolute of -6, then sum 4 to that result." ]%string.

(** [main], without its printing: what [ask_system] returned for each
    question. *)
Definition main `{Runtime} (chat : oracle) (fuel : nat) (w : world)
    : list outcome * ending * world :=
  ask_all chat fuel queries w.

(** How many of the requests have the signature [sig]. *)
Definition seen (sig : string) (qs : list string) : nat :=
  length (filter (fun q => get_question_signature q = sig) qs).

(** What holds of the two dictionaries in every reachable world: a counter
    is 0, 1 or 2; a signature is cached exactly when its counter is 2; and
    a cached text is a final plan of the planner, as the conversation
    returned it, that runs in the exact arithmetic. *)
Definition cache_invariant `{Runtime} (w : world) : Prop :=
  forall sig,
    0 <= count_of w sig <= 2
    /\ match cached w sig with
       | Some p =>
           count_of w sig = 2
           /\ PyStr.contains steps_marker p = true
           /\ PyStr.contains final_marker p = true
           /\ PyStr.strip p = p
           /\ exists x, exact_plan p = Ok x
       | None => count_of w sig <= 1
       end.

(** The dictionaries after the requests [past], each answered with a
    success: counters and cache entries as the number of requests seen
    under each signature makes them. *)
Definition counted (past : list string) (w : world) : Prop :=
  forall sig,
    count_of w sig = Z.min 2 (Z.of_nat (seen sig past))
    /\ (is_Some (cached w sig) <-> (2 <= seen sig past)%nat).

(** ** Inputs to evaluate on *)

Module Examples.

(** A step and a plan, as JSON text. *)
Definition step (tool args : string) : string :=
  ("{" ++ in_quotes "tool" ++ ":" ++ in_quotes tool ++ ","
   ++ in_quotes "args" ++ ":" ++ args ++ "}")%string.

Definition steps_field (steps : list string) : string :=
  (in_quotes "steps" ++ ":[" ++ String.concat "," steps ++ "]")%string.

Definition plan_of (steps : list string) (final : string) : string :=
  ("{" ++ steps_field steps ++ "," ++ in_quotes "final_step_index" ++ ":"
   ++ final ++ "}")%string.

(** A plan text without the [final_step_index] field. *)
Definition plan_without_final (steps : list string) : string :=
  ("{" ++ steps_field steps ++ "}")%string.

(** A random source whose every draw is 0: [random.random()] gives 0.0,
    so each unreliable call takes its failure branch, and [randint]
    gives -100. *)
Definition failing_source : machine := Machine (fun _ => 0) 0 [].

(** A random source whose [random.random()] is always 1 - 2^-53: no
    unreliable call fails. *)
Definition steady_source : machine := Machine (fun _ => 2 ^ 53 - 1) 0 [].

(** Example 1 of the specification. *)
Definition delta_then_product : string :=
  plan_of [step "DELTA" "[10,3]"; step "PRODUCT" "[7,4]"] "1".

(** The module as it is loaded: both dictionaries empty, no call made. *)
Definition initial (m : machine) : world := World ∅ ∅ m 0.

(** A service that answers its [n]-th call with the [n]-th reply of a
    script, and fails to connect once the script is over. *)
Definition scripted (replies : list (result message)) : oracle :=
  fun made _ =>
    match replies !! made with
    | Some r => r
    | None => raise (ServiceError "APIConnectionError")
                "Error communicating with OpenAI"
    end.

Definition says (text : string) : result message :=
  Ok (Message "assistant" text).

(** A service that is out of quota. *)
Definition rate_limited : oracle :=
  fun _ _ => raise (ServiceError "RateLimitError") "You exceeded your current quota".

Definition quotient_by_zero : string := plan_of [step "QUOTIENT" "[5,0]"] "0".

Definition request : string := "Compute the difference of 10 and 3, then do product with 4.".

Definition absolute_only : string := plan_of [step "ABS" "[-28]"] "0".

(** A world in which the request is already cached, with a plan that
    divides by zero. *)
Definition cached_world : world :=
  World {[ get_question_signature request := VirtualTool quotient_by_zero ]} ∅
        failing_source 0.

(** A planner that gives a good plan, then one that fails, then another
    good one. *)
Definition good_bad_good : oracle :=
  scripted [says delta_then_product; says quotient_by_zero; says absolute_only].

(** A planner that gives two good plans. *)
Definition good_good : oracle :=
  scripted [says delta_then_product; says absolute_only].

Definition delta_then_quotient_by_zero : string :=
  plan_of [step "DELTA" "[10,3]"; step "QUOTIENT" "[5,0]"] "1".

(** A division by zero in a plan whose final-step index is out of range. *)
Definition quotient_by_zero_final_5 : string :=
  plan_of [step "QUOTIENT" "[5,0]"] "5".

Definition power_zero_negative : string :=
  plan_of [step "DELTA" "[10,3]"; step "POWER" "[0,-1]"] "1".

(** Example 3 of the specification: two steps, final-step index 5. *)
Definition final_index_5 : string :=
  plan_of [step "DELTA" "[10,3]"; step "PRODUCT" "[7,4]"] "5".

Definition final_index_minus_5 : string :=
  plan_of [step "DELTA" "[10,3]"; step "PRODUCT" "[7,4]"] "-5".

Definition final_index_minus_1 : string :=
  plan_of [step "DELTA" "[10,3]"; step "PRODUCT" "[7,4]"] "-1".

Definition delta_three_args : string := plan_of [step "DELTA" "[10,3,99]"] "0".

Definition abs_two_args : string := plan_of [step "ABS" "[-6,1]"] "0".

Definition delta_one_arg : string := plan_of [step "DELTA" "[10]"] "0".

Definition sum_one_arg : string :=
  plan_of [step "DELTA" "[10,3]"; step "SUM" "[1]"] "1".

Definition no_final_index : string :=
  plan_without_final [step "DELTA" "[10,3]"; step "ABS" "[-6]"].

(** The same steps and plans as [json.loads] returns them. *)
Definition loaded_step (tool : string) (args : list json) : json :=
  JDict [("tool", JStr tool); ("args", JList args)]%string.

Definition loaded_plan (steps : list json) (final : Z) : json :=
  JDict [("steps", JList steps); ("final_step_index", JInt final)]%string.

Definition delta_10_3 : json := loaded_step "DELTA" [JInt 10; JInt 3].
Definition quotient_5_0 : json := loaded_step "QUOTIENT" [JInt 5; JInt 0].
Definition power_0_minus_1 : json := loaded_step "POWER" [JInt 0; JInt (-1)].
Definition sum_1 : json := loaded_step "SUM" [JInt 1].
Definition abs_minus_6 : json := loaded_step "ABS" [JInt (-6)].

End Examples.
(** ** Further inputs *)

Module Scenarios.
Import Examples.

Definition product_7_4 : json := loaded_step "PRODUCT" [JInt 7; JInt 4].

(** A plan that uses no unreliable primitive. *)
Definition delta_then_abs : string :=
  plan_of [step "DELTA" "[10,3]"; step "ABS" "[-6]"] "1".

(** A plan whose second step names no primitive. *)
Definition delta_then_cube : string :=
  plan_of [step "DELTA" "[10,3]"; step "CUBE" "[2]"] "1".

(** A plan object with an empty list of steps and no final-step index. *)
Definition no_steps : string := plan_without_final [].

(** A plan whose final-step index is the text 0, not the number. *)
Definition final_index_as_text : string :=
  plan_of [step "DELTA" "[10,3]"] (in_quotes "0").

(** The text stra, sharp s (U+00DF), e. *)
Definition strasse : string :=
  ("stra" ++ String (ascii_of_nat 223) "e")%string.

(** The request of [Examples.request], shouted and padded. *)
Definition request_shouted : string :=
  "  COMPUTE THE DIFFERENCE OF 10 AND 3, THEN DO PRODUCT WITH 4. ".

(** The module after it has answered [request] twice from fresh plans. *)
Definition asked_twice : world :=
  snd (@ask_system Reader.runtime good_good 1 request
         (snd (@ask_system Reader.runtime good_good 1 request
                 (World ∅ ∅ steady_source 0)))).

(** A planner that only chats. *)
Definition chatty : oracle := fun _ _ => says "Let me think about it.".

(** A planner with a good plan for each of its first five calls. *)
Definition five_plans : oracle :=
  scripted [says (plan_of [step "SUM" "[3,5]"; step "PRODUCT" "[8,2]"] "1");
            says delta_then_product;
            says delta_then_product;
            says (plan_of [step "SUM" "[3,5]"; step "PRODUCT" "[8,2]"] "1");
            says (plan_of [step "ABS" "[-6]"; step "SUM" "[6,4]"] "1")].

End Scenarios.


(** * Proofs *)

(** ** The executor against the exact arithmetic *)

Section ExactProofs.
Context `{Runtime}.

Lemma randint_range lo hi k : lo <= hi -> lo <= lo + k mod (hi - lo + 1) <= hi.
Proof.
  intros Hle. pose proof (Z.mod_pos_bound k (hi - lo + 1)). lia.
Qed.

Lemma unreliable_sum_runs a b m :
  exists v,
    unreliable_sum a b m
    = (Ok v, Machine (draws m)
               (drawn (snd (unreliable_sum a b m)))
               (calls m ++ [("SUM"%string, a, b)]))
    /\ (v = VFloat (PyFloat.add a b) \/ exists n, v = VInt n /\ -100 <= n <= 100).
Proof.
  unfold unreliable_sum, bind, record_call, random_random, random_randint,
    next_draw, ret; simpl.
  destruct (PyFloat.ltb _ fail_rate); simpl.
  - eexists; split; [reflexivity|]. right. eexists; split; [reflexivity|].
    apply (randint_range (-100) 100); lia.
  - eexists; split; [reflexivity|]. by left.
Qed.

Lemma unreliable_product_runs a b m :
  exists v,
    unreliable_product a b m
    = (Ok v, Machine (draws m)
               (drawn (snd (unreliable_product a b m)))
               (calls m ++ [("PRODUCT"%string, a, b)]))
    /\ (v = VFloat (PyFloat.mul a b) \/ exists n, v = VInt n /\ -100 <= n <= 100).
Proof.
  unfold unreliable_product, bind, record_call, random_random, random_randint,
    next_draw, ret; simpl.
  destruct (PyFloat.ltb _ fail_rate); simpl.
  - eexists; split; [reflexivity|]. right. eexists; split; [reflexivity|].
    apply (randint_range (-100) 100); lia.
  - eexists; split; [reflexivity|]. by left.
Qed.

Lemma step_agrees_refl r : step_agrees r r.
Proof. destruct r; simpl; [by left|done]. Qed.

Lemma run_tool_exact i tool args m :
  step_agrees (fst (run_tool i tool args m)) (exact_tool i tool args)
  /\ calls (snd (run_tool i tool args m)) = calls m ++ option_list (tool_call tool args)
  /\ draws (snd (run_tool i tool args m)) = draws m.
Proof.
  unfold run_tool, exact_tool, tool_call.
  destruct (String.eqb tool "SUM") eqn:Hsum.
  { apply String.eqb_eq in Hsum as ->. simpl.
    unfold bind, lift, throw, rbind.
    destruct (len args) as [n|e]; simpl; [|destruct (two_floats args) as [[??]|?]; by rewrite app_nil_r].
    destruct (n <? 2); simpl; [destruct (two_floats args) as [[??]|?]; by rewrite app_nil_r|].
    destruct (two_floats args) as [[a b]|e]; simpl; [|by rewrite app_nil_r].
    destruct (unreliable_sum_runs a b m) as (v & -> & Hv).
    unfold verify_unreliable; simpl.
    destruct Hv as [->|(n' & -> & Hn)]; simpl.
    - destruct (PyFloat.eqb _ _); simpl; repeat split; by left.
    - destruct (PyFloat.eqb_int _ _) eqn:Heq; simpl; repeat split.
      + right. by exists n', (PyFloat.add a b).
      + by left. }
  destruct (String.eqb tool "PRODUCT") eqn:Hprod.
  { apply String.eqb_eq in Hprod as ->. simpl.
    unfold bind, lift, throw, rbind.
    destruct (len args) as [n|e]; simpl; [|destruct (two_floats args) as [[??]|?]; by rewrite app_nil_r].
    destruct (n <? 2); simpl; [destruct (two_floats args) as [[??]|?]; by rewrite app_nil_r|].
    destruct (two_floats args) as [[a b]|e]; simpl; [|by rewrite app_nil_r].
    destruct (unreliable_product_runs a b m) as (v & -> & Hv).
    unfold verify_unreliable; simpl.
    destruct Hv as [->|(n' & -> & Hn)]; simpl.
    - destruct (PyFloat.eqb _ _); simpl; repeat split; by left.
    - destruct (PyFloat.eqb_int _ _) eqn:Heq; simpl; repeat split.
      + right. by exists n', (PyFloat.mul a b).
      + by left. }
  simpl. rewrite app_nil_r.
  unfold bind, lift, throw, ret, rbind.
  repeat match goal with
         | |- context [if ?b then _ else _] => destruct b
         | |- context [match two_floats ?a with _ => _ end] =>
             destruct (two_floats a) as [[??]|?]; simpl
         | |- context [match float_arg ?a ?i with _ => _ end] =>
             destruct (float_arg a i); simpl
         | |- context [match quotient ?a ?b with _ => _ end] =>
             destruct (quotient a b); simpl
         | |- context [match modulo ?a ?b with _ => _ end] =>
             destruct (modulo a b); simpl
         | |- context [match power ?a ?b with _ => _ end] =>
             destruct (power a b); simpl
         end; simpl; repeat split; try done; try (by left); try apply step_agrees_refl.
Qed.

Lemma run_step_exact i stp m :
  step_agrees (fst (run_step i stp m)) (exact_step i stp)
  /\ calls (snd (run_step i stp m)) = calls m ++ option_list (unreliable_call stp)
  /\ draws (snd (run_step i stp m)) = draws m.
Proof.
  unfold run_step, exact_step, unreliable_call, bind, lift, rbind.
  destruct (step_head stp) as [[tool args]|e]; simpl.
  - apply run_tool_exact.
  - by rewrite app_nil_r.
Qed.

Lemma run_steps_exact steps : forall i rs xs m,
  Forall2 val_agrees rs xs ->
  match fst (run_steps i steps rs m), exact_steps i steps xs with
  | Ok rs', Ok xs' =>
      Forall2 val_agrees rs' xs'
      /\ calls (snd (run_steps i steps rs m))
         = calls m ++ omap unreliable_call steps
  | Raised e, Raised e' => e = e'
  | _, _ => False
  end.
Proof.
  induction steps as [|stp rest IH]; intros i rs xs m Hrs; simpl.
  - split; [done|by rewrite app_nil_r].
  - unfold bind, rbind.
    destruct (run_step_exact i stp m) as (Hstep & Hcalls & _).
    destruct (run_step i stp m) as [[v|e] m1]; simpl in *;
      destruct (exact_step i stp) as [x|e']; simpl in *; try done.
    specialize (IH (S i) (rs ++ [v]) (xs ++ [x]) m1).
    destruct (fst (run_steps (S i) rest (rs ++ [v]) m1)) as [rs'|e];
      destruct (exact_steps (S i) rest (xs ++ [x])) as [xs'|e'];
      try (by apply IH, Forall2_app; [|constructor]).
    destruct IH as [Hall Hlog]; [by apply Forall2_app; [|constructor]|].
    split; [done|]. rewrite Hlog, Hcalls.
    destruct (unreliable_call stp); simpl; by rewrite <- ?app_assoc, ?app_nil_r.
Qed.

Lemma index_Forall2 {A B} (R : A -> B -> Prop) l k i :
  Forall2 R l k ->
  match index l i, index k i with
  | Some a, Some b => R a b
  | None, None => True
  | _, _ => False
  end.
Proof.
  intros Hlk. unfold index. rewrite <- (Forall2_length _ _ _ Hlk).
  assert (forall j, match l !! j, k !! j with
                    | Some a, Some b => R a b
                    | None, None => True
                    | _, _ => False
                    end) as Hj.
  { intros j. destruct (l !! j) as [a|] eqn:Hl.
    - destruct (Forall2_lookup_l _ _ _ _ _ Hlk Hl) as (b & -> & Hab). done.
    - destruct (k !! j) as [b|] eqn:Hk; [|done].
      destruct (Forall2_lookup_r _ _ _ _ _ Hlk Hk) as (a & Ha & _). congruence. }
  destruct (0 <=? i); [apply Hj|].
  destruct (_ <=? i); [apply Hj|done].
Qed.

Lemma small_int_finite n :
  -100 <= n <= 100 -> PyFloat.is_inf (PyFloat.of_Z n) = false.
Proof.
  intros Hn.
  assert (forallb (fun k => negb (PyFloat.is_inf (PyFloat.of_Z (Z.of_nat k - 100))))
            (seq 0 201) = true) as Hall by (vm_compute; reflexivity).
  rewrite forallb_forall in Hall.
  specialize (Hall (Z.to_nat (n + 100))).
  replace (Z.of_nat (Z.to_nat (n + 100)) - 100) with n in Hall by lia.
  apply negb_true_iff, Hall, in_seq. lia.
Qed.

Lemma small_int_short n : -100 <= n <= 100 -> (Z.log2 (Z.abs n) <? 48) = true.
Proof.
  intros Hn. apply Z.ltb_lt.
  assert (Z.log2 (Z.abs n) <= Z.log2 100) by (apply Z.log2_le_mono; lia).
  change (Z.log2 100) with 6 in *. lia.
Qed.

Lemma float_of_val_agrees v x :
  val_agrees v x -> agrees (float_of_val v) (float_of_val x).
Proof.
  intros [->|(n & f & -> & -> & Hn & Heq)].
  - destruct (float_of_val x); simpl; [by left|done].
  - simpl. unfold float_of_int. rewrite small_int_finite by done. simpl.
    right. unfold PyFloat.eqb_int, PyFloat.compare_int in Heq.
    rewrite small_int_short in Heq by done.
    unfold PyFloat.eqb, SFeqb. by destruct (SFcompare _ _) as [[]|].
Qed.

Lemma results_getitem_agrees rs xs idx :
  Forall2 val_agrees rs xs ->
  step_agrees (results_getitem rs idx) (results_getitem xs idx).
Proof.
  intros Hrs. unfold results_getitem.
  destruct idx; try apply step_agrees_refl.
  - pose proof (index_Forall2 _ _ _ (if b then 1 else 0) Hrs) as Hi.
    destruct (index rs _), (index xs _); done.
  - pose proof (index_Forall2 _ _ _ n Hrs) as Hi.
    destruct (index rs _), (index xs _); done.
Qed.

Lemma execute_loaded_exact plan m :
  agrees (fst (execute_loaded plan m)) (exact_loaded plan)
  /\ (forall r, fst (execute_loaded plan m) = Ok r ->
      exists steps, get plan "steps" (JList []) = Ok steps
        /\ calls (snd (execute_loaded plan m))
           = calls m ++ omap unreliable_call (items steps)
        /\ exists xs, exact_steps 0 (items steps) [] = Ok xs).
Proof.
  unfold execute_loaded, exact_loaded, bind, lift, throw, rbind.
  destruct (get plan "steps" _) as [steps|e]; simpl; [|done].
  destruct (len steps) as [n|e]; simpl; [|done].
  destruct (get plan "final_step_index" _) as [final_idx|e]; simpl; [|done].
  destruct (ge_int final_idx n) as [[]|e]; simpl; try done.
  pose proof (run_steps_exact (items steps) 0 [] [] m (List.Forall2_nil _)) as Hrun.
  destruct (run_steps 0 (items steps) [] m) as [[rs|e] m1]; simpl in *;
    destruct (exact_steps 0 (items steps) []) as [xs|e'] eqn:Hexact;
    simpl in *; try done.
  destruct Hrun as [Hall Hlog].
  pose proof (results_getitem_agrees rs xs final_idx Hall) as Hget.
  destruct (results_getitem rs final_idx) as [v|e];
    destruct (results_getitem xs final_idx) as [x|e']; simpl in *; try done.
  split; [by apply float_of_val_agrees|]. intros r _.
  exists steps. split; [done|split; [done|by exists xs]].
Qed.

Lemma exact_step_call i stp x :
  exact_step i stp = Ok x ->
  is_unreliable_step stp = true -> is_Some (unreliable_call stp).
Proof.
  unfold exact_step, is_unreliable_step, unreliable_call, rbind.
  destruct (step_head stp) as [[tool args]|e]; simpl; [|done].
  unfold exact_tool, tool_call. intros Hx Htool.
  destruct (String.eqb tool "SUM") eqn:Hsum; simpl in *.
  - unfold rbind in Hx. destruct (len args) as [n|]; [|done].
    destruct (n <? 2); [done|].
    by destruct (two_floats args) as [[a b]|].
  - rewrite Htool in *. unfold rbind in Hx. destruct (len args) as [n|]; [|done].
    destruct (n <? 2); [done|].
    by destruct (two_floats args) as [[a b]|].
Qed.

Lemma exact_steps_calls steps : forall i xs xs',
  exact_steps i steps xs = Ok xs' ->
  length (omap unreliable_call steps)
  = length (filter (fun stp => is_unreliable_step stp = true) steps).
Proof.
  induction steps as [|stp rest IH]; intros i xs xs'; simpl; [done|].
  unfold rbind. destruct (exact_step i stp) as [x|] eqn:Hstep; [|done].
  intros Hrest. specialize (IH _ _ _ Hrest).
  destruct (decide (is_unreliable_step stp = true)) as [Hu|Hu].
  - rewrite filter_cons_True by done.
    destruct (exact_step_call _ _ _ Hstep Hu) as [c ->]. simpl. f_equal. exact IH.
  - rewrite filter_cons_False by done.
    assert (unreliable_call stp = None) as ->; [|done].
    unfold is_unreliable_step, unreliable_call, tool_call in *.
    destruct (step_head stp) as [[tool args]|]; [|done].
    by destruct (_ || _).
Qed.
End ExactProofs.

(** ** Request signatures *)

Module PyStrFacts.
Import PyStr.

Lemma isspace_lower_char c : isspace (lower_char c) = isspace c.
Proof. destruct c as [[] [] [] [] [] [] [] []]; reflexivity. Qed.

Lemma lower_char_idem c : lower_char (lower_char c) = lower_char c.
Proof. destruct c as [[] [] [] [] [] [] [] []]; reflexivity. Qed.

Lemma lower_idem s : lower (lower s) = lower s.
Proof. induction s as [|c s IH]; simpl; [done|]. by rewrite lower_char_idem, IH. Qed.

Lemma lower_app s t : lower (s ++ t) = (lower s ++ lower t)%string.
Proof. induction s as [|c s IH]; simpl; [done|]. by rewrite IH. Qed.

Lemma lstrip_lower s : lstrip (lower s) = lower (lstrip s).
Proof.
  induction s as [|c s IH]; simpl; [done|].
  rewrite isspace_lower_char. by destruct (isspace c).
Qed.

Lemma rstrip_lower s : rstrip (lower s) = lower (rstrip s).
Proof.
  induction s as [|c s IH]; simpl; [done|].
  rewrite IH, isspace_lower_char.
  destruct (rstrip s); simpl; [by destruct (isspace c)|done].
Qed.

Lemma strip_lower s : strip (lower s) = lower (strip s).
Proof. unfold strip. by rewrite lstrip_lower, rstrip_lower. Qed.

Lemma rstrip_idem s : rstrip (rstrip s) = rstrip s.
Proof.
  induction s as [|c s IH]; simpl; [done|].
  destruct (rstrip s) as [|d r] eqn:Hr.
  - destruct (isspace c) eqn:Hc; simpl; [done|]. by rewrite Hc.
  - simpl in *. by rewrite IH.
Qed.

Lemma lstrip_trimmed s : trimmed_left (lstrip s).
Proof.
  induction s as [|c s IH]; simpl; [done|].
  by destruct (isspace c) eqn:Hc.
Qed.

Lemma lstrip_id s : trimmed_left s -> lstrip s = s.
Proof. destruct s as [|c s]; simpl; [done|]. by intros ->. Qed.

Lemma rstrip_trimmed s : trimmed_left s -> trimmed_left (rstrip s).
Proof.
  destruct s as [|c s]; simpl; [done|]. intros Hc.
  destruct (rstrip s); simpl; [by rewrite Hc|done].
Qed.

Lemma strip_idem s : strip (strip s) = strip s.
Proof.
  unfold strip.
  rewrite (lstrip_id (rstrip (lstrip s))), rstrip_idem; [done|].
  apply rstrip_trimmed, lstrip_trimmed.
Qed.

Lemma rstrip_trailing c s :
  isspace c = true -> rstrip (s ++ String c EmptyString) = rstrip s.
Proof.
  intros Hc. induction s as [|d s IH]; simpl; [by rewrite Hc|]. by rewrite IH.
Qed.

Lemma strip_trailing c s :
  isspace c = true -> strip (s ++ String c EmptyString) = strip s.
Proof.
  intros Hc. unfold strip. induction s as [|d s IH]; simpl.
  - by rewrite Hc.
  - destruct (isspace d); [done|].
    apply (rstrip_trailing c (String d s) Hc).
Qed.

End PyStrFacts.

Lemma signature_alt question :
  get_question_signature question = PyStr.strip (PyStr.lower question).
Proof. unfold get_question_signature. by rewrite PyStrFacts.strip_lower. Qed.

Lemma same_request_signature s t :
  same_request s t -> get_question_signature s = get_question_signature t.
Proof.
  induction 1 as [| |s t u _ IH1 _ IH2|c s Hc|c s Hc|c c' s t Hcc]; try congruence.
  - unfold get_question_signature, PyStr.strip. simpl. by rewrite Hc.
  - unfold get_question_signature. by rewrite PyStrFacts.strip_trailing.
  - rewrite !signature_alt, !PyStrFacts.lower_app. simpl. by rewrite Hcc.
Qed.


(** ** The conversation *)

(** More rounds do not change what a conversation that has ended came to. *)
Lemma planner_loop_more_fuel chat fuel : forall made messages r made' extra,
  planner_loop chat fuel made messages = (Some r, made') ->
  planner_loop chat (fuel + extra) made messages = (Some r, made').
Proof.
  induction fuel as [|fuel IH]; intros made messages r made' extra; simpl; [done|].
  destruct (chat made messages) as [resp|e]; [|done].
  destruct (_ && _); [done|].
  destruct (PyStr.contains "which tools exist" _); [apply IH|].
  destruct (PyStr.contains "tell me about the tool named" _); apply IH.
Qed.

(** ** [ask_system] *)

Section AskProofs.
Context `{Runtime}.
Variable chat : oracle.

(** A call on a cached signature. *)
Lemma ask_system_hit fuel q w entry :
  virtual_tools w !! get_question_signature q = Some entry ->
  ask_system chat fuel q w
  = match execute_plan (plan_text entry) (mach w) with
    | (Ok val, m) =>
        (Returns (Outcome q (plan_text entry) (Some val) None success virtual_tool),
         with_mach w m)
    | (Raised e, m) =>
        (Returns (Outcome q (plan_text entry) None (Some (exc_str e)) fail virtual_tool),
         with_mach w m)
    end.
Proof. intros Hhit. unfold ask_system. by rewrite Hhit. Qed.

(** A call on a signature that is not cached. *)
Lemma ask_system_miss fuel q w :
  virtual_tools w !! get_question_signature q = None ->
  ask_system chat fuel q w
  = let sig := get_question_signature q in
    let '(conv, made) := conversation_with_planner chat fuel (oracle_calls w) q in
    let w := World (virtual_tools w) (success_count w) (mach w) made in
    match conv with
    | None => (StillPlanning, w)
    | Some (Raised e) => (Raises e, w)
    | Some (Ok text) =>
        match execute_plan text (mach w) with
        | (Ok val, m) =>
            let n := count_of w sig + 1 in
            let counted := World (virtual_tools w) (<[sig := n]> (success_count w))
                             m made in
            (Returns (Outcome q text (Some val) None success fresh_llm),
             if n =? 2 then store_virtual_tool sig text counted else counted)
        | (Raised e, m) =>
            (Returns (Outcome q text None (Some (exc_str e)) fail fresh_llm),
             with_mach w m)
        end
    end.
Proof.
  intros Hmiss. unfold ask_system. rewrite Hmiss. simpl.
  destruct (conversation_with_planner _ _ _ _) as [[[text|e]|] made]; done.
Qed.

Lemma cached_None w sig : cached w sig = None <-> virtual_tools w !! sig = None.
Proof. unfold cached. by destruct (virtual_tools w !! sig). Qed.

(** A call never changes a cached plan. *)
Lemma ask_system_keeps fuel q w s p :
  cached w s = Some p -> cached (snd (ask_system chat fuel q w)) s = Some p.
Proof.
  intros Hs.
  destruct (virtual_tools w !! get_question_signature q) as [entry|] eqn:Hq.
  - rewrite (ask_system_hit _ _ _ _ Hq).
    by destruct (execute_plan _ _) as [[val|e] m].
  - rewrite (ask_system_miss _ _ _ Hq). simpl.
    destruct (conversation_with_planner _ _ _ _) as [[[text|e]|] made]; try done.
    simpl. destruct (execute_plan text (mach w)) as [[val|e] m]; [|done].
    destruct (_ =? 2); [|done].
    unfold cached, store_virtual_tool in *; simpl.
    rewrite lookup_insert_ne; [done|]. intros <-. by rewrite Hq in Hs.
Qed.

(** A call leaves the other signatures as they are. *)
Lemma ask_system_frame fuel q w s :
  s <> get_question_signature q ->
  cached (snd (ask_system chat fuel q w)) s = cached w s
  /\ count_of (snd (ask_system chat fuel q w)) s = count_of w s.
Proof.
  intros Hs.
  destruct (virtual_tools w !! get_question_signature q) as [entry|] eqn:Hq.
  - rewrite (ask_system_hit _ _ _ _ Hq).
    by destruct (execute_plan _ _) as [[val|e] m].
  - rewrite (ask_system_miss _ _ _ Hq). simpl.
    destruct (conversation_with_planner _ _ _ _) as [[[text|e]|] made]; try done.
    simpl. destruct (execute_plan text (mach w)) as [[val|e] m]; [|done].
    destruct (_ =? 2); unfold cached, count_of, store_virtual_tool; simpl;
      by rewrite ?lookup_insert_ne.
Qed.

(** A fresh success counts, and the second one stores the plan. *)
Lemma ask_system_success fuel q w o :
  cached w (get_question_signature q) = None ->
  fst (ask_system chat fuel q w) = Returns o ->
  status o = success ->
  let sig := get_question_signature q in
  let w' := snd (ask_system chat fuel q w) in
  via o = fresh_llm
  /\ count_of w' sig = count_of w sig + 1
  /\ cached w' sig = if count_of w sig =? 1 then Some (plan o) else None.
Proof.
  intros Hmiss%cached_None. rewrite (ask_system_miss _ _ _ Hmiss). simpl.
  destruct (conversation_with_planner _ _ _ _) as [[[text|e]|] made]; try done.
  simpl. destruct (execute_plan text (mach w)) as [[val|e] m]; simpl.
  - intros [= <-] _. simpl. split; [done|].
    replace (count_of _ _ + 1 =? 2) with (count_of w (get_question_signature q) =? 1)
      by (unfold count_of; simpl; lia).
    destruct (_ =? 1); unfold cached, count_of, store_virtual_tool; simpl;
      rewrite ?lookup_insert_eq; simpl; try done.
    by rewrite Hmiss.
  - by intros [= <-].
Qed.

(** A call that does not end in a success leaves both dictionaries alone. *)
Lemma ask_system_no_success fuel q w :
  status_of (fst (ask_system chat fuel q w)) <> Some success ->
  virtual_tools (snd (ask_system chat fuel q w)) = virtual_tools w
  /\ success_count (snd (ask_system chat fuel q w)) = success_count w.
Proof.
  destruct (virtual_tools w !! get_question_signature q) as [entry|] eqn:Hq.
  - rewrite (ask_system_hit _ _ _ _ Hq).
    by destruct (execute_plan _ _) as [[val|e] m].
  - rewrite (ask_system_miss _ _ _ Hq). simpl.
    destruct (conversation_with_planner _ _ _ _) as [[[text|e]|] made]; try done.
    simpl. by destruct (execute_plan text (mach w)) as [[val|e] m].
Qed.
End AskProofs.

(** ** The loop over the steps *)

Section StepProofs.
Context `{Runtime}.

Lemma run_step_head i stp tool args m :
  step_head stp = Ok (tool, args) -> run_step i stp m = run_tool i tool args m.
Proof. intros Hhead. unfold run_step, bind, lift. by rewrite Hhead. Qed.

Lemma run_steps_app pre : forall post i rs m,
  run_steps i (pre ++ post) rs m
  = match run_steps i pre rs m with
    | (Ok rs1, m1) => run_steps (i + length pre) post rs1 m1
    | (Raised e, m1) => (Raised e, m1)
    end.
Proof.
  induction pre as [|stp pre IH]; intros post i rs m; simpl.
  - by rewrite Nat.add_0_r.
  - unfold bind. destruct (run_step i stp m) as [[v|e] m1]; [|done].
    rewrite IH. by replace (S i + length pre)%nat with (i + S (length pre))%nat by lia.
Qed.

Lemma run_steps_length steps : forall i rs m rs' m',
  run_steps i steps rs m = (Ok rs', m') ->
  length rs' = (length rs + length steps)%nat.
Proof.
  induction steps as [|stp rest IH]; intros i rs m rs' m'; simpl.
  - intros [= <- _]. lia.
  - unfold bind. destruct (run_step i stp m) as [[v|e] m1]; [|done].
    intros Hrest%IH. rewrite length_app in Hrest. simpl in Hrest. lia.
Qed.

(** When the loop ends, every step has returned a value. *)
Lemma run_steps_all_ok steps : forall i rs m rs' m',
  run_steps i steps rs m = (Ok rs', m') ->
  forall stp, stp ∈ steps ->
    exists j mj v mj', run_step j stp mj = (Ok v, mj').
Proof.
  induction steps as [|s rest IH]; intros i rs m rs' m'; simpl.
  - intros _ stp Hin. by apply elem_of_nil in Hin.
  - unfold bind. destruct (run_step i s m) as [[v|e] m1] eqn:Hs; [|done].
    intros Hrest stp [->|Hin]%elem_of_cons; [by eauto|].
    by eapply IH.
Qed.

(** The step a run has reached decides how the run ends if it raises. *)
Lemma reaches_raise plan m i stp m1 e m2 :
  reaches plan m i stp m1 ->
  run_step i stp m1 = (Raised e, m2) ->
  execute_loaded plan m = (Raised e, m2).
Proof.
  intros (steps & n & final_idx & pre & post & rs
          & Hsteps & Hlen & Hfinal & Hge & Hitems & Hpre & Hrun) Hstep.
  unfold execute_loaded, bind, lift, throw.
  rewrite Hsteps, Hlen, Hfinal, Hge, Hitems, run_steps_app, Hrun. simpl.
  unfold bind. rewrite Hpre. by rewrite Hstep.
Qed.

Lemma execute_loaded_ok plan m r :
  fst (execute_loaded plan m) = Ok r ->
  exists steps rs m',
    get plan "steps" (JList []) = Ok steps
    /\ run_steps 0 (items steps) [] m = (Ok rs, m').
Proof.
  unfold execute_loaded, bind, lift, throw.
  destruct (get plan "steps" _) as [steps|] eqn:Hsteps; [|done].
  destruct (len steps) as [n|]; [|done].
  destruct (get plan "final_step_index" _) as [final_idx|]; [|done].
  destruct (ge_int final_idx n) as [[]|]; try done.
  destruct (run_steps 0 (items steps) [] m) as [[rs|] m'] eqn:Hrun; [|done].
  intros _. by exists steps, rs, m'.
Qed.

Lemma execute_plan_loaded plan_text plan m :
  json_loads plan_text = Ok plan ->
  execute_plan plan_text m = execute_loaded plan m.
Proof. intros Hload. unfold execute_plan, bind, lift. by rewrite Hload. Qed.

End StepProofs.

(** ** The tools *)

Section ToolProofs.
Context `{Runtime}.

Lemma divides_by_zero_raises i stp m :
  divides_by_zero stp ->
  exists msg, run_step i stp m = (Raised (Exn ZeroDivisionError msg), m).
Proof.
  intros (tool & args & a & b & Hhead & Htool & Hargs & Hzero).
  rewrite (run_step_head _ _ _ _ _ Hhead).
  destruct Htool as [-> | ->]; unfold run_tool; simpl;
    unfold bind, lift; rewrite Hargs; simpl.
  - unfold quotient. rewrite Hzero. by eexists.
  - unfold modulo. rewrite Hzero. by eexists.
Qed.

Lemma negative_not_zero b :
  PyFloat.ltb b PyFloat.zero = true ->
  PyFloat.eqb b PyFloat.zero = false /\ PyFloat.is_nan b = false.
Proof.
  unfold PyFloat.ltb, PyFloat.eqb, SFltb, SFeqb.
  destruct b as [s|s| |s mb eb]; simpl; try done; by destruct s.
Qed.

Lemma zero_not_special a :
  PyFloat.eqb a PyFloat.zero = true ->
  PyFloat.is_nan a = false /\ PyFloat.is_inf a = false.
Proof.
  unfold PyFloat.eqb, SFeqb.
  destruct a as [s|s| |s ma ea]; simpl; try done; by destruct s.
Qed.

Lemma pow_zero_negative a b :
  PyFloat.eqb a PyFloat.zero = true ->
  PyFloat.ltb b PyFloat.zero = true ->
  PyFloat.is_inf b = false ->
  pow a b = raise ZeroDivisionError "0.0 cannot be raised to a negative power".
Proof.
  intros Ha Hb Hfin. unfold pow.
  destruct (negative_not_zero b Hb) as [-> ->].
  destruct (zero_not_special a Ha) as [-> ->].
  by rewrite Hfin, Ha, Hb.
Qed.

Lemma surplus_of_two i tool x y extra m :
  run_tool i tool (JList (x :: y :: extra)) m = run_tool i tool (JList [x; y]) m.
Proof.
  assert (two_floats (JList (x :: y :: extra)) = two_floats (JList [x; y]))
    as Hargs by reflexivity.
  assert (exists n, len (JList (x :: y :: extra)) = Ok n /\ (n <? 2) = false)
    as (n & Hlen & Hn).
  { eexists. split; [reflexivity|]. apply Z.ltb_ge. simpl length. lia. }
  unfold run_tool, bind, lift. rewrite Hargs, Hlen, Hn. reflexivity.
Qed.

Lemma surplus_of_abs i x extra m :
  run_tool i "ABS" (JList (x :: extra)) m = run_tool i "ABS" (JList [x]) m.
Proof. reflexivity. Qed.

Lemma too_few_for_unreliable i tool args n m :
  (tool = "SUM" \/ tool = "PRODUCT")%string ->
  len args = Ok n -> n < 2 ->
  run_tool i tool args m = (Raised (ArityMismatch tool), m).
Proof.
  intros Htool Hlen Hn. apply Z.ltb_lt in Hn.
  destruct Htool as [-> | ->]; unfold run_tool; simpl;
    unfold bind, lift, throw; by rewrite Hlen, Hn.
Qed.
End ToolProofs.

(** ** Dictionaries and indices *)

Lemma assoc_app_None k d d' :
  assoc k d = None -> assoc k (d ++ d') = assoc k d'.
Proof.
  induction d as [|[k' v] d IH]; simpl; [done|].
  destruct (String.eqb k k'); [done|exact IH].
Qed.

Lemma assoc_app_Some k d d' v :
  assoc k d = Some v -> assoc k (d ++ d') = Some v.
Proof.
  induction d as [|[k' v'] d IH]; simpl; [done|].
  destruct (String.eqb k k'); [done|exact IH].
Qed.

Lemma index_last {A} (l : list A) (x : A) n :
  n = Z.of_nat (length (l ++ [x])) ->
  index (l ++ [x]) (n - 1) = Some x.
Proof.
  intros ->. unfold index. rewrite length_app. simpl.
  assert ((0 <=? Z.of_nat (length l + 1) - 1) = true) as -> by (apply Z.leb_le; lia).
  replace (Z.to_nat (Z.of_nat (length l + 1) - 1)) with (length l + 0)%nat by lia.
  by rewrite lookup_app_r, Nat.add_comm, Nat.add_sub by lia.
Qed.


Section FinalIndex.
Context `{Runtime}.

(** A final-step index at or beyond the number of steps is refused before
    any step runs. *)
Lemma final_index_too_large plan_text plan steps n i m :
  json_loads plan_text = Ok plan ->
  get plan "steps" (JList []) = Ok steps ->
  len steps = Ok n ->
  get plan "final_step_index" (JInt (n - 1)) = Ok (JInt i) ->
  n <= i ->
  execute_plan plan_text m = (Raised MalformedPlan, m).
Proof.
  intros Hload Hsteps Hlen Hfinal Hi.
  rewrite (execute_plan_loaded _ _ _ Hload).
  unfold execute_loaded, bind, lift, throw. rewrite Hsteps, Hlen, Hfinal. simpl.
  apply Z.leb_le in Hi. by rewrite Hi.
Qed.
End FinalIndex.
(** ** Steps that use no random source *)

Section ReliableProofs.
Context `{Runtime}.

Lemma run_tool_reliable i tool args m :
  String.eqb tool "SUM" = false -> String.eqb tool "PRODUCT" = false ->
  run_tool i tool args m = (exact_tool i tool args, m).
Proof.
  intros Hsum Hprod. unfold run_tool, exact_tool. rewrite Hsum, Hprod.
  unfold bind, lift, throw, ret, rbind.
  repeat match goal with
         | |- context [if ?b then _ else _] => destruct b
         | |- context [match two_floats ?a with _ => _ end] =>
             destruct (two_floats a) as [[??]|?]; simpl
         | |- context [match float_arg ?a ?i with _ => _ end] =>
             destruct (float_arg a i); simpl
         | |- context [match quotient ?a ?b with _ => _ end] =>
             destruct (quotient a b); simpl
         | |- context [match modulo ?a ?b with _ => _ end] =>
             destruct (modulo a b); simpl
         end; try reflexivity.
Qed.

Lemma run_step_reliable i stp m :
  is_unreliable_step stp = false ->
  run_step i stp m = (exact_step i stp, m).
Proof.
  unfold is_unreliable_step, run_step, exact_step, bind, lift, rbind.
  destruct (step_head stp) as [[tool args]|e]; simpl; [|done].
  intros [Hsum Hprod]%orb_false_elim. by apply run_tool_reliable.
Qed.

Lemma run_steps_reliable steps : forall i rs m,
  Forall (fun stp => is_unreliable_step stp = false) steps ->
  run_steps i steps rs m = (exact_steps i steps rs, m).
Proof.
  induction steps as [|stp rest IH]; intros i rs m Hall; simpl; [done|].
  apply Forall_cons in Hall as [Hstp Hrest].
  unfold bind, rbind. rewrite (run_step_reliable _ _ _ Hstp).
  destruct (exact_step i stp) as [x|e]; [|done]. by apply IH.
Qed.

Lemma execute_loaded_reliable plan m :
  (forall steps, get plan "steps" (JList []) = Ok steps ->
     Forall (fun stp => is_unreliable_step stp = false) (items steps)) ->
  execute_loaded plan m = (exact_loaded plan, m).
Proof.
  intros Hall. unfold execute_loaded, exact_loaded, bind, lift, throw, rbind.
  destruct (get plan "steps" _) as [steps|e] eqn:Hsteps; simpl; [|done].
  destruct (len steps) as [n|e]; simpl; [|done].
  destruct (get plan "final_step_index" _) as [final_idx|e]; simpl; [|done].
  destruct (ge_int final_idx n) as [[]|e]; simpl; try done.
  rewrite (run_steps_reliable _ _ _ _ (Hall _ eq_refl)).
  by destruct (exact_steps 0 (items steps) []).
Qed.
End ReliableProofs.

(** ** Draws from the random source *)

Section DrawProofs.
Context `{Runtime}.

Lemma unreliable_sum_draws a b m :
  (drawn m + 1 <= drawn (snd (unreliable_sum a b m)) <= drawn m + 2)%nat.
Proof.
  unfold unreliable_sum, bind, record_call, random_random, random_randint,
    next_draw, ret; simpl.
  destruct (PyFloat.ltb _ fail_rate); simpl; lia.
Qed.

Lemma unreliable_product_draws a b m :
  (drawn m + 1 <= drawn (snd (unreliable_product a b m)) <= drawn m + 2)%nat.
Proof.
  unfold unreliable_product, bind, record_call, random_random, random_randint,
    next_draw, ret; simpl.
  destruct (PyFloat.ltb _ fail_rate); simpl; lia.
Qed.

Lemma run_tool_draws i tool args m :
  let k := length (option_list (tool_call tool args)) in
  (drawn m + k <= drawn (snd (run_tool i tool args m)) <= drawn m + 2 * k)%nat.
Proof.
  destruct (String.eqb tool "SUM") eqn:Hsum.
  { unfold run_tool, tool_call. rewrite Hsum. simpl. unfold bind, lift, throw.
    destruct (len args) as [n|e]; simpl;
      [|destruct (two_floats args) as [[??]|?]; simpl; lia].
    destruct (n <? 2); simpl; [destruct (two_floats args) as [[??]|?]; simpl; lia|].
    destruct (two_floats args) as [[a b]|e]; simpl; [|lia].
    pose proof (unreliable_sum_draws a b m) as Hd.
    destruct (unreliable_sum_runs a b m) as (v & Hv & _).
    rewrite Hv in *. simpl in *.
    destruct (negb _); simpl; lia. }
  destruct (String.eqb tool "PRODUCT") eqn:Hprod.
  { unfold run_tool, tool_call. rewrite Hsum, Hprod. simpl. unfold bind, lift, throw.
    destruct (len args) as [n|e]; simpl;
      [|destruct (two_floats args) as [[??]|?]; simpl; lia].
    destruct (n <? 2); simpl; [destruct (two_floats args) as [[??]|?]; simpl; lia|].
    destruct (two_floats args) as [[a b]|e]; simpl; [|lia].
    pose proof (unreliable_product_draws a b m) as Hd.
    destruct (unreliable_product_runs a b m) as (v & Hv & _).
    rewrite Hv in *. simpl in *.
    destruct (negb _); simpl; lia. }
  rewrite (run_tool_reliable i tool args m Hsum Hprod).
  unfold tool_call. rewrite Hsum, Hprod. simpl. lia.
Qed.

Lemma run_step_draws i stp m :
  let k := length (option_list (unreliable_call stp)) in
  (drawn m + k <= drawn (snd (run_step i stp m)) <= drawn m + 2 * k)%nat.
Proof.
  unfold run_step, unreliable_call, bind, lift.
  destruct (step_head stp) as [[tool args]|e]; simpl; [|lia].
  apply run_tool_draws.
Qed.

Lemma run_steps_draws steps : forall i rs m rs' m',
  run_steps i steps rs m = (Ok rs', m') ->
  let k := length (omap unreliable_call steps) in
  (drawn m + k <= drawn m' <= drawn m + 2 * k)%nat.
Proof.
  induction steps as [|stp rest IH]; intros i rs m rs' m'; cbn [run_steps].
  - intros [= _ <-]. simpl. lia.
  - unfold bind. pose proof (run_step_draws i stp m) as Hstep.
    destruct (run_step i stp m) as [[v|e] m1]; [|done].
    intros Hrest%IH. cbv zeta in *.
    assert (length (omap unreliable_call (stp :: rest))
            = (length (option_list (unreliable_call stp))
               + length (omap unreliable_call rest))%nat) as ->
      by (simpl; by destruct (unreliable_call stp)).
    simpl in Hstep. lia.
Qed.

Lemma run_steps_same_draws steps : forall i rs m,
  draws (snd (run_steps i steps rs m)) = draws m.
Proof.
  induction steps as [|stp rest IH]; intros i rs m; cbn [run_steps]; [done|].
  unfold bind. destruct (run_step_exact i stp m) as (_ & _ & Hdraws).
  destruct (run_step i stp m) as [[v|e] m1]; simpl in *; [|done].
  by rewrite IH.
Qed.
End DrawProofs.

(** ** The results of a run *)

Section ResultProofs.
Context `{Runtime}.

Lemma chars_length s : length (PyStr.chars s) = String.length s.
Proof. induction s as [|c s IH]; simpl; [done|]. by rewrite IH. Qed.

Lemma len_items obj n : len obj = Ok n -> n = Z.of_nat (length (items obj)).
Proof.
  destruct obj; simpl; try done; intros [= <-]; f_equal.
  - by rewrite length_fmap, chars_length.
  - by rewrite length_fmap.
Qed.

(** What the exact loop adds to the results, step by step. *)
Lemma exact_steps_lookup steps : forall i xs xs',
  exact_steps i steps xs = Ok xs' ->
  exists ys,
    xs' = xs ++ ys
    /\ length ys = length steps
    /\ forall j stp, steps !! j = Some stp ->
         exists x, exact_step (i + j) stp = Ok x /\ ys !! j = Some x.
Proof.
  induction steps as [|s rest IH]; intros i xs xs'; simpl.
  - intros [= <-]. exists []. rewrite app_nil_r. split; [done|]. split; [done|].
    intros j stp Hj. by rewrite lookup_nil in Hj.
  - unfold rbind. destruct (exact_step i s) as [x|] eqn:Hs; [|done].
    intros Hrest. destruct (IH _ _ _ Hrest) as (ys & -> & Hlen & Hall).
    exists (x :: ys). rewrite <- app_assoc. split; [done|]. split; [simpl; lia|].
    intros [|j] stp Hj; simpl in Hj.
    + injection Hj as <-. exists x. by rewrite Nat.add_0_r.
    + destruct (Hall j stp Hj) as (y & Hy & Hlook). exists y.
      by replace (i + S j)%nat with (S i + j)%nat by lia.
Qed.

(** A step that runs in the exact arithmetic runs under every random
    source. *)
Lemma exact_step_runs i stp x m :
  exact_step i stp = Ok x -> exists v, fst (run_step i stp m) = Ok v.
Proof.
  intros Hx. destruct (run_step_exact i stp m) as (Hagree & _).
  rewrite Hx in Hagree. destruct (fst (run_step i stp m)) as [v|]; [|done].
  by exists v.
Qed.

Lemma execute_loaded_exact_ok plan m r :
  fst (execute_loaded plan m) = Ok r ->
  exists x, exact_loaded plan = Ok x /\ equal_to x r.
Proof.
  intros Hr. destruct (execute_loaded_exact plan m) as [Hagree _].
  rewrite Hr in Hagree. destruct (exact_loaded plan) as [x|]; [|done].
  by exists x.
Qed.

Lemma exact_loaded_ok plan x :
  exact_loaded plan = Ok x ->
  exists steps n final_idx xs v,
    get plan "steps" (JList []) = Ok steps
    /\ len steps = Ok n
    /\ get plan "final_step_index" (JInt (n - 1)) = Ok final_idx
    /\ ge_int final_idx n = Ok false
    /\ exact_steps 0 (items steps) [] = Ok xs
    /\ results_getitem xs final_idx = Ok v
    /\ float_of_val v = Ok x.
Proof.
  unfold exact_loaded, rbind.
  destruct (get plan "steps" _) as [steps|] eqn:Hsteps; [|done].
  destruct (len steps) as [n|] eqn:Hlen; [|done].
  destruct (get plan "final_step_index" _) as [final_idx|] eqn:Hfinal; [|done].
  destruct (ge_int final_idx n) as [[]|] eqn:Hge; try done.
  destruct (exact_steps 0 (items steps) []) as [xs|] eqn:Hxs; [|done].
  destruct (results_getitem xs final_idx) as [v|] eqn:Hv; [|done].
  intros Hx. by exists steps, n, final_idx, xs, v.
Qed.
End ResultProofs.

(** ** The final-step index and the names of the tools *)

Section IndexProofs.
Context `{Runtime}.

Lemma run_tool_unknown i tool args m :
  known_tool tool = false ->
  run_tool i tool args m = (Raised (UnknownTool tool i), m).
Proof.
  unfold known_tool, tool_names. simpl.
  intros Hnone. repeat apply orb_false_elim in Hnone as [? Hnone].
  unfold run_tool. by repeat match goal with Heq : String.eqb _ _ = false |- _ =>
                               rewrite Heq; clear Heq end.
Qed.

Lemma run_steps_results steps : forall i rs m rs' m',
  run_steps i steps rs m = (Ok rs', m') ->
  Z.of_nat (length rs') = Z.of_nat (length rs) + Z.of_nat (length steps).
Proof.
  intros i rs m rs' m' Hrun%run_steps_length. lia.
Qed.

Lemma index_from_end {A} (l : list A) (n i : Z) :
  n = Z.of_nat (length l) -> - n <= i < 0 -> index l i = index l (n + i).
Proof.
  intros -> Hi. unfold index.
  assert ((0 <=? i) = false) as -> by (apply Z.leb_gt; lia).
  assert ((- Z.of_nat (length l) <=? i) = true) as -> by (apply Z.leb_le; lia).
  by assert ((0 <=? Z.of_nat (length l) + i) = true) as -> by (apply Z.leb_le; lia).
Qed.
End IndexProofs.

(** ** The tool functions *)

Lemma float_eqb_refl x : PyFloat.eqb x x = negb (PyFloat.is_nan x).
Proof.
  unfold PyFloat.eqb, SFeqb.
  destruct x as [s|s| |s m e]; simpl; try done; destruct s; simpl;
    try done; by rewrite Z.compare_refl, Pos.compare_cont_refl.
Qed.

Lemma eqb_int_zero b : PyFloat.eqb_int b 0 = PyFloat.eqb b PyFloat.zero.
Proof. reflexivity. Qed.

Lemma float_is_zero b :
  PyFloat.eqb b PyFloat.zero = true <-> exists s, b = S754_zero s.
Proof.
  unfold PyFloat.eqb, SFeqb. split.
  - destruct b as [s|s| |s m e]; simpl; try done; [by exists s| |]; by destruct s.
  - by intros [s ->].
Qed.

(** ** The rounds of the conversation *)

Lemma planner_loop_plan chat fuel : forall made messages text made',
  planner_loop chat fuel made messages = (Some (Ok text), made') ->
  exists msgs resp,
    chat (made' - 1)%nat msgs = Ok resp
    /\ text = PyStr.strip (content resp)
    /\ PyStr.contains steps_marker text = true
    /\ PyStr.contains final_marker text = true.
Proof.
  induction fuel as [|fuel IH]; intros made messages text made'; simpl; [done|].
  destruct (chat made messages) as [resp|e] eqn:Hchat; [|done].
  destruct (_ && _) eqn:Hmarks.
  - intros [= <- <-]. apply andb_true_iff in Hmarks as [Hs Hf].
    exists messages, resp. by rewrite Nat.sub_1_r.
  - destruct (PyStr.contains "which tools exist" _); [apply IH|].
    destruct (PyStr.contains "tell me about the tool named" _); apply IH.
Qed.

Lemma planner_loop_raise chat fuel : forall made messages e made',
  planner_loop chat fuel made messages = (Some (Raised e), made') ->
  exists msgs, chat (made' - 1)%nat msgs = Raised e.
Proof.
  induction fuel as [|fuel IH]; intros made messages e made'; simpl; [done|].
  destruct (chat made messages) as [resp|e'] eqn:Hchat.
  - destruct (_ && _); [done|].
    destruct (PyStr.contains "which tools exist" _); [apply IH|].
    destruct (PyStr.contains "tell me about the tool named" _); apply IH.
  - intros [= <- <-]. exists messages. by rewrite Nat.sub_1_r.
Qed.

Lemma planner_loop_calls chat fuel : forall made messages,
  let '(r, made') := planner_loop chat fuel made messages in
  (made <= made' <= made + fuel)%nat
  /\ (r = None -> made' = (made + fuel)%nat)
  /\ (is_Some r -> (made < made')%nat).
Proof.
  induction fuel as [|fuel IH]; intros made messages; simpl.
  - split; [lia|]. split; [lia|]. by intros [? ?].
  - destruct (chat made messages) as [resp|e].
    + destruct (_ && _); [split; [lia|split; [done|lia]]|].
      assert (forall msgs,
                 let '(r, made') := planner_loop chat fuel (S made) msgs in
                 (made <= made' <= made + S fuel)%nat
                 /\ (r = None -> made' = (made + S fuel)%nat)
                 /\ (is_Some r -> (made < made')%nat)) as Hnext.
      { intros msgs. specialize (IH (S made) msgs).
        destruct (planner_loop chat fuel (S made) msgs) as [r made'].
        destruct IH as (Hle & Hnone & Hsome). split; [lia|].
        split; [intros Hr; specialize (Hnone Hr); lia|].
        intros Hr. specialize (Hsome Hr). lia. }
      destruct (PyStr.contains "which tools exist" _); [apply Hnext|].
      destruct (PyStr.contains "tell me about the tool named" _); apply Hnext.
    + split; [lia|split; [done|lia]].
Qed.

Lemma strip_idem_text s : PyStr.strip (PyStr.strip s) = PyStr.strip s.
Proof. apply PyStrFacts.strip_idem. Qed.

(** ** What the conversation sends *)

Lemma message_eqb_refl msg : message_eqb msg msg = true.
Proof. unfold message_eqb. by rewrite !String.eqb_refl. Qed.

Lemma rounds_app chat k : forall n sent rest more,
  length rest = (2 * k)%nat ->
  rounds chat n sent rest = true ->
  rounds chat n sent (rest ++ more) = rounds chat (n + k) (sent ++ rest) more.
Proof.
  induction k as [|k IH]; intros n sent [|reply [|a rest]] more Hlen Hrest;
    simpl in Hlen; try lia.
  - by rewrite Nat.add_0_r, app_nil_r.
  - cbn [rounds app] in *.
    apply andb_true_iff in Hrest as [Hhead Hrest]. rewrite Hhead. simpl.
    rewrite (IH (S n) (sent ++ [reply; a]) rest more); [|lia|done].
    rewrite <- app_assoc. simpl. f_equal. lia.
Qed.

Lemma get_tool_doc_said t :
  existsb (String.eqb (get_tool_doc t)) system_says = true
  /\ String.eqb (get_tool_doc t) names_msg = false
  /\ String.eqb (get_tool_doc t) nudge_msg = false.
Proof.
  unfold get_tool_doc.
  repeat match goal with |- context [if ?b then _ else _] => destruct b end;
    repeat split; reflexivity.
Qed.

(** What the loop says is what [may_say] allows. *)
Lemma may_say_names reply :
  PyStr.contains "which tools exist" (PyStr.lower reply) = true ->
  may_say reply names_msg = true.
Proof. unfold may_say. by intros ->. Qed.

Lemma may_say_doc reply t :
  PyStr.contains "which tools exist" (PyStr.lower reply) = false ->
  PyStr.contains "tell me about the tool named" (PyStr.lower reply) = true ->
  may_say reply (get_tool_doc t) = true.
Proof.
  unfold may_say. intros -> ->.
  destruct (get_tool_doc_said t) as (-> & -> & ->). reflexivity.
Qed.

Lemma may_say_nudge reply :
  PyStr.contains "which tools exist" (PyStr.lower reply) = false ->
  PyStr.contains "tell me about the tool named" (PyStr.lower reply) = false ->
  may_say reply nudge_msg = true.
Proof. unfold may_say. by intros -> ->. Qed.

Lemma well_kept_next chat made q k msgs resp said :
  well_kept chat made q k msgs = true ->
  chat (made + k)%nat msgs = Ok resp ->
  may_say (PyStr.strip (content resp)) said = true ->
  well_kept chat made q (S k)
    ((msgs ++ [Message (role resp) (PyStr.strip (content resp))])
     ++ [Message "assistant" said]) = true.
Proof.
  destruct msgs as [|sys [|usr rest]]; simpl; try done.
  intros Hkept Hchat Hsaid.
  apply andb_true_iff in Hkept as [Hkept Hlen].
  apply andb_true_iff in Hkept as [Hhead Hrest].
  apply Nat.eqb_eq in Hlen.
  rewrite Hhead. simpl. rewrite <- app_assoc.
  rewrite (rounds_app chat k made [sys; usr] rest _ Hlen Hrest).
  cbn [rounds app]. rewrite Hchat, message_eqb_refl. simpl. rewrite Hsaid. simpl.
  apply Nat.eqb_eq. rewrite length_app. simpl. lia.
Qed.

Lemma planner_loop_strict q chat fuel : forall made0 made messages,
  (made0 <= made)%nat ->
  well_kept chat made0 q (made - made0) messages = true ->
  planner_loop (strict q made0 chat) fuel made messages
  = planner_loop chat fuel made messages.
Proof.
  induction fuel as [|fuel IH]; intros made0 made messages Hle Hkept; simpl; [done|].
  unfold strict at 1. rewrite Hkept.
  destruct (chat made messages) as [resp|e] eqn:Hchat; [|done].
  destruct (_ && _); [done|].
  assert (forall said,
             may_say (PyStr.strip (content resp)) said = true ->
             well_kept chat made0 q (S made - made0)
               ((messages ++ [Message (role resp) (PyStr.strip (content resp))])
                ++ [Message "assistant" said]) = true) as Hnext.
  { intros said Hsaid. replace (S made - made0)%nat with (S (made - made0)) by lia.
    apply well_kept_next; [done| |done].
    by replace (made0 + (made - made0))%nat with made by lia. }
  destruct (PyStr.contains "which tools exist" _) eqn:Hwhich;
    [apply IH; [lia|by apply Hnext, may_say_names]|].
  destruct (PyStr.contains "tell me about the tool named" _) eqn:Habout;
    apply IH; try lia.
  - by apply Hnext, may_say_doc.
  - by apply Hnext, may_say_nudge.
Qed.

Lemma conversation_plan_text chat fuel made user_question text made' :
  conversation_with_planner chat fuel made user_question = (Some (Ok text), made') ->
  PyStr.contains steps_marker text = true
  /\ PyStr.contains final_marker text = true
  /\ PyStr.strip text = text.
Proof.
  intros Hconv.
  destruct (planner_loop_plan _ _ _ _ _ _ Hconv) as (msgs & resp & Hchat & -> & Hs & Hf).
  repeat split; try done. apply PyStrFacts.strip_idem.
Qed.

Lemma conversation_loop_calls chat fuel made user_question :
  let '(r, made') := conversation_with_planner chat fuel made user_question in
  (made <= made' <= made + fuel)%nat
  /\ (r = None -> made' = (made + fuel)%nat)
  /\ (is_Some r -> (made < made')%nat).
Proof. apply planner_loop_calls. Qed.

(** ** Substrings and the requests for documentation *)

Lemma prefix_app needle hay :
  String.prefix needle hay = true <-> exists post, hay = (needle ++ post)%string.
Proof.
  revert hay. induction needle as [|c needle IH]; intros hay.
  - split; [intros _; exists hay; reflexivity|by destruct hay].
  - destruct hay as [|d hay]; simpl; [split; [done|by intros [? ?]]|].
    destruct (ascii_dec c d) as [->|Hne].
    + rewrite IH. split; intros [post Hpost]; exists post.
      * rewrite Hpost. reflexivity.
      * change (String d hay = String d (needle ++ post)%string) in Hpost.
        congruence.
    + split; [done|]. intros [post Hpost].
      change (String d hay = String c (needle ++ post)%string) in Hpost.
      congruence.
Qed.

(** [needle in hay] holds exactly when [hay] is some text, then [needle],
    then some text. *)
Lemma contains_app needle hay :
  PyStr.contains needle hay = true
  <-> exists pre post, hay = (pre ++ needle ++ post)%string.
Proof.
  induction hay as [|d hay IH].
  - change (PyStr.contains needle EmptyString)
      with (String.prefix needle EmptyString || false).
    rewrite orb_false_r, prefix_app. split.
    + intros [post Hpost]. exists EmptyString, post. exact Hpost.
    + intros ([|c pre] & post & Hpre); [by exists post|done].
  - change (PyStr.contains needle (String d hay))
      with (String.prefix needle (String d hay) || PyStr.contains needle hay).
    rewrite orb_true_iff, prefix_app, IH. split.
    + intros [[post Hpost]|(pre & post & Hpre)].
      * exists EmptyString, post. exact Hpost.
      * exists (String d pre), post. rewrite Hpre. reflexivity.
    + intros ([|c pre] & post & Hpre).
      * left. by exists post.
      * right. exists pre, post.
        change (String d hay = String c (pre ++ needle ++ post)%string) in Hpre.
        congruence.
Qed.

Lemma first_contained_spec names text :
  let t := first_contained names text in
  (t = ""%string /\ Forall (fun n => PyStr.contains n text = false) names)
  \/ (exists before after,
        names = before ++ t :: after
        /\ PyStr.contains t text = true
        /\ Forall (fun n => PyStr.contains n text = false) before).
Proof.
  induction names as [|n names IH]; simpl.
  - left. by split.
  - destruct (PyStr.contains n text) eqn:Hn.
    + right. by exists [], names.
    + destruct IH as [[Ht Hall]|(before & after & Hnames & Ht & Hall)].
      * left. split; [done|]. by constructor.
      * right. exists (n :: before), after. rewrite Hnames at 1.
        split; [done|]. split; [done|]. by constructor.
Qed.

Lemma contains_occurs needle text :
  PyStr.contains needle text = true <-> occurs_in needle text.
Proof. apply contains_app. Qed.

Lemma contains_not_occurs needle text :
  PyStr.contains needle text = false <-> ~ occurs_in needle text.
Proof.
  rewrite <- contains_occurs. by destruct (PyStr.contains needle text).
Qed.

Lemma none_contained names text :
  Forall (fun n => PyStr.contains n text = false) names
  <-> Forall (fun n => ~ occurs_in n text) names.
Proof.
  rewrite !Forall_forall. split; intros Hall n Hn; by apply contains_not_occurs, Hall.
Qed.

(** ** Letter case in tool names *)



(** ** The cache over a run *)

Section CacheProofs.
Context `{Runtime}.

Lemma execute_plan_agrees plan_text m :
  agrees (fst (execute_plan plan_text m)) (exact_plan plan_text).
Proof.
  unfold execute_plan, exact_plan, bind, lift, rbind.
  destruct (json_loads plan_text) as [plan|e]; simpl; [|done].
  apply execute_loaded_exact.
Qed.

Lemma execute_plan_ok_exact plan_text m r :
  fst (execute_plan plan_text m) = Ok r ->
  exists x, exact_plan plan_text = Ok x /\ equal_to x r.
Proof.
  intros Hr. pose proof (execute_plan_agrees plan_text m) as Hagree.
  rewrite Hr in Hagree. destruct (exact_plan plan_text) as [x|]; [|done].
  by exists x.
Qed.

Lemma exact_plan_ok_execute plan_text m x :
  exact_plan plan_text = Ok x ->
  exists r, fst (execute_plan plan_text m) = Ok r /\ equal_to x r.
Proof.
  intros Hx. pose proof (execute_plan_agrees plan_text m) as Hagree.
  rewrite Hx in Hagree. destruct (fst (execute_plan plan_text m)) as [r|]; [|done].
  by exists r.
Qed.

Lemma cache_invariant_initial m n : cache_invariant (World ∅ ∅ m n).
Proof. intros sig. unfold count_of, cached. simpl. rewrite !lookup_empty. simpl. lia. Qed.

Lemma cache_invariant_ask chat fuel q w :
  cache_invariant w -> cache_invariant (snd (ask_system chat fuel q w)).
Proof.
  intros Hinv.
  destruct (virtual_tools w !! get_question_signature q) as [entry|] eqn:Hq.
  - rewrite (ask_system_hit chat _ _ _ _ Hq).
    by destruct (execute_plan _ _) as [[val|e] m].
  - rewrite (ask_system_miss chat _ _ _ Hq). simpl.
    destruct (conversation_with_planner _ _ _ _) as [[[text|e]|] made] eqn:Hconv;
      try done.
    simpl. destruct (execute_plan text (mach w)) as [[val|e] m] eqn:Hrun; [|done].
    destruct (conversation_plan_text _ _ _ _ _ _ Hconv) as (Hs & Hf & Hstrip).
    destruct (execute_plan_ok_exact text (mach w) val) as (x & Hx & _);
      [by rewrite Hrun|].
    intros sig. specialize (Hinv sig).
    destruct (decide (sig = get_question_signature q)) as [->|Hne].
    + unfold cached, count_of in *. rewrite Hq in Hinv. simpl in *.
      destruct Hinv as [Hrange Hle].
      destruct (_ =? 2) eqn:Hcount; simpl;
        rewrite ?lookup_insert_eq; simpl.
      * apply Z.eqb_eq in Hcount. unfold count_of in Hcount. simpl in Hcount.
        repeat split; try done; try lia. by exists x.
      * apply Z.eqb_neq in Hcount. unfold count_of in Hcount. simpl in Hcount.
        rewrite Hq. simpl. lia.
    + destruct (_ =? 2); unfold cached, count_of, store_virtual_tool in *; simpl;
        by rewrite ?lookup_insert_ne.
Qed.

Lemma reachable_invariant w : reachable w -> cache_invariant w.
Proof.
  induction 1 as [m n|chat fuel q w _ IH].
  - apply cache_invariant_initial.
  - by apply cache_invariant_ask.
Qed.
End CacheProofs.

(** ** Signatures and provenance *)

Lemma lstrip_blank s : PyStr.lstrip s = EmptyString <-> blank s = true.
Proof.
  induction s as [|c s IH]; simpl; [done|].
  destruct (PyStr.isspace c); simpl; [exact IH|done].
Qed.

Lemma lower_empty s : PyStr.lower s = EmptyString <-> s = EmptyString.
Proof. by destruct s. Qed.

Lemma rstrip_trimmed_empty s :
  trimmed_left s -> PyStr.rstrip s = EmptyString -> s = EmptyString.
Proof.
  destruct s as [|c s]; simpl; [done|]. intros Hc.
  destruct (PyStr.rstrip s); [by rewrite Hc|done].
Qed.

(** ** Runs of requests *)

Lemma seen_snoc sig past q :
  seen sig (past ++ [q])
  = (seen sig past + if decide (get_question_signature q = sig) then 1 else 0)%nat.
Proof.
  unfold seen. rewrite filter_app, length_app. f_equal.
  rewrite filter_cons, filter_nil. by destruct (decide _).
Qed.

Section RunProofs.
Context `{Runtime}.

Lemma counted_initial m n : counted [] (World ∅ ∅ m n).
Proof.
  intros sig. unfold count_of, cached, seen. simpl. rewrite !lookup_empty. simpl.
  split; [done|]. split; [by intros [? ?]|lia].
Qed.

Lemma counted_step chat fuel q w past o :
  counted past w ->
  fst (ask_system chat fuel q w) = Returns o ->
  status o = success ->
  counted (past ++ [q]) (snd (ask_system chat fuel q w))
  /\ question o = q
  /\ (via o = virtual_tool <-> (2 <= seen (get_question_signature q) past)%nat).
Proof.
  intros Hcounted Ho Hstatus.
  pose proof (Hcounted (get_question_signature q)) as [Hcount Hcached].
  destruct (cached w (get_question_signature q)) as [p|] eqn:Hp.
  - assert (2 <= seen (get_question_signature q) past)%nat as Hseen
      by (apply Hcached; by eexists).
    unfold cached in Hp.
    destruct (virtual_tools w !! get_question_signature q) as [entry|] eqn:Hq; [|done].
    revert Ho. rewrite (ask_system_hit chat _ _ _ _ Hq).
    destruct (execute_plan _ _) as [[val|e] m]; simpl; intros [= <-]; [|done].
    simpl. split; [|by split].
    intros sig. destruct (Hcounted sig) as [Hc Hs]. rewrite seen_snoc.
    unfold count_of, cached in *. simpl.
    destruct (decide (get_question_signature q = sig)) as [<-|Hne].
    + split; [lia|]. rewrite Hq. split; [lia|intros _; by eexists].
    + by rewrite Nat.add_0_r.
  - assert (~ (2 <= seen (get_question_signature q) past)%nat) as Hseen
      by (intros Hs%Hcached; by destruct Hs).
    destruct (ask_system_success chat fuel q w o Hp Ho Hstatus) as (Hvia & Hn & Hc).
    split; [|split].
    + intros sig. rewrite seen_snoc.
      destruct (decide (get_question_signature q = sig)) as [<-|Hne].
      * rewrite Hn, Hc. split; [lia|].
        destruct (_ =? 1) eqn:Hone.
        -- apply Z.eqb_eq in Hone. split; [lia|intros _; by eexists].
        -- apply Z.eqb_neq in Hone. split; [by intros [? ?]|lia].
      * destruct (ask_system_frame chat fuel q w sig) as [-> ->]; [done|].
        rewrite Nat.add_0_r. apply Hcounted.
    + revert Ho. unfold cached in Hp.
      destruct (virtual_tools w !! get_question_signature q) eqn:Hq; [done|].
      rewrite (ask_system_miss chat _ _ _ Hq). simpl.
      destruct (conversation_with_planner _ _ _ _) as [[[text|e]|] made]; try done.
      simpl. by destruct (execute_plan _ _) as [[val|e] m]; simpl; intros [= <-].
    + rewrite Hvia. split; [done|lia].
Qed.

Lemma ask_all_counted chat fuel qs : forall w past os w',
  counted past w ->
  ask_all chat fuel qs w = (os, Finished, w') ->
  Forall (fun o => status o = success) os ->
  length os = length qs
  /\ counted (past ++ qs) w'
  /\ forall i q o, qs !! i = Some q -> os !! i = Some o ->
       question o = q
       /\ (via o = virtual_tool
           <-> (2 <= seen (get_question_signature q) (past ++ take i qs))%nat).
Proof.
  induction qs as [|q rest IH]; intros w past os w' Hcounted; simpl.
  - intros [= <- <-] _. rewrite app_nil_r. split; [done|]. split; [done|].
    intros i q o Hq. by rewrite lookup_nil in Hq.
  - destruct (ask_system chat fuel q w) as [[o| |] w1] eqn:Hask; try done.
    destruct (ask_all chat fuel rest w1) as [[os1 e1] w2] eqn:Hrest.
    intros [= <- -> <-] Hall. apply Forall_cons in Hall as [Ho Hos].
    destruct (counted_step chat fuel q w past o Hcounted) as (Hnext & Hq & Hvia);
      [by rewrite Hask|done|].
    rewrite Hask in Hnext. simpl in Hnext.
    destruct (IH _ _ _ _ Hnext Hrest Hos) as (Hlen & Hfinal & Hrun).
    rewrite <- app_assoc in Hfinal. simpl in Hfinal.
    split; [simpl; lia|]. split; [done|].
    intros [|i] q' o'; simpl.
    + intros [= <-] [= <-]. by rewrite app_nil_r.
    + intros Hq' Ho'. destruct (Hrun i q' o' Hq' Ho') as [Hquestion Hvia'].
      split; [done|]. by rewrite <- app_assoc in Hvia'.
Qed.
End RunProofs.

(** ** The demonstration *)

(** How often the signature of each question of [main] has been seen before
    it is asked. *)
Lemma queries_seen i q :
  queries !! i = Some q ->
  seen (get_question_signature q) (take i queries) = nth i [0; 0; 1; 1; 2; 0]%nat 0%nat.
Proof.
  do 6 (destruct i as [|i]; [intros [= <-]; vm_compute; reflexivity|]).
  intros Hq. apply lookup_lt_Some in Hq. simpl in Hq. lia.
Qed.

(** ** The unreliable primitives *)

Lemma unreliable_draw (exact : float) (u : float) (m : machine) :
  let r := (if PyFloat.ltb u fail_rate
            then do n <- random_randint (-100) 100; ret (VInt n)
            else ret (VFloat exact)) m in
  exists v m',
    r = (Ok v, m')
    /\ draws m' = draws m
    /\ calls m' = calls m
    /\ (if PyFloat.ltb u fail_rate
        then (exists n, v = VInt n /\ -100 <= n <= 100) /\ drawn m' = S (drawn m)
        else v = VFloat exact /\ drawn m' = drawn m).
Proof.
  unfold bind, random_randint, next_draw, ret; simpl.
  destruct (PyFloat.ltb u fail_rate); simpl.
  - eexists _, _. split; [reflexivity|]. repeat split.
    eexists; split; [reflexivity|]. apply (randint_range (-100) 100); lia.
  - eexists _, _. by split.
Qed.

(** ** Texts with the same signature *)

Lemma append_assoc_text (s t u : string) :
  ((s ++ t) ++ u = s ++ (t ++ u))%string.
Proof.
  induction s as [|c s IH]; [reflexivity|].
  change (String c ((s ++ t) ++ u) = String c (s ++ (t ++ u)))%string.
  by rewrite IH.
Qed.

Lemma append_empty_text (s : string) : (s ++ "")%string = s.
Proof.
  induction s as [|c s IH]; [reflexivity|].
  change (String c (s ++ "") = String c s)%string. by rewrite IH.
Qed.

Lemma same_request_lstrip s : same_request s (PyStr.lstrip s).
Proof.
  induction s as [|c s IH]; simpl; [apply same_refl|].
  destruct (PyStr.isspace c) eqn:Hc; [|apply same_refl].
  eapply same_trans; [by apply same_leading|exact IH].
Qed.

Lemma same_request_blank_tail w : forall s,
  blank w = true -> same_request (s ++ w) s.
Proof.
  induction w as [|c w IH]; intros s Hw.
  - rewrite append_empty_text. apply same_refl.
  - simpl in Hw. apply andb_true_iff in Hw as [Hc Hw].
    change (String c w) with (String c EmptyString ++ w)%string.
    rewrite <- append_assoc_text.
    eapply same_trans; [by apply IH|by apply same_trailing].
Qed.

Lemma rstrip_tail s :
  exists w, blank w = true /\ s = (PyStr.rstrip s ++ w)%string.
Proof.
  induction s as [|c s (w & Hw & Hs)]; [by exists EmptyString|].
  simpl. destruct (PyStr.rstrip s) as [|d r] eqn:Hr.
  - change (EmptyString ++ w)%string with w in Hs. subst s.
    destruct (PyStr.isspace c) eqn:Hc.
    + exists (String c w). split; [simpl; by rewrite Hc, Hw|reflexivity].
    + exists w. by split.
  - exists w. split; [done|].
    change (String c s = String c (String d r ++ w)%string). by rewrite <- Hs.
Qed.

Lemma same_request_rstrip s : same_request s (PyStr.rstrip s).
Proof.
  destruct (rstrip_tail s) as (w & Hw & Hs). rewrite Hs at 1.
  by apply same_request_blank_tail.
Qed.

Lemma same_request_lower_from s : forall before,
  same_request (before ++ s) (before ++ PyStr.lower s).
Proof.
  induction s as [|c s IH]; intros before; [apply same_refl|].
  simpl. eapply same_trans.
  - apply (same_case c (PyStr.lower_char c)). by rewrite PyStrFacts.lower_char_idem.
  - change (String (PyStr.lower_char c) s)
      with (String (PyStr.lower_char c) EmptyString ++ s)%string.
    change (String (PyStr.lower_char c) (PyStr.lower s))
      with (String (PyStr.lower_char c) EmptyString ++ PyStr.lower s)%string.
    rewrite <- !append_assoc_text. apply IH.
Qed.

Lemma same_request_own_signature s : same_request s (get_question_signature s).
Proof.
  unfold get_question_signature, PyStr.strip.
  eapply same_trans; [apply same_request_lstrip|].
  eapply same_trans; [apply same_request_rstrip|].
  apply (same_request_lower_from _ EmptyString).
Qed.

Lemma signature_same_request s t :
  get_question_signature s = get_question_signature t -> same_request s t.
Proof.
  intros Hsig. eapply same_trans; [apply same_request_own_signature|].
  rewrite Hsig. apply same_sym, same_request_own_signature.
Qed.


(** * The claims *)

(** C1. Whatever the random source does, [execute_plan] ends as the exact
    arithmetic does: with the same exception, or with an answer that is the
    number the exact arithmetic gives, [a+b] for a SUM step and [a*b] for a
    PRODUCT step.  A run that returns an answer has invoked an unreliable
    primitive once for each SUM or PRODUCT step, in order, and no more: a
    candidate that fails the comparison is replaced by the recomputed value,
    not drawn again. *)
Theorem execute_plan_exact `{Runtime} (plan_text : string) (m : machine) :
  agrees (fst (execute_plan plan_text m)) (exact_plan plan_text)
  /\ (forall r, fst (execute_plan plan_text m) = Ok r ->
        calls (snd (execute_plan plan_text m))
        = calls m ++ omap unreliable_call (steps_of plan_text)
        /\ length (omap unreliable_call (steps_of plan_text))
           = length (filter (fun stp => is_unreliable_step stp = true)
                       (steps_of plan_text))).
Proof.
  unfold execute_plan, exact_plan, steps_of, bind, lift, rbind.
  destruct (json_loads plan_text) as [plan|e]; simpl; [|done].
  destruct (execute_loaded_exact plan m) as [Hagree Hcalls].
  split; [done|]. intros r Hr.
  destruct (Hcalls r Hr) as (steps & -> & Hlog & xs & Hxs).
  split; [done|]. by eapply exact_steps_calls.
Qed.

(** The plan of Example 1 under a source that makes every unreliable call
    fail: the answer is 28 and PRODUCT was invoked once, on 7 and 4. *)
Lemma execute_plan_exact_witness :
  fst (@execute_plan Reader.runtime Examples.delta_then_product
         Examples.failing_source) = Ok (PyFloat.of_Z 28)
  /\ calls (snd (@execute_plan Reader.runtime Examples.delta_then_product
                   Examples.failing_source))
     = [("PRODUCT"%string, PyFloat.of_Z 7, PyFloat.of_Z 4)]
  /\ length (filter (fun stp => is_unreliable_step stp = true)
               (@steps_of Reader.runtime Examples.delta_then_product)) = 1%nat.
Proof.
  pose proof (@execute_plan_exact Reader.runtime Examples.delta_then_product
                Examples.failing_source) as [_ Hcalls].
  assert (fst (@execute_plan Reader.runtime Examples.delta_then_product
                 Examples.failing_source) = Ok (PyFloat.of_Z 28)) as Hrun
    by (vm_compute; reflexivity).
  destruct (Hcalls _ Hrun) as [Hlog Hcount].
  split; [exact Hrun|]. split.
  - rewrite Hlog. vm_compute. reflexivity.
  - rewrite <- Hcount. vm_compute. reflexivity.
Defined.

(** C2, as it is stated, fails.  From the empty cache the same request is
    made three times: the first plan runs, the second divides by zero, the
    third runs.  Before the third call the signature has no cache entry, and
    that one success, which follows a failure, creates the entry: the counter
    counts the fresh successes, consecutive or not. *)
Lemma promotion_without_consecutive_successes :
  let ask := @ask_system Reader.runtime Examples.good_bad_good 1 Examples.request in
  let sig := get_question_signature Examples.request in
  let w0 := Examples.initial Examples.failing_source in
  let w1 := snd (ask w0) in
  let w2 := snd (ask w1) in
  let w3 := snd (ask w2) in
  status_of (fst (ask w0)) = Some success
  /\ status_of (fst (ask w1)) = Some fail
  /\ cached w2 sig = None
  /\ status_of (fst (ask w2)) = Some success
  /\ cached w3 sig = Some Examples.absolute_only.
Proof. vm_compute. repeat split. Qed.

(** C2, amended.  For a signature with no cache entry: the fresh success
    that finds the counter at 0 leaves the signature without an entry and
    the counter at 1; the fresh success that finds the counter at 1 stores
    its own plan text as the entry; a call that does not end in a success
    changes neither dictionary, and a call under another signature changes
    neither the entry nor the counter of this one, so that the second
    success need not follow the first at once; and a cached plan, once set,
    is the same after every later call. *)
Theorem promotion_rule `{Runtime} (chat : oracle) :
  (forall fuel q w o,
      let sig := get_question_signature q in
      let w' := snd (ask_system chat fuel q w) in
      cached w sig = None -> count_of w sig = 0 ->
      fst (ask_system chat fuel q w) = Returns o -> status o = success ->
      cached w' sig = None /\ count_of w' sig = 1)
  /\ (forall fuel q w o,
      let sig := get_question_signature q in
      let w' := snd (ask_system chat fuel q w) in
      cached w sig = None -> count_of w sig = 1 ->
      fst (ask_system chat fuel q w) = Returns o -> status o = success ->
      via o = fresh_llm /\ cached w' sig = Some (plan o))
  /\ (forall fuel q w,
      let w' := snd (ask_system chat fuel q w) in
      status_of (fst (ask_system chat fuel q w)) <> Some success ->
      virtual_tools w' = virtual_tools w /\ success_count w' = success_count w)
  /\ (forall fuel q w s,
      let w' := snd (ask_system chat fuel q w) in
      s <> get_question_signature q ->
      cached w' s = cached w s /\ count_of w' s = count_of w s)
  /\ (forall fuel q w s p,
      cached w s = Some p ->
      cached (snd (ask_system chat fuel q w)) s = Some p).
Proof.
  split; [|split; [|split; [|split]]].
  - intros fuel q w o sig w' Hmiss Hcount Ho Hs.
    destruct (ask_system_success chat fuel q w o Hmiss Ho Hs) as (_ & Hn & Hc).
    fold sig w' in Hn, Hc. rewrite Hcount in *. by split.
  - intros fuel q w o sig w' Hmiss Hcount Ho Hs.
    destruct (ask_system_success chat fuel q w o Hmiss Ho Hs) as (Hvia & _ & Hc).
    fold sig w' in Hc. rewrite Hcount in *. by split.
  - intros fuel q w w'. apply ask_system_no_success.
  - intros fuel q w s w'. apply ask_system_frame.
  - intros fuel q w s p. apply ask_system_keeps.
Qed.

(** Two requests in a row with two good plans: no entry after the first,
    the second plan cached after the second. *)
Lemma promotion_rule_witness :
  let ask := @ask_system Reader.runtime Examples.good_good 1 Examples.request in
  let sig := get_question_signature Examples.request in
  let w0 := Examples.initial Examples.failing_source in
  let w1 := snd (ask w0) in
  let w2 := snd (ask w1) in
  cached w1 sig = None /\ cached w2 sig = Some Examples.absolute_only.
Proof.
  intros ask sig w0 w1 w2.
  destruct (@promotion_rule Reader.runtime Examples.good_good)
    as (Hfirst & Hsecond & _).
  assert (exists o, fst (ask w0) = Returns o /\ status o = success
                    /\ plan o = Examples.delta_then_product)
    as (o1 & Ho1 & Hs1 & _) by (vm_compute; eexists; repeat split).
  assert (exists o, fst (ask w1) = Returns o /\ status o = success
                    /\ plan o = Examples.absolute_only)
    as (o2 & Ho2 & Hs2 & Hp2) by (vm_compute; eexists; repeat split).
  destruct (Hfirst 1%nat Examples.request w0 o1) as [Hc1 Hn1];
    [reflexivity|reflexivity|exact Ho1|exact Hs1|].
  destruct (Hsecond 1%nat Examples.request w1 o2) as [_ Hc2];
    [exact Hc1|exact Hn1|exact Ho2|exact Hs2|].
  split; [exact Hc1|]. rewrite <- Hp2. exact Hc2.
Defined.

(** C3, as it is stated, fails.  DELTA with three arguments and ABS with two
    run to an answer: an argument beyond the arity of the primitive is not
    looked at. *)
Lemma surplus_arguments_accepted :
  fst (@execute_plan Reader.runtime Examples.delta_three_args
         Examples.failing_source) = Ok (PyFloat.of_Z (-7))
  /\ fst (@execute_plan Reader.runtime Examples.abs_two_args
            Examples.failing_source) = Ok (PyFloat.of_Z 6).
Proof. split; vm_compute; reflexivity. Qed.

(** C3, amended.  A SUM or PRODUCT step with fewer than two arguments makes
    [execute_plan] fail with ArityMismatch as soon as the step is reached;
    and no primitive looks beyond its arity: a step with more than two
    arguments runs as with the first two, an ABS step as with the first. *)
Theorem arity_of_unreliable_tools `{Runtime} :
  (forall plan_text plan stp tool args n m i m1,
      json_loads plan_text = Ok plan ->
      reaches plan m i stp m1 ->
      step_head stp = Ok (tool, args) ->
      (tool = "SUM" \/ tool = "PRODUCT")%string ->
      len args = Ok n -> n < 2 ->
      execute_plan plan_text m = (Raised (ArityMismatch tool), m1))
  /\ (forall i tool x y extra m,
        run_tool i tool (JList (x :: y :: extra)) m
        = run_tool i tool (JList [x; y]) m)
  /\ (forall i x extra m,
        run_tool i "ABS" (JList (x :: extra)) m = run_tool i "ABS" (JList [x]) m).
Proof.
  split; [|split].
  - intros plan_text plan stp tool args n m i m1 Hload Hreach Hhead Htool Hlen Hn.
    rewrite (execute_plan_loaded _ _ _ Hload).
    eapply reaches_raise; [done|].
    rewrite (run_step_head _ _ _ _ _ Hhead).
    by eapply too_few_for_unreliable.
  - apply surplus_of_two.
  - apply surplus_of_abs.
Qed.

(** A plan whose second step is SUM with one argument. *)
Lemma arity_of_unreliable_tools_witness :
  @execute_plan Reader.runtime Examples.sum_one_arg Examples.failing_source
  = (Raised (ArityMismatch "SUM"), Examples.failing_source).
Proof.
  refine (proj1 (@arity_of_unreliable_tools Reader.runtime)
            Examples.sum_one_arg
            (Examples.loaded_plan [Examples.delta_10_3; Examples.sum_1] 1)
            Examples.sum_1 "SUM"%string (JList [JInt 1]) 1
            Examples.failing_source 1%nat Examples.failing_source _ _ _ _ _ _).
  - vm_compute. reflexivity.
  - exists (JList [Examples.delta_10_3; Examples.sum_1]), 2, (JInt 1),
      [Examples.delta_10_3], [], [VFloat (PyFloat.of_Z (-7))].
    repeat split; vm_compute; reflexivity.
  - reflexivity.
  - left. reflexivity.
  - reflexivity.
  - reflexivity.
Defined.

(** C4.  [execute_plan] on a plan of two steps: with the final-step index -5
    it runs both steps and fails with an IndexError, not with MalformedPlan;
    with -1 it returns the result of the last step; with 5 it fails with
    MalformedPlan before any step runs. *)
Lemma negative_final_index :
  fst (@execute_plan Reader.runtime Examples.final_index_minus_5
         Examples.failing_source)
  = raise IndexError "list index out of range"
  /\ fst (@execute_plan Reader.runtime Examples.final_index_minus_1
            Examples.failing_source)
     = Ok (PyFloat.of_Z 28)
  /\ fst (@execute_plan Reader.runtime Examples.final_index_5
            Examples.failing_source)
     = Raised MalformedPlan.
Proof. repeat split; vm_compute; reflexivity. Qed.

(** C5, as it is stated, fails.  The request is not cached and the service
    raises on the first call of the conversation: the exception leaves
    [ask_system], which returns no dictionary. *)
Lemma oracle_failure_escapes :
  fst (@ask_system Reader.runtime Examples.rate_limited 1 Examples.request
         (Examples.initial Examples.failing_source))
  = Raises (Exn (ServiceError "RateLimitError") "You exceeded your current quota")
  /\ ~ exists o,
        fst (@ask_system Reader.runtime Examples.rate_limited 1 Examples.request
               (Examples.initial Examples.failing_source)) = Returns o.
Proof.
  assert (fst (@ask_system Reader.runtime Examples.rate_limited 1 Examples.request
                 (Examples.initial Examples.failing_source))
          = Raises (Exn (ServiceError "RateLimitError")
                      "You exceeded your current quota")) as Hrun
    by (vm_compute; reflexivity).
  split; [exact Hrun|]. intros [o Ho]. rewrite Hrun in Ho. discriminate.
Qed.

(** C5, amended.  A call of [ask_system] that has a plan text to work with,
    the cached one or the reply that ended the conversation, returns a
    dictionary with the request, that plan text and a status: [success] with
    the answer, or [fail] with the message of the exception that loading or
    executing the plan raised.  An exception raised while the conversation
    is going on is not caught: [ask_system] raises it; and while the
    conversation goes on, [ask_system] has not returned. *)
Theorem ask_system_outcome `{Runtime} (chat : oracle) (fuel : nat) (q : string)
    (w : world) :
  match plan_in_use chat fuel q w with
  | Some (Ok text) =>
      exists o,
        fst (ask_system chat fuel q w) = Returns o
        /\ question o = q /\ plan o = text /\ well_formed o
        /\ match fst (execute_plan text (mach w)) with
           | Ok val => status o = success /\ answer o = Some val
           | Raised e => status o = fail /\ error o = Some (exc_str e)
           end
  | Some (Raised e) => fst (ask_system chat fuel q w) = Raises e
  | None => fst (ask_system chat fuel q w) = StillPlanning
  end.
Proof.
  unfold plan_in_use.
  destruct (virtual_tools w !! get_question_signature q) as [entry|] eqn:Hq.
  - rewrite (ask_system_hit chat _ _ _ _ Hq).
    destruct (execute_plan _ _) as [[val|e] m]; simpl;
      eexists; (split; [reflexivity|]); unfold well_formed; simpl; eauto 10.
  - rewrite (ask_system_miss chat _ _ _ Hq). simpl.
    destruct (conversation_with_planner _ _ _ _) as [[[text|e]|] made]; simpl; try done.
    destruct (execute_plan _ _) as [[val|e] m]; simpl;
      eexists; (split; [reflexivity|]); unfold well_formed; simpl; eauto 10.
Qed.

(** C6.  A request whose signature is cached is answered from the cached
    plan alone: the dictionary says [virtual_tool], with status [success] or
    [fail] as the execution of the cached plan ends; no call is made to the
    service, whose behaviour and the number of rounds allowed make no
    difference; and both dictionaries are left as they were, the failing
    entry included. *)
Theorem cache_hit_skips_discovery `{Runtime} (chat : oracle) (fuel : nat)
    (q : string) (w : world) (entry : virtual_tool_entry) :
  virtual_tools w !! get_question_signature q = Some entry ->
  let w' := snd (ask_system chat fuel q w) in
  (exists o,
      fst (ask_system chat fuel q w) = Returns o
      /\ via o = virtual_tool
      /\ question o = q
      /\ plan o = plan_text entry
      /\ match fst (execute_plan (plan_text entry) (mach w)) with
         | Ok val => status o = success /\ answer o = Some val /\ error o = None
         | Raised e => status o = fail /\ answer o = None /\ error o = Some (exc_str e)
         end)
  /\ oracle_calls w' = oracle_calls w
  /\ virtual_tools w' = virtual_tools w
  /\ success_count w' = success_count w
  /\ (forall chat' fuel', ask_system chat' fuel' q w = ask_system chat fuel q w).
Proof.
  intros Hhit. simpl. rewrite (ask_system_hit chat _ _ _ _ Hhit).
  split; [|split; [|split; [|split]]].
  - destruct (execute_plan _ _) as [[val|e] m]; simpl; eexists; by repeat split.
  - by destruct (execute_plan _ _) as [[val|e] m].
  - by destruct (execute_plan _ _) as [[val|e] m].
  - by destruct (execute_plan _ _) as [[val|e] m].
  - intros chat' fuel'. by rewrite (ask_system_hit chat' _ _ _ _ Hhit).
Qed.

(** A cached plan that divides by zero, and a service that would raise. *)
Lemma cache_hit_skips_discovery_witness :
  let w' := snd (@ask_system Reader.runtime Examples.rate_limited 0 Examples.request Examples.cached_world) in
  status_of (fst (@ask_system Reader.runtime Examples.rate_limited 0 Examples.request Examples.cached_world))
  = Some fail
  /\ oracle_calls w' = 0%nat
  /\ virtual_tools w' = virtual_tools Examples.cached_world.
Proof.
  assert (virtual_tools Examples.cached_world !! get_question_signature Examples.request
          = Some (VirtualTool Examples.quotient_by_zero)) as Hhit
    by (apply lookup_singleton_eq).
  destruct (@cache_hit_skips_discovery Reader.runtime Examples.rate_limited 0 Examples.request
              Examples.cached_world _ Hhit) as ((o & Ho & _ & _ & _ & Hrun) & Hcalls & Hcache & _).
  simpl. rewrite Ho. simpl. split; [|split; [exact Hcalls|exact Hcache]].
  vm_compute in Hrun. destruct Hrun as [Hstatus _]. f_equal. exact Hstatus.
Defined.

(** C7, as it is stated, fails.  The text with the sharp s and its
    upper-case form STRASSE differ only in letter case, and upper-casing
    either gives STRASSE; yet the signature of the first is the text
    itself and that of the second is strasse: [str.lower] does not undo
    [str.upper]. *)
Lemma upper_case_changes_the_signature :
  PyStr.upper Scenarios.strasse = "STRASSE"%string
  /\ PyStr.upper (PyStr.upper Scenarios.strasse) = PyStr.upper Scenarios.strasse
  /\ get_question_signature Scenarios.strasse = Scenarios.strasse
  /\ get_question_signature (PyStr.upper Scenarios.strasse) = "strasse"%string
  /\ get_question_signature (PyStr.upper Scenarios.strasse)
     <> get_question_signature Scenarios.strasse.
Proof.
  split; [reflexivity|]. split; [reflexivity|]. split; [reflexivity|].
  split; [reflexivity|]. vm_compute. discriminate.
Qed.

(** C7, amended.  For request texts of code points up to U+00FF: the
    request signature is idempotent; two texts have the same signature
    exactly when one is obtained from the other by adding or dropping white
    space at either end and by replacing characters with characters that
    have the same lower-case form; and the signatures of " Foo " and "foo"
    are equal. *)
Theorem signature_normalises :
  (forall question,
      get_question_signature (get_question_signature question)
      = get_question_signature question)
  /\ (forall s t, same_request s t <->
        get_question_signature s = get_question_signature t)
  /\ get_question_signature " Foo " = get_question_signature "foo".
Proof.
  split; [|split].
  - intros q. unfold get_question_signature.
    by rewrite PyStrFacts.strip_lower, PyStrFacts.lower_idem, PyStrFacts.strip_idem.
  - intros s t. split.
    + apply same_request_signature.
    + apply signature_same_request.
  - reflexivity.
Qed.

(** Foo after a blank against Foo, and FOO against foo between blanks. *)
Lemma signature_normalises_witness :
  same_request " Foo" "Foo"
  /\ get_question_signature " Foo" = get_question_signature "Foo"
  /\ same_request "FOO" " foo ".
Proof.
  assert (same_request " Foo" "Foo") as Hsame
    by (apply (same_leading " "%char "Foo"); reflexivity).
  split; [exact Hsame|]. split.
  - exact (proj1 (proj1 (proj2 signature_normalises) " Foo"%string "Foo"%string) Hsame).
  - apply (proj2 (proj1 (proj2 signature_normalises) "FOO"%string " foo "%string)).
    reflexivity.
Defined.

(** C8, as it is stated, fails.  A plan whose only step is QUOTIENT of 5 by 0
    and whose final-step index is 5 fails with MalformedPlan, which is no
    division by zero: the index is checked before any step runs. *)
Lemma division_by_zero_behind_bad_index :
  @has_step (Examples.loaded_plan [Examples.quotient_5_0] 5) Examples.quotient_5_0
  /\ @divides_by_zero Reader.runtime Examples.quotient_5_0
  /\ Reader.loads Examples.quotient_by_zero_final_5
     = Ok (Examples.loaded_plan [Examples.quotient_5_0] 5)
  /\ fst (@execute_plan Reader.runtime Examples.quotient_by_zero_final_5
            Examples.failing_source) = Raised MalformedPlan
  /\ is_DivisionByZero MalformedPlan = false.
Proof.
  split; [|split; [|split; [|split]]].
  - exists (JList [Examples.quotient_5_0]). split; [reflexivity|]. constructor.
  - exists "QUOTIENT"%string, (JList [JInt 5; JInt 0]), (PyFloat.of_Z 5), PyFloat.zero.
    split; [reflexivity|]. split; [by left|].
    split; vm_compute; reflexivity.
  - vm_compute. reflexivity.
  - vm_compute. reflexivity.
  - reflexivity.
Qed.

(** C8, amended.  A plan with a QUOTIENT or MODULO step whose arguments are
    two numbers, the second zero, returns no answer; and when that step is
    reached, the final-step index having passed its check and the steps
    before having run, [execute_plan] fails with DivisionByZero. *)
Theorem division_by_zero_step `{Runtime} (plan_text : string) (plan stp : json) :
  json_loads plan_text = Ok plan ->
  divides_by_zero stp ->
  (has_step plan stp -> forall m r, fst (execute_plan plan_text m) <> Ok r)
  /\ (forall m i m1,
        reaches plan m i stp m1 ->
        exists e, execute_plan plan_text m = (Raised e, m1)
                  /\ is_DivisionByZero e = true).
Proof.
  intros Hload Hzero. split.
  - intros (steps & Hsteps & Hin) m r Hr.
    rewrite (execute_plan_loaded _ _ _ Hload) in Hr.
    destruct (execute_loaded_ok _ _ _ Hr) as (steps' & rs & m' & Hsteps' & Hrun).
    rewrite Hsteps in Hsteps'. injection Hsteps' as <-.
    destruct (run_steps_all_ok _ _ _ _ _ _ Hrun stp Hin) as (j & mj & v & mj' & Hok).
    destruct (divides_by_zero_raises j stp mj Hzero) as [msg Hraise]. congruence.
  - intros m i m1 Hreach.
    destruct (divides_by_zero_raises i stp m1 Hzero) as [msg Hraise].
    exists (Exn ZeroDivisionError msg). split; [|done].
    rewrite (execute_plan_loaded _ _ _ Hload). by eapply reaches_raise.
Qed.

(** DELTA, then QUOTIENT of 5 by 0. *)
Lemma division_by_zero_step_witness :
  exists e,
    @execute_plan Reader.runtime Examples.delta_then_quotient_by_zero
      Examples.failing_source = (Raised e, Examples.failing_source)
    /\ is_DivisionByZero e = true.
Proof.
  refine (proj2 (@division_by_zero_step Reader.runtime
                   Examples.delta_then_quotient_by_zero
                   (Examples.loaded_plan [Examples.delta_10_3; Examples.quotient_5_0] 1)
                   Examples.quotient_5_0 _ _)
            Examples.failing_source 1%nat Examples.failing_source _).
  - vm_compute. reflexivity.
  - exists "QUOTIENT"%string, (JList [JInt 5; JInt 0]), (PyFloat.of_Z 5), PyFloat.zero.
    split; [reflexivity|]. split; [by left|].
    split; vm_compute; reflexivity.
  - exists (JList [Examples.delta_10_3; Examples.quotient_5_0]), 2, (JInt 1),
      [Examples.delta_10_3], [], [VFloat (PyFloat.of_Z (-7))].
    repeat split; vm_compute; reflexivity.
Defined.

(** C9.  A plan object without the field [final_step_index], whose steps are
    a non-empty list, is executed as the same object with the field set to
    the index of the last step: when the steps run, the answer is the result
    of the last step, converted to a float, and a failure is the failure of
    a step. *)
Theorem missing_final_index_defaults `{Runtime} (plan_text : string)
    (d : list (string * json)) (init : list json) (last_step : json) (m : machine) :
  json_loads plan_text = Ok (JDict d) ->
  assoc "final_step_index" d = None ->
  assoc "steps" d = Some (JList (init ++ [last_step])) ->
  execute_plan plan_text m
  = execute_loaded
      (JDict (d ++ [("final_step_index"%string, JInt (Z.of_nat (length init)))])) m
  /\ (forall rs m0 v m1,
        run_steps 0 init [] m = (Ok rs, m0) ->
        run_step (length init) last_step m0 = (Ok v, m1) ->
        execute_plan plan_text m = (float_of_val v, m1))
  /\ (forall e m',
        run_steps 0 (init ++ [last_step]) [] m = (Raised e, m') ->
        execute_plan plan_text m = (Raised e, m')).
Proof.
  intros Hload Hnone Hsteps.
  rewrite (execute_plan_loaded _ _ _ Hload).
  assert (forall k, get (JDict d) "final_step_index" (JInt k) = Ok (JInt k)) as Hget
    by (intros k; simpl; by rewrite Hnone).
  assert (Z.of_nat (length (init ++ [last_step])) - 1 = Z.of_nat (length init)) as Hn
    by (rewrite length_app; simpl; lia).
  split; [|split].
  - unfold execute_loaded, bind, lift. simpl get.
    rewrite (assoc_app_Some _ _ _ _ Hsteps), Hsteps, Hnone. simpl.
    rewrite (assoc_app_None _ _ _ Hnone). simpl. by rewrite Hn.
  - intros rs m0 v m1 Hinit Hlast.
    unfold execute_loaded, bind, lift, throw. simpl get. rewrite Hsteps, Hnone.
    simpl len. cbv iota beta.
    assert ((Z.of_nat (length (init ++ [last_step]))
             <=? Z.of_nat (length (init ++ [last_step])) - 1) = false) as Hle
      by (apply Z.leb_gt; lia).
    simpl ge_int. rewrite Hle. simpl items.
    rewrite run_steps_app, Hinit. simpl. unfold bind, ret. rewrite Hlast.
    pose proof (run_steps_length _ _ _ _ _ _ Hinit) as Hlen. simpl in Hlen.
    unfold results_getitem, rbind.
    rewrite index_last; [done|]. rewrite !length_app. simpl. lia.
  - intros e m' Hrun.
    unfold execute_loaded, bind, lift, throw. simpl get. rewrite Hsteps, Hnone.
    simpl len. cbv iota beta.
    assert ((Z.of_nat (length (init ++ [last_step]))
             <=? Z.of_nat (length (init ++ [last_step])) - 1) = false) as Hle
      by (apply Z.leb_gt; lia).
    simpl ge_int. rewrite Hle. simpl items. by rewrite Hrun.
Qed.

(** DELTA, then ABS of -6, and no final-step index: the answer is 6. *)
Lemma missing_final_index_defaults_witness :
  @execute_plan Reader.runtime Examples.no_final_index Examples.failing_source
  = (Ok (PyFloat.of_Z 6), Examples.failing_source).
Proof.
  refine (proj1 (proj2 (@missing_final_index_defaults Reader.runtime
            Examples.no_final_index
            [("steps"%string, JList [Examples.delta_10_3; Examples.abs_minus_6])]
            [Examples.delta_10_3] Examples.abs_minus_6 Examples.failing_source
            _ _ _))
            [VFloat (PyFloat.of_Z (-7))] Examples.failing_source
            (VFloat (PyFloat.of_Z 6)) Examples.failing_source _ _);
    vm_compute; reflexivity.
Defined.

(** C10.  A POWER step whose first argument is zero and whose second is a
    negative number makes [execute_plan] fail with a division by zero, once
    the step is reached.  The plan of the witness, DELTA and then POWER of 0
    to the -1, is one such plan. *)
Theorem power_of_zero_divides `{Runtime} (plan_text : string) (plan stp : json)
    (args : json) (a b : float) (m : machine) (i : nat) (m1 : machine) :
  json_loads plan_text = Ok plan ->
  reaches plan m i stp m1 ->
  step_head stp = Ok ("POWER"%string, args) ->
  two_floats args = Ok (a, b) ->
  PyFloat.eqb a PyFloat.zero = true ->
  PyFloat.ltb b PyFloat.zero = true ->
  PyFloat.is_inf b = false ->
  exists e, execute_plan plan_text m = (Raised e, m1)
            /\ is_DivisionByZero e = true.
Proof.
  intros Hload Hreach Hhead Hargs Ha Hb Hfin.
  exists (Exn ZeroDivisionError "0.0 cannot be raised to a negative power").
  split; [|done].
  rewrite (execute_plan_loaded _ _ _ Hload).
  eapply reaches_raise; [done|].
  rewrite (run_step_head _ _ _ _ _ Hhead).
  unfold run_tool; simpl. unfold bind, lift. rewrite Hargs. simpl.
  unfold power. by rewrite pow_zero_negative.
Qed.

(** DELTA, then POWER of 0 to the -1. *)
Lemma power_of_zero_divides_witness :
  exists e,
    @execute_plan Reader.runtime Examples.power_zero_negative
      Examples.failing_source = (Raised e, Examples.failing_source)
    /\ is_DivisionByZero e = true.
Proof.
  refine (@power_of_zero_divides Reader.runtime Examples.power_zero_negative
            (Examples.loaded_plan [Examples.delta_10_3; Examples.power_0_minus_1] 1)
            Examples.power_0_minus_1 (JList [JInt 0; JInt (-1)])
            PyFloat.zero (PyFloat.of_Z (-1))
            Examples.failing_source 1%nat Examples.failing_source _ _ _ _ _ _ _).
  - vm_compute. reflexivity.
  - exists (JList [Examples.delta_10_3; Examples.power_0_minus_1]), 2, (JInt 1),
      [Examples.delta_10_3], [], [VFloat (PyFloat.of_Z (-7))].
    repeat split; vm_compute; reflexivity.
  - reflexivity.
  - vm_compute. reflexivity.
  - reflexivity.
  - reflexivity.
  - reflexivity.
Defined.
(** * Further properties of the code *)

(** ** The tool functions *)

(** X1. [quotient] and [modulo] raise ZeroDivisionError, each with its own
    message, exactly on a divisor that is zero, of either sign; on every
    other divisor, an infinity or a NaN included, [quotient] returns the
    correctly rounded ratio and [modulo] returns a value. *)
Theorem division_guard :
  (forall a s,
      quotient a (S754_zero s) = raise ZeroDivisionError "Division by zero."
      /\ modulo a (S754_zero s) = raise ZeroDivisionError "Modulo by zero.")
  /\ (forall a b,
        (forall s, b <> S754_zero s) ->
        quotient a b = Ok (PyFloat.div a b) /\ exists r, modulo a b = Ok r).
Proof.
  split.
  - intros a s. by destruct s.
  - intros a b Hb.
    assert (PyFloat.eqb b PyFloat.zero = false) as Hzero.
    { destruct (PyFloat.eqb b PyFloat.zero) eqn:Heq; [|done].
      apply float_is_zero in Heq as [s ->]. by destruct (Hb s). }
    unfold quotient, modulo, truediv, rem. rewrite eqb_int_zero, Hzero. split; [done|].
    destruct (PyFloat.eqb (PyFloat.fmod a b) PyFloat.zero); [by eexists|].
    destruct (negb _); by eexists.
Qed.

(** 5 divided by 2. *)
Lemma division_guard_witness :
  quotient (PyFloat.of_Z 5) (PyFloat.of_Z 2)
  = Ok (PyFloat.div (PyFloat.of_Z 5) (PyFloat.of_Z 2)).
Proof.
  destruct division_guard as [_ Hother].
  refine (proj1 (Hother (PyFloat.of_Z 5) (PyFloat.of_Z 2) _)).
  intros s. vm_compute. discriminate.
Defined.

(** X2. [verify_unreliable] accepts the true sum as a SUM candidate, and the
    true product as a PRODUCT candidate, unless that value is a NaN, which
    it rejects; under every other tool name it accepts any candidate. *)
Theorem verify_unreliable_accepts :
  (forall a b,
      verify_unreliable "SUM" a b (VFloat (PyFloat.add a b))
      = negb (PyFloat.is_nan (PyFloat.add a b)))
  /\ (forall a b,
        verify_unreliable "PRODUCT" a b (VFloat (PyFloat.mul a b))
        = negb (PyFloat.is_nan (PyFloat.mul a b)))
  /\ (forall tool_name a b candidate,
        PyStr.upper tool_name <> "SUM"%string ->
        PyStr.upper tool_name <> "PRODUCT"%string ->
        verify_unreliable tool_name a b candidate = true).
Proof.
  split; [|split].
  - intros a b. unfold verify_unreliable. simpl. apply float_eqb_refl.
  - intros a b. unfold verify_unreliable. simpl. apply float_eqb_refl.
  - intros tool_name a b candidate Hsum Hprod. unfold verify_unreliable.
    apply String.eqb_neq in Hsum, Hprod. by rewrite Hsum, Hprod.
Qed.

(** Under the name delta, 0 passes for the arguments 10 and 3. *)
Lemma verify_unreliable_accepts_witness :
  verify_unreliable "delta" (PyFloat.of_Z 10) (PyFloat.of_Z 3)
    (VFloat (PyFloat.of_Z 0)) = true.
Proof.
  destruct verify_unreliable_accepts as (_ & _ & Hother).
  apply Hother; vm_compute; discriminate.
Defined.

(** X26. [unreliable_sum] and [unreliable_product] never raise and leave
    the random source itself as it is.  When the next random number is
    below the failure rate they draw a second time and return an integer
    from -100 to 100; otherwise they draw once and return the true sum or
    product. *)
Theorem unreliable_primitives_return (a b : float) (m : machine) :
  (exists v m',
      unreliable_sum a b m = (Ok v, m')
      /\ draws m' = draws m
      /\ if PyFloat.ltb (next_random m) fail_rate
         then (exists n, v = VInt n /\ -100 <= n <= 100)
              /\ drawn m' = (drawn m + 2)%nat
         else v = VFloat (PyFloat.add a b) /\ drawn m' = (drawn m + 1)%nat)
  /\ (exists v m',
        unreliable_product a b m = (Ok v, m')
        /\ draws m' = draws m
        /\ if PyFloat.ltb (next_random m) fail_rate
           then (exists n, v = VInt n /\ -100 <= n <= 100)
                /\ drawn m' = (drawn m + 2)%nat
           else v = VFloat (PyFloat.mul a b) /\ drawn m' = (drawn m + 1)%nat).
Proof.
  unfold unreliable_sum, unreliable_product, bind, record_call, random_random,
    next_draw, ret; simpl.
  fold (next_random m). set (u := next_random m).
  split.
  - destruct (unreliable_draw (PyFloat.add a b) u
                (Machine (draws m) (S (drawn m)) (calls m ++ [("SUM"%string, a, b)])))
      as (v & m' & Hrun & Hdraws & _ & Hcase).
    cbv zeta in Hrun. exists v, m'. split; [exact Hrun|]. split; [exact Hdraws|].
    simpl in Hcase. destruct (PyFloat.ltb u fail_rate).
    + destruct Hcase as [Hn ->]. split; [exact Hn|lia].
    + destruct Hcase as [Hv ->]. split; [exact Hv|lia].
  - destruct (unreliable_draw (PyFloat.mul a b) u
                (Machine (draws m) (S (drawn m)) (calls m ++ [("PRODUCT"%string, a, b)])))
      as (v & m' & Hrun & Hdraws & _ & Hcase).
    cbv zeta in Hrun. exists v, m'. split; [exact Hrun|]. split; [exact Hdraws|].
    simpl in Hcase. destruct (PyFloat.ltb u fail_rate).
    + destruct Hcase as [Hn ->]. split; [exact Hn|lia].
    + destruct Hcase as [Hv ->]. split; [exact Hv|lia].
Qed.

(** ** The executor *)

(** X3. A plan with no SUM and no PRODUCT step leaves the random source as
    it was, and its outcome is that of the exact arithmetic. *)
Theorem reliable_plans_leave_random_alone `{Runtime} (plan_text : string)
    (m : machine) :
  Forall (fun stp => is_unreliable_step stp = false) (steps_of plan_text) ->
  execute_plan plan_text m = (exact_plan plan_text, m).
Proof.
  intros Hall. unfold execute_plan, exact_plan, steps_of, bind, lift, rbind in *.
  destruct (json_loads plan_text) as [plan|e]; [|done].
  apply execute_loaded_reliable. intros steps Hsteps. by rewrite Hsteps in Hall.
Qed.

(** DELTA, then ABS of -6, under the source that fails every unreliable
    call. *)
Lemma reliable_plans_leave_random_alone_witness :
  @execute_plan Reader.runtime Scenarios.delta_then_abs Examples.failing_source
  = (Ok (PyFloat.of_Z 6), Examples.failing_source).
Proof.
  rewrite (@reliable_plans_leave_random_alone Reader.runtime).
  - vm_compute. reflexivity.
  - assert (@steps_of Reader.runtime Scenarios.delta_then_abs
            = [Examples.delta_10_3; Examples.abs_minus_6]) as ->
      by (vm_compute; reflexivity).
    repeat constructor.
Defined.

(** X4. A run that returns an answer has drawn from the random source at
    least once and at most twice for each SUM or PRODUCT step, and has not
    changed the source itself. *)
Theorem draws_per_unreliable_step `{Runtime} (plan_text : string) (m : machine)
    (r : float) (m' : machine) :
  execute_plan plan_text m = (Ok r, m') ->
  let n := length (filter (fun stp => is_unreliable_step stp = true)
                     (steps_of plan_text)) in
  draws m' = draws m
  /\ (drawn m + n <= drawn m' <= drawn m + 2 * n)%nat.
Proof.
  unfold execute_plan, steps_of, bind, lift.
  destruct (json_loads plan_text) as [plan|e]; [|done]. intros Hrun.
  destruct (execute_loaded_exact plan m) as [_ Hcalls].
  destruct (Hcalls r) as (steps & Hsteps & _ & xs & Hxs); [by rewrite Hrun|].
  rewrite Hsteps. simpl. rewrite <- (exact_steps_calls _ _ _ _ Hxs).
  revert Hrun. unfold execute_loaded, bind, lift, throw. rewrite Hsteps.
  destruct (len steps) as [k|]; [|done].
  destruct (get plan "final_step_index" _) as [final_idx|]; [|done].
  destruct (ge_int final_idx k) as [[]|]; try done.
  pose proof (run_steps_exact (items steps) 0 [] [] m (List.Forall2_nil _)) as Hagree.
  destruct (run_steps 0 (items steps) [] m) as [[rs|] m1] eqn:Hsteps_run; [|done].
  pose proof (run_steps_draws _ _ _ _ _ _ Hsteps_run) as Hd.
  destruct (rbind _ _); [|done]. intros [= _ <-]. split; [|exact Hd].
  pose proof (run_steps_same_draws (items steps) 0 [] m) as Hdraws.
  by rewrite Hsteps_run in Hdraws.
Qed.

(** The plan of Example 1 has one PRODUCT step; its failing call draws
    twice. *)
Lemma draws_per_unreliable_step_witness :
  (1 <= drawn (snd (@execute_plan Reader.runtime Examples.delta_then_product
                      Examples.failing_source)) <= 2)%nat.
Proof.
  assert (@execute_plan Reader.runtime Examples.delta_then_product
            Examples.failing_source
          = (Ok (PyFloat.of_Z 28),
             snd (@execute_plan Reader.runtime Examples.delta_then_product
                    Examples.failing_source))) as Hrun
    by (vm_compute; reflexivity).
  destruct (@draws_per_unreliable_step Reader.runtime _ _ _ _ Hrun) as [_ Hdrawn].
  assert (length (filter (fun stp => is_unreliable_step stp = true)
                    (@steps_of Reader.runtime Examples.delta_then_product)) = 1%nat)
    as Hone by (vm_compute; reflexivity).
  rewrite Hone in Hdrawn. exact Hdrawn.
Defined.

(** X5. When a plan returns an answer, every one of its steps, the ones
    after the final step included, runs to a value at its position under
    every random source. *)
Theorem every_step_must_run `{Runtime} (plan_text : string) (plan steps : json)
    (m : machine) (r : float) :
  json_loads plan_text = Ok plan ->
  get plan "steps" (JList []) = Ok steps ->
  fst (execute_plan plan_text m) = Ok r ->
  forall j stp, items steps !! j = Some stp ->
    forall m', exists v, fst (run_step j stp m') = Ok v.
Proof.
  intros Hload Hsteps Hr j stp Hj m'.
  rewrite (execute_plan_loaded _ _ _ Hload) in Hr.
  destruct (execute_loaded_exact_ok _ _ _ Hr) as (x & Hx & _).
  destruct (exact_loaded_ok _ _ Hx)
    as (steps' & n & final_idx & xs & v & Hsteps' & _ & _ & _ & Hxs & _).
  rewrite Hsteps in Hsteps'. injection Hsteps' as <-.
  destruct (exact_steps_lookup _ _ _ _ Hxs) as (ys & _ & _ & Hall).
  destruct (Hall j stp Hj) as (y & Hy & _). by eapply exact_step_runs.
Qed.

(** The plan of Example 1 answers, so its PRODUCT step runs under the
    steady source as well. *)
Lemma every_step_must_run_witness :
  exists v, fst (@run_step Reader.runtime 1 Scenarios.product_7_4
                   Examples.steady_source) = Ok v.
Proof.
  refine (@every_step_must_run Reader.runtime Examples.delta_then_product
            (Examples.loaded_plan [Examples.delta_10_3; Scenarios.product_7_4] 1)
            (JList [Examples.delta_10_3; Scenarios.product_7_4])
            Examples.failing_source (PyFloat.of_Z 28) _ _ _
            1%nat Scenarios.product_7_4 _ Examples.steady_source).
  - vm_compute. reflexivity.
  - reflexivity.
  - vm_compute. reflexivity.
  - reflexivity.
Defined.

(** X6. The answer of a plan whose final-step index is an integer in range
    is the value that the step at that index has in the exact arithmetic,
    converted to a float. *)
Theorem answer_is_final_step `{Runtime} (plan_text : string) (plan steps : json)
    (n i : Z) (stp : json) (m : machine) (r : float) :
  json_loads plan_text = Ok plan ->
  get plan "steps" (JList []) = Ok steps ->
  len steps = Ok n ->
  get plan "final_step_index" (JInt (n - 1)) = Ok (JInt i) ->
  0 <= i ->
  items steps !! Z.to_nat i = Some stp ->
  fst (execute_plan plan_text m) = Ok r ->
  exists v x,
    exact_step (Z.to_nat i) stp = Ok v
    /\ float_of_val v = Ok x
    /\ equal_to x r.
Proof.
  intros Hload Hsteps Hlen Hfinal Hi Hstp Hr.
  rewrite (execute_plan_loaded _ _ _ Hload) in Hr.
  destruct (execute_loaded_exact_ok _ _ _ Hr) as (x & Hx & Heq).
  destruct (exact_loaded_ok _ _ Hx)
    as (steps' & n' & final_idx & xs & v & Hsteps' & Hlen' & Hfinal' & _
        & Hxs & Hv & Hfloat).
  rewrite Hsteps in Hsteps'. injection Hsteps' as <-.
  rewrite Hlen in Hlen'. injection Hlen' as <-.
  rewrite Hfinal in Hfinal'. injection Hfinal' as <-.
  destruct (exact_steps_lookup _ _ _ _ Hxs) as (ys & -> & _ & Hall).
  destruct (Hall _ _ Hstp) as (y & Hy & Hlook).
  simpl in Hv. unfold index in Hv.
  apply Z.leb_le in Hi. rewrite Hi, Hlook in Hv. injection Hv as <-.
  by exists y, x.
Qed.

(** The answer 28 of the plan of Example 1 is the value of its step 1. *)
Lemma answer_is_final_step_witness :
  exists v x,
    @exact_step Reader.runtime 1 Scenarios.product_7_4 = Ok v
    /\ float_of_val v = Ok x
    /\ equal_to x (PyFloat.of_Z 28).
Proof.
  refine (@answer_is_final_step Reader.runtime Examples.delta_then_product
            (Examples.loaded_plan [Examples.delta_10_3; Scenarios.product_7_4] 1)
            (JList [Examples.delta_10_3; Scenarios.product_7_4])
            2 1 Scenarios.product_7_4
            Examples.failing_source (PyFloat.of_Z 28) _ _ _ _ _ _ _).
  - vm_compute. reflexivity.
  - reflexivity.
  - reflexivity.
  - reflexivity.
  - lia.
  - reflexivity.
  - vm_compute. reflexivity.
Defined.

(** X7. A step whose tool name is none of the seven makes the run raise
    ValueError with the message that quotes the name and gives the position
    of the step, when the steps before it have run; a step without the
    field [tool] has the empty name. *)
Theorem unknown_tool_is_refused `{Runtime} :
  (forall plan_text plan stp tool args m i m1,
      json_loads plan_text = Ok plan ->
      reaches plan m i stp m1 ->
      step_head stp = Ok (tool, args) ->
      known_tool tool = false ->
      execute_plan plan_text m = (Raised (UnknownTool tool i), m1))
  /\ (forall d, assoc "tool" d = None ->
        exists args, step_head (JDict d) = Ok (""%string, args)).
Proof.
  split.
  - intros plan_text plan stp tool args m i m1 Hload Hreach Hhead Htool.
    rewrite (execute_plan_loaded _ _ _ Hload).
    eapply reaches_raise; [done|].
    rewrite (run_step_head _ _ _ _ _ Hhead). by apply run_tool_unknown.
  - intros d Hd. unfold step_head, rbind. simpl. rewrite Hd. simpl. by eexists.
Qed.

(** The step CUBE after a DELTA step. *)
Lemma unknown_tool_is_refused_witness :
  @execute_plan Reader.runtime Scenarios.delta_then_cube Examples.failing_source
  = (raise ValueError "Unknown tool 'CUBE' at step 1", Examples.failing_source).
Proof.
  refine (proj1 (@unknown_tool_is_refused Reader.runtime)
            Scenarios.delta_then_cube
            (Examples.loaded_plan
               [Examples.delta_10_3; Examples.loaded_step "CUBE" [JInt 2]] 1)
            (Examples.loaded_step "CUBE" [JInt 2]) "CUBE"%string (JList [JInt 2])
            Examples.failing_source 1%nat Examples.failing_source _ _ _ _).
  - vm_compute. reflexivity.
  - exists (JList [Examples.delta_10_3; Examples.loaded_step "CUBE" [JInt 2]]), 2,
      (JInt 1), [Examples.delta_10_3], [], [VFloat (PyFloat.of_Z (-7))].
    repeat split; vm_compute; reflexivity.
  - reflexivity.
  - reflexivity.
Defined.



(** X9. A plan with an empty list of steps never returns an answer and runs
    no step; with no final-step index, which then defaults to -1, it raises
    IndexError. *)
Theorem empty_plan_has_no_answer `{Runtime} (plan_text : string)
    (plan steps : json) (m : machine) :
  json_loads plan_text = Ok plan ->
  get plan "steps" (JList []) = Ok steps ->
  len steps = Ok 0 ->
  (exists e, execute_plan plan_text m = (Raised e, m))
  /\ (get plan "final_step_index" (JInt (-1)) = Ok (JInt (-1)) ->
      execute_plan plan_text m
      = (raise IndexError "list index out of range", m)).
Proof.
  intros Hload Hsteps Hlen. rewrite (execute_plan_loaded _ _ _ Hload).
  pose proof (len_items _ _ Hlen) as Hitems.
  assert (items steps = []) as Hnil by (destruct (items steps); [done|simpl in *; lia]).
  unfold execute_loaded, bind, lift, throw. rewrite Hsteps, Hlen, Hnil. simpl.
  split.
  - destruct (get plan "final_step_index" _) as [final_idx|e]; simpl;
      [|eexists; reflexivity].
    destruct final_idx as [|b|i|f|s|l|d]; simpl; try (eexists; reflexivity).
    + destruct b; simpl; eexists; reflexivity.
    + unfold index. simpl. repeat (destruct (_ <=? _); simpl); eexists; reflexivity.
    + destruct (PyFloat.geb_int f 0); simpl; eexists; reflexivity.
  - intros Hnone. change (0 - 1) with (-1). by rewrite Hnone.
Qed.

(** The plan object that has only an empty list of steps. *)
Lemma empty_plan_has_no_answer_witness :
  @execute_plan Reader.runtime Scenarios.no_steps Examples.steady_source
  = (raise IndexError "list index out of range", Examples.steady_source).
Proof.
  refine (proj2 (@empty_plan_has_no_answer Reader.runtime Scenarios.no_steps
                   (JDict [("steps"%string, JList [])]) (JList [])
                   Examples.steady_source _ _ _) _).
  - vm_compute. reflexivity.
  - reflexivity.
  - reflexivity.
  - reflexivity.
Defined.

(** X10. A negative final-step index that is not below minus the number of
    steps selects the step counted from the end: the plan runs as the same
    steps with that index plus the number of steps. *)
Theorem negative_index_counts_from_end `{Runtime} (plan plan' steps : json)
    (n i : Z) (m : machine) :
  get plan "steps" (JList []) = Ok steps ->
  get plan' "steps" (JList []) = Ok steps ->
  len steps = Ok n ->
  get plan "final_step_index" (JInt (n - 1)) = Ok (JInt i) ->
  get plan' "final_step_index" (JInt (n - 1)) = Ok (JInt (n + i)) ->
  - n <= i < 0 ->
  execute_loaded plan m = execute_loaded plan' m.
Proof.
  intros Hsteps Hsteps' Hlen Hfinal Hfinal' Hi.
  unfold execute_loaded, bind, lift, throw.
  rewrite Hsteps, Hsteps', Hlen, Hfinal, Hfinal'. simpl.
  assert ((n <=? i) = false) as -> by (apply Z.leb_gt; lia).
  assert ((n <=? n + i) = false) as -> by (apply Z.leb_gt; lia).
  destruct (run_steps 0 (items steps) [] m) as [[rs|e] m1] eqn:Hrun; [|done].
  simpl. rewrite (index_from_end rs n i); [done| |done].
  rewrite (len_items _ _ Hlen). apply run_steps_length in Hrun. simpl in Hrun. lia.
Qed.

(** Of two steps, the index -1 selects step 1. *)
Lemma negative_index_counts_from_end_witness :
  @execute_loaded Reader.runtime
    (Examples.loaded_plan [Examples.delta_10_3; Examples.abs_minus_6] (-1))
    Examples.failing_source
  = @execute_loaded Reader.runtime
      (Examples.loaded_plan [Examples.delta_10_3; Examples.abs_minus_6] 1)
      Examples.failing_source.
Proof.
  apply (@negative_index_counts_from_end Reader.runtime _ _
           (JList [Examples.delta_10_3; Examples.abs_minus_6]) 2 (-1));
    first [reflexivity|lia].
Defined.

(** X11. A final-step index that is neither an integer nor a boolean, a
    float or a text for one, makes the run raise, whatever the steps do. *)
Theorem final_index_must_be_integer `{Runtime} (plan_text : string)
    (plan steps final_idx : json) (n : Z) (m : machine) :
  json_loads plan_text = Ok plan ->
  get plan "steps" (JList []) = Ok steps ->
  len steps = Ok n ->
  get plan "final_step_index" (JInt (n - 1)) = Ok final_idx ->
  (forall i, final_idx <> JInt i) ->
  (forall b, final_idx <> JBool b) ->
  exists e, fst (execute_plan plan_text m) = Raised e.
Proof.
  intros Hload Hsteps Hlen Hfinal Hint Hbool.
  rewrite (execute_plan_loaded _ _ _ Hload).
  unfold execute_loaded, bind, lift, throw. rewrite Hsteps, Hlen, Hfinal.
  destruct final_idx as [|b|i|f|s|l|d]; simpl; try (eexists; reflexivity).
  - by destruct (Hbool b).
  - by destruct (Hint i).
  - destruct (PyFloat.geb_int f n); simpl; [eexists; reflexivity|].
    destruct (run_steps 0 (items steps) [] m) as [[rs|e] m1]; simpl;
      eexists; reflexivity.
Qed.

(** The index given as the text 0. *)
Lemma final_index_must_be_integer_witness :
  exists e,
    fst (@execute_plan Reader.runtime Scenarios.final_index_as_text
           Examples.steady_source) = Raised e.
Proof.
  refine (@final_index_must_be_integer Reader.runtime Scenarios.final_index_as_text
            (JDict [("steps"%string, JList [Examples.delta_10_3]);
                    ("final_step_index"%string, JStr "0")])
            (JList [Examples.delta_10_3]) (JStr "0") 1 Examples.steady_source
            _ _ _ _ _ _).
  - vm_compute. reflexivity.
  - reflexivity.
  - reflexivity.
  - reflexivity.
  - intros i. discriminate.
  - intros b. discriminate.
Defined.

(** ** The conversation with the planner *)

(** X12. The text [conversation_with_planner] returns is the stripped
    content of the last reply of the service; it contains both markers of a
    plan and has no white space at its ends. *)
Theorem conversation_ends_with_a_plan (chat : oracle) (fuel made : nat)
    (user_question text : string) (made' : nat) :
  conversation_with_planner chat fuel made user_question = (Some (Ok text), made') ->
  PyStr.contains steps_marker text = true
  /\ PyStr.contains final_marker text = true
  /\ PyStr.strip text = text
  /\ exists msgs resp,
       chat (made' - 1)%nat msgs = Ok resp /\ text = PyStr.strip (content resp).
Proof.
  intros Hconv.
  destruct (planner_loop_plan _ _ _ _ _ _ Hconv) as (msgs & resp & Hchat & -> & Hs & Hf).
  repeat split; try done; [apply PyStrFacts.strip_idem|by exists msgs, resp].
Qed.

(** The planner that answers with the plan of Example 1 at once. *)
Lemma conversation_ends_with_a_plan_witness :
  PyStr.contains steps_marker Examples.delta_then_product = true
  /\ PyStr.contains final_marker Examples.delta_then_product = true
  /\ PyStr.strip Examples.delta_then_product = Examples.delta_then_product.
Proof.
  destruct (conversation_ends_with_a_plan Examples.good_good 1 0 Examples.request
              Examples.delta_then_product 1) as (Hsteps & Hfinal & Hstrip & _).
  - vm_compute. reflexivity.
  - by repeat split.
Defined.

(** X13. A conversation calls the service at least once when it ends and at
    most as often as it has rounds; it makes every round when it does not
    end; and the exception it raises is the one the last call raised. *)
Theorem conversation_calls (chat : oracle) (fuel made : nat) (user_question : string) :
  let r := fst (conversation_with_planner chat fuel made user_question) in
  let made' := snd (conversation_with_planner chat fuel made user_question) in
  (made <= made' <= made + fuel)%nat
  /\ (r = None -> made' = (made + fuel)%nat)
  /\ (is_Some r -> (made < made')%nat)
  /\ (forall e, r = Some (Raised e) ->
        exists msgs, chat (made' - 1)%nat msgs = Raised e).
Proof.
  unfold conversation_with_planner. simpl.
  pose proof (planner_loop_calls chat fuel made
                [Message "system" SYSTEM_PROMPT; Message "user" user_question]) as Hcalls.
  destruct (planner_loop chat fuel made _) as [r made'] eqn:Hloop. simpl.
  destruct Hcalls as (Hle & Hnone & Hsome). repeat split; try done; try lia.
  intros e ->. by eapply planner_loop_raise.
Qed.

(** Three rounds with a planner that only chats. *)
Lemma conversation_calls_witness :
  snd (conversation_with_planner Scenarios.chatty 3 0 Examples.request) = 3%nat.
Proof.
  destruct (conversation_calls Scenarios.chatty 3 0 Examples.request)
    as (_ & Hnone & _).
  apply Hnone. vm_compute. reflexivity.
Defined.

(** X14. The transcript sent with the [k]-th call of a conversation is the
    system prompt, the question, and [k] rounds.  Each round is the reply
    the service gave to the transcript before it, under the role of that
    reply and with its content stripped, followed by an assistant message
    with one of the ten texts the function can say: the list of names
    exactly when the reply, in lower case, asks which tools exist, and the
    nudge exactly when the reply holds neither request phrase.  So a
    service that refuses every other transcript gives the same
    conversation. *)
Theorem conversation_keeps_its_transcript (chat : oracle) (fuel made : nat)
    (user_question : string) :
  conversation_with_planner (strict user_question made chat) fuel made user_question
  = conversation_with_planner chat fuel made user_question.
Proof.
  unfold conversation_with_planner. apply planner_loop_strict; [done|].
  rewrite Nat.sub_diag. unfold well_kept. by rewrite !message_eqb_refl.
Qed.

(** X15. [parse_tool_request] returns the first of the seven names, in the
    order sum, product, delta, quotient, modulo, power, abs, that occurs in
    the text, and the empty text when none occurs. *)
Theorem parse_tool_request_first_name (text : string) :
  let t := parse_tool_request text in
  (t = ""%string /\ Forall (fun n => ~ occurs_in n text) request_names)
  \/ (exists earlier later,
        request_names = earlier ++ t :: later
        /\ occurs_in t text
        /\ Forall (fun n => ~ occurs_in n text) earlier).
Proof.
  destruct (first_contained_spec request_names text)
    as [[Ht Hall]|(earlier & later & Hnames & Ht & Hall)].
  - left. split; [exact Ht|]. by apply none_contained.
  - right. exists earlier, later. split; [exact Hnames|].
    split; [by apply contains_occurs|by apply none_contained].
Qed.

(** X16. The planner is told that there is no such tool exactly when its
    request contains none of the seven names. *)
Theorem no_such_tool_only_when_none_named (text : string) :
  get_tool_doc (parse_tool_request text) = "No such tool."%string
  <-> Forall (fun n => ~ occurs_in n text) request_names.
Proof.
  rewrite <- none_contained.
  change (parse_tool_request text) with (first_contained request_names text).
  destruct (first_contained_spec request_names text)
    as [[Ht Hall]|(before & after & Hnames & Ht & Hall)].
  - rewrite Ht. by split.
  - set (t := first_contained request_names text) in *.
    assert (t ∈ request_names) as Hin.
    { rewrite Hnames. apply elem_of_app. right. constructor. }
    split.
    + intros Hdoc. exfalso. clearbody t. clear -Hin Hdoc.
      unfold request_names in Hin.
      repeat (apply elem_of_cons in Hin as [Hin|Hin];
              [rewrite Hin in Hdoc; discriminate|]).
      by apply elem_of_nil in Hin.
    + intros Hnone. exfalso.
      rewrite Forall_forall in Hnone. specialize (Hnone _ Hin). congruence.
Qed.

(** ** The cache of plans *)

(** X17. The signature of a request is empty exactly when the request is
    white space only, so that all such requests share one cache entry. *)
Theorem blank_requests_share_a_signature (question : string) :
  get_question_signature question = ""%string <-> blank question = true.
Proof.
  unfold get_question_signature, PyStr.strip. rewrite lower_empty, <- lstrip_blank.
  split.
  - apply rstrip_trimmed_empty, PyStrFacts.lstrip_trimmed.
  - by intros ->.
Qed.

(** X18. [store_virtual_tool] sets the entry of its signature, leaves every
    other entry and every counter as they were, and overwrites an older
    entry of the same signature. *)
Theorem store_then_lookup (signature plan_text : string) (w : world) :
  cached (store_virtual_tool signature plan_text w) signature = Some plan_text
  /\ (forall s, s <> signature ->
        cached (store_virtual_tool signature plan_text w) s = cached w s)
  /\ (forall s, count_of (store_virtual_tool signature plan_text w) s = count_of w s)
  /\ (forall older,
        store_virtual_tool signature plan_text
          (store_virtual_tool signature older w)
        = store_virtual_tool signature plan_text w).
Proof.
  unfold cached, store_virtual_tool. simpl. split; [|split; [|split]].
  - by rewrite lookup_insert_eq.
  - intros s Hs. by rewrite lookup_insert_ne.
  - done.
  - intros older. by rewrite insert_insert_eq.
Qed.

(** Storing under one signature leaves another without an entry. *)
Lemma store_then_lookup_witness :
  cached (store_virtual_tool "a" Examples.absolute_only
            (Examples.initial Examples.steady_source)) "b" = None.
Proof.
  destruct (store_then_lookup "a" Examples.absolute_only
              (Examples.initial Examples.steady_source)) as (_ & Hother & _).
  rewrite Hother; [reflexivity|discriminate].
Defined.

(** X19. In every state the module can reach from its initial one, a
    success counter is 0, 1 or 2, and a signature has a cached plan exactly
    when its counter is 2. *)
Theorem counter_and_cache_agree `{Runtime} (w : world) (sig : string) :
  reachable w ->
  0 <= count_of w sig <= 2
  /\ (is_Some (cached w sig) <-> count_of w sig = 2).
Proof.
  intros Hw%reachable_invariant. destruct (Hw sig) as [Hrange Hcase].
  split; [done|]. destruct (cached w sig) as [p|].
  - destruct Hcase as [Hc _]. by split.
  - split; [by intros [? ?]|lia].
Qed.

(** After two fresh successes the counter of the request is 2. *)
Lemma counter_and_cache_agree_witness :
  count_of Scenarios.asked_twice (get_question_signature Examples.request) = 2.
Proof.
  destruct (@counter_and_cache_agree Reader.runtime Scenarios.asked_twice
              (get_question_signature Examples.request)) as [_ Hcached].
  - apply reachable_ask, reachable_ask, reachable_initial.
  - apply Hcached. exists Examples.absolute_only. vm_compute. reflexivity.
Defined.

(** X20. In every reachable state a cached plan is a text the conversation
    returned: it contains both markers and has no white space at its
    ends. *)
Theorem cached_plans_are_final_plans `{Runtime} (w : world) (sig p : string) :
  reachable w ->
  cached w sig = Some p ->
  PyStr.contains steps_marker p = true
  /\ PyStr.contains final_marker p = true
  /\ PyStr.strip p = p.
Proof.
  intros Hw%reachable_invariant Hp. specialize (Hw sig). rewrite Hp in Hw.
  by destruct Hw as (_ & _ & Hs & Hf & Hstrip & _).
Qed.

(** The plan cached after two fresh successes. *)
Lemma cached_plans_are_final_plans_witness :
  PyStr.contains steps_marker Examples.absolute_only = true
  /\ PyStr.contains final_marker Examples.absolute_only = true
  /\ PyStr.strip Examples.absolute_only = Examples.absolute_only.
Proof.
  apply (@cached_plans_are_final_plans Reader.runtime Scenarios.asked_twice
           (get_question_signature Examples.request)).
  - apply reachable_ask, reachable_ask, reachable_initial.
  - vm_compute. reflexivity.
Defined.

(** X21. In every reachable state a request whose signature is cached is
    answered with a success, from the cached plan, whatever the random
    source and the service do; the answer is the number the plan has in the
    exact arithmetic. *)
Theorem cache_hits_succeed `{Runtime} (chat : oracle) (fuel : nat) (q : string)
    (w : world) (p : string) :
  reachable w ->
  cached w (get_question_signature q) = Some p ->
  exists o val x,
    fst (ask_system chat fuel q w) = Returns o
    /\ status o = success
    /\ via o = virtual_tool
    /\ plan o = p
    /\ answer o = Some val
    /\ exact_plan p = Ok x
    /\ equal_to x val.
Proof.
  intros Hw%reachable_invariant Hp. specialize (Hw (get_question_signature q)).
  rewrite Hp in Hw. destruct Hw as (_ & _ & _ & _ & _ & x & Hx).
  unfold cached in Hp.
  destruct (virtual_tools w !! get_question_signature q) as [[p']|] eqn:Hq; [|done].
  injection Hp as ->.
  rewrite (ask_system_hit chat _ _ _ _ Hq). simpl.
  destruct (exact_plan_ok_execute p (mach w) x Hx) as (r & Hr & Heq).
  destruct (execute_plan p (mach w)) as [[val|e] m]; simpl in *; [|done].
  injection Hr as ->. by exists (Outcome q p (Some r) None success virtual_tool), r, x.
Qed.

(** The cached request, with a service that is out of quota. *)
Lemma cache_hits_succeed_witness :
  exists o val x,
    fst (@ask_system Reader.runtime Examples.rate_limited 0 Examples.request
           Scenarios.asked_twice) = Returns o
    /\ status o = success
    /\ via o = virtual_tool
    /\ plan o = Examples.absolute_only
    /\ answer o = Some val
    /\ @exact_plan Reader.runtime Examples.absolute_only = Ok x
    /\ equal_to x val.
Proof.
  apply (@cache_hits_succeed Reader.runtime).
  - apply reachable_ask, reachable_ask, reachable_initial.
  - vm_compute. reflexivity.
Defined.

(** ** Requests *)

(** X22. A returned outcome repeats the request as it was given, and its
    provenance tells where the plan came from: it is the cache exactly when
    the signature was cached before the call, and then the service was not
    called; a fresh outcome has called the service at least once. *)
Theorem provenance_tells_the_source `{Runtime} (chat : oracle) (fuel : nat)
    (q : string) (w : world) (o : outcome) :
  fst (ask_system chat fuel q w) = Returns o ->
  let w' := snd (ask_system chat fuel q w) in
  question o = q
  /\ (via o = virtual_tool <-> is_Some (cached w (get_question_signature q)))
  /\ (via o = virtual_tool -> oracle_calls w' = oracle_calls w)
  /\ (via o = fresh_llm -> (oracle_calls w < oracle_calls w')%nat).
Proof.
  unfold cached.
  destruct (virtual_tools w !! get_question_signature q) as [entry|] eqn:Hq.
  - rewrite (ask_system_hit chat _ _ _ _ Hq).
    destruct (execute_plan _ _) as [[val|e] m]; simpl; intros [= <-]; simpl;
      repeat split; try done; by eexists.
  - rewrite (ask_system_miss chat _ _ _ Hq). simpl.
    pose proof (conversation_loop_calls chat fuel (oracle_calls w) q) as Hcalls.
    destruct (conversation_with_planner _ _ _ _) as [[[text|e]|] made]; try done.
    simpl in *. destruct Hcalls as (_ & _ & Hsome).
    assert (oracle_calls w < made)%nat as Hlt by (apply Hsome; by eexists).
    destruct (execute_plan _ _) as [[val|e] m]; simpl; intros [= <-]; simpl;
      repeat split; try done; try (by intros [? ?]).
    destruct (_ =? 2); simpl; intros _; exact Hlt.
Qed.

(** The first request is answered from a fresh plan, with one call. *)
Lemma provenance_tells_the_source_witness :
  (oracle_calls (Examples.initial Examples.steady_source)
   < oracle_calls (snd (@ask_system Reader.runtime Examples.good_good 1
                          Examples.request
                          (Examples.initial Examples.steady_source))))%nat.
Proof.
  assert (exists o,
             fst (@ask_system Reader.runtime Examples.good_good 1 Examples.request
                    (Examples.initial Examples.steady_source)) = Returns o
             /\ via o = fresh_llm) as (o & Ho & Hvia)
    by (eexists; split; vm_compute; reflexivity).
  destruct (@provenance_tells_the_source Reader.runtime _ _ _ _ o Ho)
    as (_ & _ & _ & Hfresh).
  exact (Hfresh Hvia).
Defined.

(** X23. Two requests with the same signature, made in the same state in
    which that signature is cached, leave the same state and return
    outcomes that differ in nothing but the request text they repeat,
    whatever the services are. *)
Theorem same_signature_same_cached_plan `{Runtime} (chat chat' : oracle)
    (fuel fuel' : nat) (q q' : string) (w : world) :
  is_Some (cached w (get_question_signature q)) ->
  get_question_signature q' = get_question_signature q ->
  snd (ask_system chat' fuel' q' w) = snd (ask_system chat fuel q w)
  /\ exists o o',
       fst (ask_system chat fuel q w) = Returns o
       /\ fst (ask_system chat' fuel' q' w) = Returns o'
       /\ question o' = q'
       /\ plan o' = plan o /\ answer o' = answer o /\ error o' = error o
       /\ status o' = status o /\ via o' = via o.
Proof.
  unfold cached. intros [p Hp] Hsig.
  destruct (virtual_tools w !! get_question_signature q) as [entry|] eqn:Hq; [|done].
  rewrite (ask_system_hit chat _ _ _ _ Hq).
  rewrite <- Hsig in Hq. rewrite (ask_system_hit chat' _ _ _ _ Hq).
  destruct (execute_plan _ _) as [[val|e] m]; simpl;
    (split; [done|]); do 2 eexists; by repeat split.
Qed.

(** The cached request, and the same request shouted. *)
Lemma same_signature_same_cached_plan_witness :
  snd (@ask_system Reader.runtime Examples.rate_limited 0 Scenarios.request_shouted
         Scenarios.asked_twice)
  = snd (@ask_system Reader.runtime Examples.good_good 1 Examples.request
           Scenarios.asked_twice).
Proof.
  apply (@same_signature_same_cached_plan Reader.runtime).
  - exists Examples.absolute_only. vm_compute. reflexivity.
  - vm_compute. reflexivity.
Defined.

(** X24. In a run of requests from the initial state in which every request
    succeeds, a request is answered from the cache exactly when at least
    two earlier requests of the run had its signature: the third request of
    a kind is the first to be served from the cache. *)
Theorem third_request_comes_from_the_cache `{Runtime} (chat : oracle) (fuel : nat)
    (qs : list string) (m : machine) (n : nat) (os : list outcome) (w' : world) :
  ask_all chat fuel qs (World ∅ ∅ m n) = (os, Finished, w') ->
  Forall (fun o => status o = success) os ->
  length os = length qs
  /\ forall i q o, qs !! i = Some q -> os !! i = Some o ->
       question o = q
       /\ (via o = virtual_tool
           <-> (2 <= seen (get_question_signature q) (take i qs))%nat).
Proof.
  intros Hrun Hall.
  destruct (ask_all_counted chat fuel qs _ [] os w' (counted_initial m n) Hrun Hall)
    as (Hlen & _ & Hvia).
  by split.
Qed.

(** The same request three times. *)
Lemma third_request_comes_from_the_cache_witness :
  exists o,
    fst (fst (@ask_all Reader.runtime Examples.good_good 1
                [Examples.request; Examples.request; Examples.request]
                (World ∅ ∅ Examples.steady_source 0))) !! 2%nat = Some o
    /\ via o = virtual_tool.
Proof.
  set (run := @ask_all Reader.runtime Examples.good_good 1
                [Examples.request; Examples.request; Examples.request]
                (World ∅ ∅ Examples.steady_source 0)).
  assert (run = (fst (fst run), Finished, snd run)) as Hrun
    by (vm_compute; reflexivity).
  assert (Forall (fun o => status o = success) (fst (fst run))) as Hall
    by (vm_compute; repeat constructor).
  destruct (@third_request_comes_from_the_cache Reader.runtime _ _ _ _ _ _ _
              Hrun Hall) as [Hlen Hvia].
  destruct (fst (fst run) !! 2%nat) as [o|] eqn:Ho.
  - exists o. split; [reflexivity|].
    apply (Hvia 2%nat Examples.request o eq_refl Ho). vm_compute. lia.
  - apply lookup_ge_None in Ho. rewrite Hlen in Ho. simpl in Ho. lia.
Defined.

(** X25. When every request of [main] succeeds, six outcomes are printed,
    and the fifth, the third asking of the difference and product, is the
    only one answered from the cache: the fourth, the second asking of the
    apples, only stores its plan. *)
Theorem main_uses_the_cache_once `{Runtime} (chat : oracle) (fuel : nat)
    (m : machine) (n : nat) (os : list outcome) (w' : world) :
  main chat fuel (World ∅ ∅ m n) = (os, Finished, w') ->
  Forall (fun o => status o = success) os ->
  length os = 6%nat
  /\ forall i o, os !! i = Some o -> (via o = virtual_tool <-> i = 4%nat).
Proof.
  intros Hrun Hall. unfold main in Hrun.
  destruct (ask_all_counted chat fuel queries _ [] os w' (counted_initial m n) Hrun Hall)
    as (Hlen & _ & Hvia).
  split; [exact Hlen|]. intros i o Ho.
  assert (i < length queries)%nat as Hi
    by (apply lookup_lt_Some in Ho; by rewrite Hlen in Ho).
  apply lookup_lt_is_Some in Hi as [q Hq].
  destruct (Hvia i q o Hq Ho) as [_ ->]. rewrite app_nil_l, (queries_seen i q Hq).
  do 6 (destruct i as [|i]; [simpl; lia|]).
  apply lookup_lt_Some in Hq. simpl in Hq. lia.
Qed.

(** [main] with a planner that has a good plan for each fresh request. *)
Lemma main_uses_the_cache_once_witness :
  length (fst (fst (@main Reader.runtime Scenarios.five_plans 1
                      (World ∅ ∅ Examples.steady_source 0)))) = 6%nat.
Proof.
  set (run := @main Reader.runtime Scenarios.five_plans 1
                (World ∅ ∅ Examples.steady_source 0)).
  assert (run = (fst (fst run), Finished, snd run)) as Hrun
    by (vm_compute; reflexivity).
  assert (Forall (fun o => status o = success) (fst (fst run))) as Hall
    by (vm_compute; repeat constructor).
  exact (proj1 (@main_uses_the_cache_once Reader.runtime _ _ _ _ _ _ Hrun Hall)).
Defined.
